(** * busmap-front: the search / fan-out / fan-in pipeline

    A shallow embedding of the two source units of the client:

    - [SptransService] ([src/app/app.service.ts]): the API client, whose
      operations are RxJS pipelines over [HttpClient.get];
    - [AppComponent] (the component listed in [COMO_EXECUTAR.md]): the view
      controller, whose methods mutate the component fields and the Leaflet
      map from subscription callbacks.

    The file has three layers: the JavaScript values and builtins the code
    relies on ([Js]), the observable operators it uses ([Rx]), and the two
    classes themselves.  The theorems follow the definitions. *)

From stdpp Require Import base option list strings.
From Stdlib Require Import Ascii ZArith Lia DecimalString.

Local Open Scope string_scope.
Local Open Scope list_scope.

(** ** JavaScript values *)

Module Js.

(** A number is kept as the decimal it denotes: [Finite neg d e] is
    [d * 10^e], negated when [neg].  Rounding to a double is not modelled;
    only zero-ness, NaN-ness and the printed form are observed by the code. *)
Inductive Number :=
| NaN
| Infinity (neg : bool)
| Finite (neg : bool) (digits : N) (exp : Z).

(** The values JSON can produce, plus [undefined].  An object is the list
    of its own properties; on a repeated key the first binding is the one
    in force. *)
#[local] Unset Elimination Schemes.
Inductive Val :=
| Undefined
| Null
| Bool (b : bool)
| Num (n : Number)
| Str (s : string)
| Arr (elems : list Val)
| Obj (props : list (string * Val)).
#[local] Set Elimination Schemes.

(** What a JavaScript expression evaluates to: a value, or a thrown
    exception carrying a value. *)
Inductive Result (A : Type) :=
| Ok (a : A)
| Throw (e : Val).
Global Arguments Ok {A} a.
Global Arguments Throw {A} e.

(** The [TypeError] raised by reading a property of [null] or [undefined]
    and by calling something that is not a function. *)
Definition type_error : Val := Obj [("name", Str "TypeError")].

Definition int (z : Z) : Val := Num (Finite (z <? 0)%Z (Z.abs_N z) 0).

Definition isNaN (n : Number) : bool :=
  match n with NaN => true | _ => false end.

Definition is_zero (n : Number) : bool :=
  match n with Finite _ d _ => (d =? 0)%N | _ => false end.

(** [ToBoolean]. *)
Definition truthy (v : Val) : bool :=
  match v with
  | Undefined | Null => false
  | Bool b => b
  | Num n => negb (isNaN n) && negb (is_zero n)
  | Str s => negb (String.eqb s "")
  | Arr _ | Obj _ => true
  end.

(** [a || b]. *)
Definition or (a b : Val) : Val := if truthy a then a else b.

Definition isArray (v : Val) : bool :=
  match v with Arr _ => true | _ => false end.

Definition nullish (v : Val) : bool :=
  match v with Undefined | Null => true | _ => false end.

Fixpoint assoc (k : string) (ps : list (string * Val)) : Val :=
  match ps with
  | [] => Undefined
  | (k', v) :: ps' => if String.eqb k k' then v else assoc k ps'
  end.

(** [v.k] for the property names the code reads ([cl], [c], [codigo],
    [codigoLinha], [sl], [vs], [hr], [py], [px], [ta], [a], [status]): none
    of them exists on the prototypes of primitives or arrays, so only an
    object can answer with something else than [undefined]; reading a
    property of [null] or [undefined] throws. *)
Definition get (v : Val) (k : string) : Result Val :=
  match v with
  | Undefined | Null => Throw type_error
  | Obj ps => Ok (assoc k ps)
  | _ => Ok Undefined
  end.

(** *** Strings *)

Fixpoint chars (s : string) : list ascii :=
  match s with
  | EmptyString => []
  | String c s' => c :: chars s'
  end.

Fixpoint unchars (l : list ascii) : string :=
  match l with
  | [] => EmptyString
  | c :: l' => String c (unchars l')
  end.

Definition bytes (l : list nat) : list ascii := ascii_of_nat <$> l.

(** The UTF-8 encodings of the [WhiteSpace] and [LineTerminator] code
    points (strings are UTF-8 byte sequences). *)
Definition white_space : list (list ascii) :=
  bytes <$>
    [ [9]; [10]; [11]; [12]; [13]; [32];
      [194; 160]; [225; 154; 128];
      [226; 128; 128]; [226; 128; 129]; [226; 128; 130]; [226; 128; 131];
      [226; 128; 132]; [226; 128; 133]; [226; 128; 134]; [226; 128; 135];
      [226; 128; 136]; [226; 128; 137]; [226; 128; 138];
      [226; 128; 168]; [226; 128; 169]; [226; 128; 175];
      [226; 129; 159]; [227; 128; 128]; [239; 187; 191] ].

Fixpoint strip_prefix (p l : list ascii) : option (list ascii) :=
  match p, l with
  | [], _ => Some l
  | a :: p', b :: l' => if Ascii.eqb a b then strip_prefix p' l' else None
  | _ :: _, [] => None
  end.

Fixpoint strip_any (ps : list (list ascii)) (l : list ascii)
  : option (list ascii) :=
  match ps with
  | [] => None
  | p :: ps' =>
      match strip_prefix p l with
      | Some r => Some r
      | None => strip_any ps' l
      end
  end.

Fixpoint trim_start_fuel (fuel : nat) (ws : list (list ascii))
    (l : list ascii) : list ascii :=
  match fuel with
  | O => l
  | S f =>
      match strip_any ws l with
      | Some r => trim_start_fuel f ws r
      | None => l
      end
  end.

(** Every white-space sequence is non-empty, so [length l] rounds suffice. *)
Definition trim_start (l : list ascii) : list ascii :=
  trim_start_fuel (length l) white_space l.

Definition trim_end (l : list ascii) : list ascii :=
  reverse (trim_start_fuel (length l) (reverse <$> white_space) (reverse l)).

(** [String.prototype.trim]. *)
Definition trim (s : string) : string :=
  unchars (trim_end (trim_start (chars s))).

(** *** Numbers to strings *)

(** The decimal digits of a natural number. *)
Definition decimal (n : N) : string :=
  NilEmpty.string_of_uint (N.to_uint n).

Fixpoint drop_zeros_end (rev_digits : list ascii) : list ascii :=
  match rev_digits with
  | c :: l => if Ascii.eqb c "0" then drop_zeros_end l else rev_digits
  | [] => []
  end.

Definition zeros (n : nat) : list ascii := replicate n ("0"%char).

(** [Number::toString]: with [s] the [k] significant digits and the value
    equal to [0.s * 10^n], the four layouts of the standard. *)
Definition number_to_chars (x : Number) : list ascii :=
  match x with
  | NaN => chars "NaN"
  | Infinity neg => (if neg then chars "-" else []) ++ chars "Infinity"
  | Finite neg d e =>
      if (d =? 0)%N then chars "0" else
      let all := chars (decimal d) in
      let s := reverse (drop_zeros_end (reverse all)) in
      let k := Z.of_nat (length s) in
      let n := (Z.of_nat (length all) + e)%Z in
      let body :=
        if (k <=? n)%Z && (n <=? 21)%Z then
          s ++ zeros (Z.to_nat (n - k))
        else if (0 <? n)%Z && (n <=? 21)%Z then
          take (Z.to_nat n) s ++ chars "." ++ drop (Z.to_nat n) s
        else if (-6 <? n)%Z && (n <=? 0)%Z then
          chars "0." ++ zeros (Z.to_nat (- n)) ++ s
        else
          let ex := (n - 1)%Z in
          let tail := chars (if (ex <? 0)%Z then "e-" else "e+")
                      ++ chars (decimal (Z.abs_N ex)) in
          match s with
          | [c] => c :: tail
          | c :: rest => c :: chars "." ++ rest ++ tail
          | [] => []
          end in
      (if neg then chars "-" else []) ++ body
  end.

(** [ToString]; an array prints its elements joined by commas, with
    [null] and [undefined] printed as nothing. *)
Fixpoint to_chars (v : Val) : list ascii :=
  match v with
  | Undefined => chars "undefined"
  | Null => chars "null"
  | Bool b => chars (if b then "true" else "false")
  | Num n => number_to_chars n
  | Str s => chars s
  | Arr l =>
      (fix join (l : list Val) : list ascii :=
         match l with
         | [] => []
         | x :: r =>
             (match x with
              | Undefined | Null => []
              | _ => to_chars x
              end)
             ++ match r with
                | [] => []
                | _ :: _ => chars "," ++ join r
                end
         end) l
  | Obj _ => chars "[object Object]"
  end.

Definition to_string (v : Val) : string := unchars (to_chars v).

(** *** [parseFloat] *)

Definition is_digit (c : ascii) : bool :=
  let n := nat_of_ascii c in (48 <=? n)%nat && (n <=? 57)%nat.

Definition digit_val (c : ascii) : N := N.of_nat (nat_of_ascii c - 48).

Fixpoint span_digits (l : list ascii) : list ascii * list ascii :=
  match l with
  | c :: r =>
      if is_digit c
      then let '(ds, rest) := span_digits r in (c :: ds, rest)
      else ([], l)
  | [] => ([], [])
  end.

Definition digits_value (ds : list ascii) : N :=
  foldl (fun acc c => (acc * 10 + digit_val c)%N) 0%N ds.

Definition split_sign (l : list ascii) : bool * list ascii :=
  match l with
  | c :: r =>
      if Ascii.eqb c "-" then (true, r)
      else if Ascii.eqb c "+" then (false, r)
      else (false, l)
  | [] => (false, [])
  end.

(** An [ExponentPart] counts only when at least one digit follows. *)
Definition exponent_part (l : list ascii) : Z :=
  match l with
  | c :: r =>
      if Ascii.eqb c "e" || Ascii.eqb c "E" then
        let '(neg, r') := split_sign r in
        let '(ds, _) := span_digits r' in
        match ds with
        | [] => 0%Z
        | _ :: _ =>
            let v := Z.of_N (digits_value ds) in
            if neg then (- v)%Z else v
        end
      else 0%Z
  | [] => 0%Z
  end.

(** The longest prefix of the trimmed input that is a
    [StrDecimalLiteral]; [NaN] when there is none. *)
Definition parse_float_chars (l : list ascii) : Number :=
  let '(neg, l1) := split_sign (trim_start l) in
  match strip_prefix (chars "Infinity") l1 with
  | Some _ => Infinity neg
  | None =>
      let '(ip, l2) := span_digits l1 in
      let '(fp, l3) :=
        match l2 with
        | c :: r =>
            if Ascii.eqb c "."
            then
              let '(fp, l3) := span_digits r in
              match ip, fp with
              | [], [] => ([], l2)
              | _, _ => (fp, l3)
              end
            else ([], l2)
        | [] => ([], [])
        end in
      match ip, fp with
      | [], [] => NaN
      | _, _ =>
          Finite neg (digits_value (ip ++ fp))
                 (exponent_part l3 - Z.of_nat (length fp))
      end
  end.

(** [parseFloat(v)]: the argument is converted to a string first. *)
Definition parseFloat (v : Val) : Number := parse_float_chars (to_chars v).

(** *** [encodeURIComponent] *)

Definition unreserved (c : ascii) : bool :=
  let n := nat_of_ascii c in
  ((65 <=? n) && (n <=? 90) || (97 <=? n) && (n <=? 122)
   || (48 <=? n) && (n <=? 57))%nat
  || existsb (Ascii.eqb c) (chars "-_.!~*'()").

Definition hex_digit (n : nat) : ascii :=
  ascii_of_nat (if (n <? 10)%nat then 48 + n else 55 + n).

Definition percent (c : ascii) : list ascii :=
  let n := nat_of_ascii c in
  [ "%"%char; hex_digit (n / 16); hex_digit (n mod 16) ].

(** On well-formed text the function is total: each byte outside the
    unreserved set is escaped. *)
Definition encodeURIComponent (v : Val) : string :=
  unchars (c ← to_chars v; if unreserved c then [c] else percent c).

(** [x === n] for a number literal [n]. *)
Definition strict_eq_int (v : Val) (n : Z) : bool :=
  match v with
  | Num (Finite neg d e) =>
      if (d =? 0)%N then (n =? 0)%Z
      else
        let z := if neg then (- Z.of_N d)%Z else Z.of_N d in
        if (0 <=? e)%Z then (z * 10 ^ e =? n)%Z
        else (z =? n * 10 ^ (- e))%Z
  | _ => false
  end.

End Js.

(** ** Observables *)

Module Rx.
Import Js.

(** What [HttpClient.get] ends with: one body, or an error. *)
Inductive HttpResult :=
| HttpOk (body : Val)
| HttpFail (erro : Val).

(** The upstream service: what each URL answers. *)
Definition Upstream := string -> HttpResult.

Inductive Completion :=
| Complete
| Error (e : Val).

(** The notifications a subscriber receives: the values, then the end. *)
Record Notifs (A : Type) := { items : list A; fin : Completion }.
Global Arguments items {A} _.
Global Arguments fin {A} _.

(** An observable is cold: it does nothing until it is subscribed.  A
    subscription, against an upstream, issues the listed requests and
    delivers the notifications. *)
Definition Observable (A : Type) : Type := Upstream -> list string * Notifs A.

Definition subscribe {A} (o : Observable A) (up : Upstream)
  : list string * Notifs A := o up.

(** [of(a)]. *)
Definition of_ {A} (a : A) : Observable A :=
  fun _ => ([], {| items := [a]; fin := Complete |}).

(** [this.http.get(url)]. *)
Definition http_get (url : string) : Observable Val :=
  fun up =>
    ([url],
     match up url with
     | HttpOk body => {| items := [body]; fin := Complete |}
     | HttpFail erro => {| items := []; fin := Error erro |}
     end).

(** [catchError(h)]: on an error the handler's observable takes over; a
    handler that throws turns into an error notification. *)
Definition catchError {A} (h : Val -> Result (Observable A))
    (o : Observable A) : Observable A :=
  fun up =>
    let '(reqs, n) := o up in
    match fin n with
    | Complete => (reqs, n)
    | Error e =>
        match h e with
        | Ok o' =>
            let '(reqs', n') := o' up in
            (reqs ++ reqs', {| items := items n ++ items n'; fin := fin n' |})
        | Throw e' => (reqs, {| items := items n; fin := Error e' |})
        end
    end.

Fixpoint map_items {A B} (f : A -> Result B) (l : list A)
  : list B * option Val :=
  match l with
  | [] => ([], None)
  | a :: r =>
      match f a with
      | Ok b => let '(bs, err) := map_items f r in (b :: bs, err)
      | Throw e => ([], Some e)
      end
  end.

(** [map(f)]. *)
Definition map {A B} (f : A -> Result B) (o : Observable A) : Observable B :=
  fun up =>
    let '(reqs, n) := o up in
    let '(bs, err) := map_items f (items n) in
    (reqs,
     {| items := bs;
        fin := match err with Some e => Error e | None => fin n end |}).

Fixpoint switch_items {A B} (f : A -> Result (Observable B)) (up : Upstream)
    (l : list A) : list string * list B * option Val :=
  match l with
  | [] => ([], [], None)
  | a :: r =>
      match f a with
      | Throw e => ([], [], Some e)
      | Ok o =>
          let '(rq, n) := o up in
          match fin n with
          | Error e => (rq, items n, Some e)
          | Complete =>
              let '(rq', bs, err) := switch_items f up r in
              (rq ++ rq', items n ++ bs, err)
          end
      end
  end.

(** [switchMap(f)].  Every source in this program delivers at most one
    value, so the cancellation of an earlier inner observable by a later
    source value never comes into play. *)
Definition switchMap {A B} (f : A -> Result (Observable B))
    (o : Observable A) : Observable B :=
  fun up =>
    let '(reqs, n) := o up in
    let '(rq, bs, err) := switch_items f up (items n) in
    (reqs ++ rq,
     {| items := bs;
        fin := match err with Some e => Error e | None => fin n end |}).

End Rx.

(** ** The API client: [SptransService] *)

Module SptransService.
Import Js Rx.

Record Environment := {
  production : bool;
  apiUrl : string;
  backendUrl : string
}.

Definition environment_prod : Environment :=
  {| production := true;
     apiUrl := "https://busmap-back.onrender.com/api";
     backendUrl := "https://busmap-back.onrender.com" |}.

Definition environment_dev : Environment :=
  {| production := false;
     apiUrl := "/api";
     backendUrl := "http://localhost:8080" |}.

Definition baseURL (environment : Environment) : string :=
  apiUrl environment.

Definition url_linhas (environment : Environment) (termo : string) : string :=
  baseURL environment +:+ "/linhas?termo=" +:+ encodeURIComponent (Str termo).

Definition url_posicoes (environment : Environment) (codigoLinha : Val)
  : string :=
  baseURL environment +:+ "/Posicao/Linha?codigoLinha="
    +:+ encodeURIComponent codigoLinha.

Definition url_status (environment : Environment) : string :=
  baseURL environment +:+ "/status".

(** [{ hr: '', vs: [] }]. *)
Definition posicoes_vazias : Val := Obj [("hr", Str ""); ("vs", Arr [])].

(** [{ autenticado: false, erro: true }]. *)
Definition status_erro : Val :=
  Obj [("autenticado", Bool false); ("erro", Bool true)].

Definition buscarLinhas (environment : Environment) (termo : string)
  : Observable Val :=
  catchError (fun erro => Ok (of_ (Arr [])))
    (http_get (url_linhas environment termo)).

Definition buscarPosicoes (environment : Environment) (codigoLinha : Val)
  : Observable Val :=
  catchError (fun erro => Ok (of_ posicoes_vazias))
    (http_get (url_posicoes environment codigoLinha)).

Definition verificarStatus (environment : Environment) : Observable Val :=
  catchError (fun erro => Ok (of_ status_erro))
    (http_get (url_status environment)).

(** [linha.cl || linha.c || linha.codigo || linha.codigoLinha]. *)
Definition codigoLinha (linha : Val) : Result Val :=
  match get linha "cl", get linha "c", get linha "codigo",
        get linha "codigoLinha" with
  | Ok cl, Ok c, Ok codigo, Ok codigoLinha =>
      Ok (or cl (or c (or codigo codigoLinha)))
  | Throw e, _, _, _ | _, Throw e, _, _
  | _, _, Throw e, _ | _, _, _, Throw e => Throw e
  end.

Fixpoint set_prop (k : string) (v : Val) (ps : list (string * Val))
  : list (string * Val) :=
  match ps with
  | [] => [(k, v)]
  | (k', v') :: r =>
      if String.eqb k k' then (k, v) :: r else (k', v') :: set_prop k v r
  end.

(** The own enumerable properties copied by [...linha]. *)
Definition spread (v : Val) : list (string * Val) :=
  match v with
  | Obj ps => ps
  | Arr l => imap (fun i x => (decimal (N.of_nat i), x)) l
  | Str s => imap (fun i c => (decimal (N.of_nat i), Str (String c ""))) (chars s)
  | _ => []
  end.

(** [{ ...linha, hr: hr, vs: vs }]. *)
Definition com_posicoes (linha hr vs : Val) : Val :=
  Obj (set_prop "vs" vs (set_prop "hr" hr (spread linha))).

(** The callback of [linhas.map] in [buscarTodasPosicoes]: the request
    object built for one line. *)
Definition requisicaoDePosicoes (environment : Environment) (linha : Val)
  : Result (Observable Val) :=
  match codigoLinha linha with
  | Throw e => Throw e
  | Ok codigo =>
      if negb (truthy codigo) then
        Ok (of_ (com_posicoes linha (Str "") (Arr [])))
      else
        Ok (map (fun posicoes =>
                   match get posicoes "hr", get posicoes "vs" with
                   | Ok hr, Ok vs =>
                       Ok (com_posicoes linha (or hr (Str "")) (or vs (Arr [])))
                   | Throw e, _ | _, Throw e => Throw e
                   end)
              (buscarPosicoes environment codigo))
  end.


(** [linhas.length === 0]. *)
Definition length_is_zero (linhas : Val) : bool :=
  match linhas with
  | Arr l => bool_decide (l = [])
  | Str s => String.eqb s ""
  | Obj ps => strict_eq_int (assoc "length" ps) 0
  | _ => false
  end.


(** *** The other operations of the service *)

Definition url_login (environment : Environment) : string :=
  baseURL environment +:+ "/login".

Definition login (environment : Environment) : Observable Val :=
  catchError (fun erro => Ok (of_ (Bool false)))
    (http_get (url_login environment)).

(** [new Error(message)]. *)
Definition new_Error (message : string) : Val :=
  Obj [("name", Str "Error"); ("message", Str message)].

(** The bytes of the first character of a UTF-8 string. *)
Definition primeiro_caractere (l : list ascii) : list ascii :=
  match l with
  | [] => []
  | c :: _ =>
      let n := nat_of_ascii c in
      take (if (n <? 128)%nat then 1
            else if (n <? 224)%nat then 2
            else if (n <? 240)%nat then 3
            else 4) l
  end.

(** [linhas[0]]: the first element of an array, the property ["0"] of an
    object, the first character of a string (for a character outside the
    Basic Multilingual Plane JavaScript gives its first surrogate, which is
    not a string of the model: the whole character stands for it),
    [undefined] on a number or a boolean; on [null] and [undefined] the read
    throws. *)
Definition indice0 (v : Val) : Result Val :=
  match v with
  | Undefined | Null => Throw type_error
  | Arr (x :: _) => Ok x
  | Arr [] => Ok Undefined
  | Obj ps => Ok (assoc "0" ps)
  | Str s =>
      match primeiro_caractere (chars s) with
      | [] => Ok Undefined
      | c :: cs => Ok (Str (unchars (c :: cs)))
      end
  | Bool _ | Num _ => Ok Undefined
  end.

(** The closing [catchError] rethrows: unlike the other operations, this one
    lets errors through. *)
Definition buscarPosicoesInteligente (environment : Environment)
    (termo : string) : Observable Val :=
  catchError (fun erro => Throw erro)
    (switchMap
       (fun linhas =>
          if negb (truthy linhas) || length_is_zero linhas then
            Throw (new_Error
                     ("Nenhuma linha encontrada para o termo: " +:+ termo))
          else
            match indice0 linhas with
            | Throw e => Throw e
            | Ok linha =>
                match codigoLinha linha with
                | Throw e => Throw e
                | Ok codigo =>
                    if negb (truthy codigo) then
                      Throw (new_Error
                               "Código da linha não encontrado no objeto retornado")
                    else
                      Ok (map (fun posicoes =>
                                 Ok (Obj [("linha", linha);
                                          ("posicoes", posicoes)]))
                            (buscarPosicoes environment codigo))
                end
            end)
       (buscarLinhas environment termo)).


End SptransService.

(** ** The view controller: [AppComponent] *)

Module AppComponent.
Import Js Rx SptransService.

(** *** The Leaflet map, as far as the component uses it *)

(** The four interpolated pieces of [popupHtml]. *)
Record Popup := {
  popup_linha : string;
  popup_destino : string;
  popup_horario : string;
  popup_acessivel : bool
}.

(** A marker object; [stamp] is the identity Leaflet gives each layer. *)
Record Marker := {
  stamp : nat;
  lat : Number;
  lng : Number;
  popup : Popup
}.

Inductive View :=
| SetView (centro_lat centro_lng : Number) (zoom : nat)
| FitBounds (grupo : list Marker).

(** The marker layers on the map and its viewport (the tile layer, added
    once in [criarMapa], is left out). *)
Record Mapa := {
  layers : list Marker;
  view : View
}.

Definition removeLayer (marcador : Marker) (m : Mapa) : Mapa :=
  {| layers := filter (fun x => stamp x <> stamp marcador) (layers m);
     view := view m |}.

Definition addLayer (marcador : Marker) (m : Mapa) : Mapa :=
  {| layers := layers m ++ [marcador]; view := view m |}.

(** *** What the user and the network observe *)

Inductive Alert :=
| DigiteUmaLinha
| AguardeOMapa
| DadosVazios (termo : string)
| FormatoInesperado
| NenhumaLinha (termo : string)
| Encontrados (totalOnibus linhasProcessadas : nat) (termo : string)
| NenhumOnibusAtivo (linhasProcessadas : nat) (termo : string)
| ErroAoBuscar (ultimoErro : string).

(** [busca] names the [processarLinhas] call whose callback made the call
    of [mostrarResultadoFinal]; it is bookkeeping of the model only. *)
Inductive Effect :=
| EAlert (a : Alert)
| ERemoveLayer (marcador : Marker)
| EAddLayer (marcador : Marker)
| EFitBounds (grupo : list Marker)
| EHttpGet (url : string)
| EResultadoFinal (busca : nat) (totalOnibus linhasProcessadas : nat)
| EMostrarErro (erro : Val)
| EUncaught (e : Val).

(** *** State *)

(** The local variables of one [processarLinhas] call, shared by the
    callbacks it registers. *)
Record Busca := {
  totalOnibus : nat;
  linhasProcessadas : nat;
  totalLinhas : nat;
  termo : string
}.

(** A subscription whose HTTP request is in flight. *)
Inductive Subscriber :=
| SubLinhas (termo : string)
| SubPosicoes (busca : nat) (linha : Val) (codigoLinha : Val).

Record State := {
  environment : Environment;
  isBrowser : bool;
  L : bool;
  mapa : option Mapa;
  termoBusca : string;
  carregando : bool;
  mapaCarregado : bool;
  totalBuscas : nat;
  ultimoErro : string;
  marcadoresOnibus : list Marker;
  buscas : list Busca;
  pendentes : list Subscriber;
  efeitos : list Effect;
  lastId : nat
}.

Definition set_L (v : bool) (st : State) : State :=
  {| environment := environment st; isBrowser := isBrowser st; L := v;
     mapa := mapa st; termoBusca := termoBusca st;
     carregando := carregando st; mapaCarregado := mapaCarregado st;
     totalBuscas := totalBuscas st; ultimoErro := ultimoErro st;
     marcadoresOnibus := marcadoresOnibus st; buscas := buscas st;
     pendentes := pendentes st; efeitos := efeitos st; lastId := lastId st |}.

Definition set_mapa (v : option Mapa) (st : State) : State :=
  {| environment := environment st; isBrowser := isBrowser st; L := L st;
     mapa := v; termoBusca := termoBusca st;
     carregando := carregando st; mapaCarregado := mapaCarregado st;
     totalBuscas := totalBuscas st; ultimoErro := ultimoErro st;
     marcadoresOnibus := marcadoresOnibus st; buscas := buscas st;
     pendentes := pendentes st; efeitos := efeitos st; lastId := lastId st |}.

Definition set_termoBusca (v : string) (st : State) : State :=
  {| environment := environment st; isBrowser := isBrowser st; L := L st;
     mapa := mapa st; termoBusca := v;
     carregando := carregando st; mapaCarregado := mapaCarregado st;
     totalBuscas := totalBuscas st; ultimoErro := ultimoErro st;
     marcadoresOnibus := marcadoresOnibus st; buscas := buscas st;
     pendentes := pendentes st; efeitos := efeitos st; lastId := lastId st |}.

Definition set_carregando (v : bool) (st : State) : State :=
  {| environment := environment st; isBrowser := isBrowser st; L := L st;
     mapa := mapa st; termoBusca := termoBusca st;
     carregando := v; mapaCarregado := mapaCarregado st;
     totalBuscas := totalBuscas st; ultimoErro := ultimoErro st;
     marcadoresOnibus := marcadoresOnibus st; buscas := buscas st;
     pendentes := pendentes st; efeitos := efeitos st; lastId := lastId st |}.

Definition set_mapaCarregado (v : bool) (st : State) : State :=
  {| environment := environment st; isBrowser := isBrowser st; L := L st;
     mapa := mapa st; termoBusca := termoBusca st;
     carregando := carregando st; mapaCarregado := v;
     totalBuscas := totalBuscas st; ultimoErro := ultimoErro st;
     marcadoresOnibus := marcadoresOnibus st; buscas := buscas st;
     pendentes := pendentes st; efeitos := efeitos st; lastId := lastId st |}.

Definition set_totalBuscas (v : nat) (st : State) : State :=
  {| environment := environment st; isBrowser := isBrowser st; L := L st;
     mapa := mapa st; termoBusca := termoBusca st;
     carregando := carregando st; mapaCarregado := mapaCarregado st;
     totalBuscas := v; ultimoErro := ultimoErro st;
     marcadoresOnibus := marcadoresOnibus st; buscas := buscas st;
     pendentes := pendentes st; efeitos := efeitos st; lastId := lastId st |}.

Definition set_ultimoErro (v : string) (st : State) : State :=
  {| environment := environment st; isBrowser := isBrowser st; L := L st;
     mapa := mapa st; termoBusca := termoBusca st;
     carregando := carregando st; mapaCarregado := mapaCarregado st;
     totalBuscas := totalBuscas st; ultimoErro := v;
     marcadoresOnibus := marcadoresOnibus st; buscas := buscas st;
     pendentes := pendentes st; efeitos := efeitos st; lastId := lastId st |}.

Definition set_marcadoresOnibus (v : list Marker) (st : State) : State :=
  {| environment := environment st; isBrowser := isBrowser st; L := L st;
     mapa := mapa st; termoBusca := termoBusca st;
     carregando := carregando st; mapaCarregado := mapaCarregado st;
     totalBuscas := totalBuscas st; ultimoErro := ultimoErro st;
     marcadoresOnibus := v; buscas := buscas st;
     pendentes := pendentes st; efeitos := efeitos st; lastId := lastId st |}.

Definition set_buscas (v : list Busca) (st : State) : State :=
  {| environment := environment st; isBrowser := isBrowser st; L := L st;
     mapa := mapa st; termoBusca := termoBusca st;
     carregando := carregando st; mapaCarregado := mapaCarregado st;
     totalBuscas := totalBuscas st; ultimoErro := ultimoErro st;
     marcadoresOnibus := marcadoresOnibus st; buscas := v;
     pendentes := pendentes st; efeitos := efeitos st; lastId := lastId st |}.

Definition set_pendentes (v : list Subscriber) (st : State) : State :=
  {| environment := environment st; isBrowser := isBrowser st; L := L st;
     mapa := mapa st; termoBusca := termoBusca st;
     carregando := carregando st; mapaCarregado := mapaCarregado st;
     totalBuscas := totalBuscas st; ultimoErro := ultimoErro st;
     marcadoresOnibus := marcadoresOnibus st; buscas := buscas st;
     pendentes := v; efeitos := efeitos st; lastId := lastId st |}.

Definition set_efeitos (v : list Effect) (st : State) : State :=
  {| environment := environment st; isBrowser := isBrowser st; L := L st;
     mapa := mapa st; termoBusca := termoBusca st;
     carregando := carregando st; mapaCarregado := mapaCarregado st;
     totalBuscas := totalBuscas st; ultimoErro := ultimoErro st;
     marcadoresOnibus := marcadoresOnibus st; buscas := buscas st;
     pendentes := pendentes st; efeitos := v; lastId := lastId st |}.

Definition set_lastId (v : nat) (st : State) : State :=
  {| environment := environment st; isBrowser := isBrowser st; L := L st;
     mapa := mapa st; termoBusca := termoBusca st;
     carregando := carregando st; mapaCarregado := mapaCarregado st;
     totalBuscas := totalBuscas st; ultimoErro := ultimoErro st;
     marcadoresOnibus := marcadoresOnibus st; buscas := buscas st;
     pendentes := pendentes st; efeitos := efeitos st; lastId := v |}.

(** The component as constructed: no Leaflet, no map, nothing typed. *)
Definition inicial (env : Environment) (browser : bool) : State :=
  {| environment := env; isBrowser := browser; L := false; mapa := None;
     termoBusca := ""; carregando := false; mapaCarregado := false;
     totalBuscas := 0; ultimoErro := ""; marcadoresOnibus := [];
     buscas := []; pendentes := []; efeitos := []; lastId := 0 |}.

(** *** Method bodies: state passing with exceptions *)

Definition M (A : Type) : Type := State -> Result A * State.

Definition ret {A} (a : A) : M A := fun st => (Ok a, st).

Definition bind {A B} (m : M A) (f : A -> M B) : M B :=
  fun st =>
    match m st with
    | (Ok a, st') => f a st'
    | (Throw e, st') => (Throw e, st')
    end.

Declare Scope m_scope.
Delimit Scope m_scope with M.
Bind Scope m_scope with M.
Notation "x <- m ;; k" := (bind m (fun x => k))
  (at level 100, m at next level, k at level 200, right associativity)
  : m_scope.
Notation "m ;; k" := (bind m (fun _ => k))
  (at level 100, k at level 200, right associativity) : m_scope.
Local Open Scope m_scope.

Definition ler : M State := fun st => (Ok st, st).

Definition mudar (f : State -> State) : M unit := fun st => (Ok tt, f st).

(** An expression that may throw. *)
Definition avaliar {A} (r : Result A) : M A := fun st => (r, st).

Definition efeito (e : Effect) : M unit :=
  mudar (fun st => set_efeitos (efeitos st ++ [e]) st).

Definition alert (a : Alert) : M unit := efeito (EAlert a).

(** [l.forEach(f)]: an exception in [f] ends the loop. *)
Fixpoint forEach {A} (l : list A) (f : A -> M unit) : M unit :=
  match l with
  | [] => ret tt
  | x :: r => f x ;; forEach r f
  end.

(** A callback run by the framework (a DOM event handler, a timer, a
    subscriber function): an exception that escapes it is reported and
    goes no further; what the callback did before stays done. *)
Definition callback (m : M unit) (st : State) : State :=
  match m st with
  | (Ok _, st') => st'
  | (Throw e, st') => set_efeitos (efeitos st' ++ [EUncaught e]) st'
  end.

(** *** Map methods *)

Definition centroSP : Number * Number :=
  (Finite true 2355052 (-5), Finite true 46633308 (-6)).

(** [ngOnInit]: [importOk] tells whether the dynamic import of Leaflet
    succeeded. *)
Definition ngOnInit (importOk : bool) : M unit :=
  st <- ler ;;
  if negb (isBrowser st) then ret tt
  else if importOk then mudar (set_L true)
  else ret tt.

(** [criarMapa]: [L.map('map')] throws when the container is missing or
    already holds a map; the [catch] records the error. *)
Definition criarMapa (containerOk : bool) : M unit :=
  st <- ler ;;
  if negb (L st) then ret tt
  else
    match mapa st with
    | None =>
        if containerOk then
          mudar (set_mapa
                   (Some {| layers := [];
                            view := SetView centroSP.1 centroSP.2 12 |})) ;;
          mudar (set_mapaCarregado true)
        else
          mudar (set_ultimoErro
                   "Erro ao criar mapa: Error: Map container not found.")
    | Some _ =>
        mudar (set_ultimoErro
                 "Erro ao criar mapa: Error: Map container is already initialized.")
    end.

(** [this.mapa.removeLayer(marcador)]. *)
Definition mapa_removeLayer (marcador : Marker) : M unit :=
  mudar (fun st => set_mapa (removeLayer marcador <$> mapa st) st) ;;
  efeito (ERemoveLayer marcador).

Definition limparMarcadores : M unit :=
  st <- ler ;;
  match mapa st with
  | None => ret tt
  | Some _ =>
      forEach (marcadoresOnibus st) mapa_removeLayer ;;
      mudar (set_marcadoresOnibus [])
  end.

Definition removerMarcadores : M unit := limparMarcadores.

(** [this.L.marker([lat, lng]).bindPopup(popupHtml).addTo(this.mapa)]. *)
Definition marker_addTo (lat lng : Number) (p : Popup) : M Marker :=
  st <- ler ;;
  let marcador :=
    {| stamp := S (lastId st); lat := lat; lng := lng; popup := p |} in
  mudar (set_lastId (S (lastId st))) ;;
  mudar (fun st => set_mapa (addLayer marcador <$> mapa st) st) ;;
  efeito (EAddLayer marcador) ;;
  ret marcador.

Definition adicionarMarcador (onibus linha : Val) : M unit :=
  st <- ler ;;
  if negb (L st) || negb (bool_decide (is_Some (mapa st))) then ret tt
  else
    py <- avaliar (get onibus "py") ;;
    let lat := parseFloat py in
    px <- avaliar (get onibus "px") ;;
    let lng := parseFloat px in
    if isNaN lat || isNaN lng then ret tt
    else
      c <- avaliar (get linha "c") ;;
      sl <- avaliar (get linha "sl") ;;
      ta <- avaliar (get onibus "ta") ;;
      a <- avaliar (get onibus "a") ;;
      let popupHtml :=
        {| popup_linha := to_string (or c (Str "N/A"));
           popup_destino := to_string (or sl (Str "N/A"));
           popup_horario := to_string (or ta (Str "N/A"));
           popup_acessivel := truthy a |} in
      marcador <- marker_addTo lat lng popupHtml ;;
      mudar (fun st => set_marcadoresOnibus (marcadoresOnibus st ++ [marcador]) st).

(** *** Search methods *)

(** [new this.L.FeatureGroup(this.marcadoresOnibus)] followed by
    [this.mapa.fitBounds(grupo.getBounds().pad(0.1))].  The bounds of an
    empty group have no corners, and [pad] reads the latitude of the
    south-west one: with no marker the line throws a [TypeError].  With at
    least one marker the library call is taken to succeed. *)
Definition mapa_fitBounds (grupo : list Marker) : M unit :=
  match grupo with
  | [] => avaliar (Throw type_error)
  | _ :: _ =>
      mudar (fun st =>
               set_mapa ((fun m => {| layers := layers m;
                                      view := FitBounds grupo |}) <$> mapa st)
                        st) ;;
      efeito (EFitBounds grupo)
  end.

Definition mostrarResultadoFinal (busca : nat)
    (totalOnibus linhasProcessadas : nat) (termo : string) : M unit :=
  efeito (EResultadoFinal busca totalOnibus linhasProcessadas) ;;
  if (0 <? totalOnibus)%nat then
    st <- ler ;;
    mapa_fitBounds (marcadoresOnibus st) ;;
    alert (Encontrados totalOnibus linhasProcessadas termo)
  else
    alert (NenhumOnibusAtivo linhasProcessadas termo).

Definition mostrarErro (erro : Val) : M unit :=
  efeito (EMostrarErro erro) ;;
  status <- avaliar (get erro "status") ;;
  let ultimo :=
    if strict_eq_int status 0 then "Conexão falhou"
    else if strict_eq_int status 404 then "Endpoint 404"
    else if strict_eq_int status 500 then "Servidor 500"
    else "HTTP " +:+ to_string status in
  mudar (set_ultimoErro ultimo) ;;
  alert (ErroAoBuscar ultimo).

(** Subscribing to an operation of the service sends its request. *)
Definition url_de (env : Environment) (s : Subscriber) : string :=
  match s with
  | SubLinhas termo => url_linhas env termo
  | SubPosicoes _ _ codigo => url_posicoes env codigo
  end.

Definition assinar (s : Subscriber) : M unit :=
  st <- ler ;;
  efeito (EHttpGet (url_de (environment st) s)) ;;
  mudar (fun st => set_pendentes (pendentes st ++ [s]) st).

(** [let totalOnibus = 0; let linhasProcessadas = 0;
     const totalLinhas = linhas.length]. *)
Definition nova_busca (totalLinhas : nat) (termo : string) : M nat :=
  st <- ler ;;
  mudar (set_buscas
           (buscas st ++ [{| totalOnibus := 0; linhasProcessadas := 0;
                             totalLinhas := totalLinhas; termo := termo |}])) ;;
  ret (length (buscas st)).

Definition mais_uma_linha (b : Busca) : Busca :=
  {| totalOnibus := totalOnibus b;
     linhasProcessadas := S (linhasProcessadas b);
     totalLinhas := totalLinhas b; termo := termo b |}.

Definition mais_um_onibus (b : Busca) : Busca :=
  {| totalOnibus := S (totalOnibus b);
     linhasProcessadas := linhasProcessadas b;
     totalLinhas := totalLinhas b; termo := termo b |}.

Definition mudar_busca (k : nat) (f : Busca -> Busca) : M unit :=
  mudar (fun st => set_buscas (alter f k (buscas st)) st).

Definition busca_vazia : Busca :=
  {| totalOnibus := 0; linhasProcessadas := 0; totalLinhas := 0; termo := "" |}.

Definition ler_busca (k : nat) : M Busca :=
  st <- ler ;; ret (default busca_vazia (buscas st !! k)).

(** [if (linhasProcessadas === totalLinhas) this.mostrarResultadoFinal(...)]:
    the block closing each of the three branches of the position
    subscriber. *)
Definition se_ultima_linha (k : nat) : M unit :=
  b <- ler_busca k ;;
  if (linhasProcessadas b =? totalLinhas b)%nat then
    mostrarResultadoFinal k (totalOnibus b) (linhasProcessadas b) (termo b)
  else ret tt.

Definition elementos (v : Val) : list Val :=
  match v with Arr l => l | _ => [] end.

(** The callback of [posicoes.vs.forEach]. *)
Definition marcarOnibus (k : nat) (linha onibus : Val) : M unit :=
  adicionarMarcador onibus linha ;;
  mudar_busca k mais_um_onibus.

(** The [next] function given to [buscarPosicoes(codigoLinha).subscribe]. *)
Definition posicoes_next (k : nat) (linha posicoes : Val) : M unit :=
  mudar_busca k mais_uma_linha ;;
  vs <- avaliar (get posicoes "vs") ;;
  if truthy vs && isArray vs && (0 <? length (elementos vs))%nat then
    forEach (elementos vs) (marcarOnibus k linha) ;;
    se_ultima_linha k
  else
    se_ultima_linha k.

(** Its [error] function. *)
Definition posicoes_error (k : nat) (erro : Val) : M unit :=
  mudar_busca k mais_uma_linha ;;
  se_ultima_linha k.

(** The callback of [linhas.forEach] in [processarLinhas]. *)
Definition processarLinha (k : nat) (linha : Val) : M unit :=
  codigo <- avaliar (codigoLinha linha) ;;
  if negb (truthy codigo) then ret tt
  else assinar (SubPosicoes k linha codigo).

Definition processarLinhas (linhas : Val) (termo : string) : M unit :=
  if negb (truthy linhas) then alert (DadosVazios termo)
  else if negb (isArray linhas) then alert FormatoInesperado
  else if (length (elementos linhas) =? 0)%nat then
    alert (NenhumaLinha termo)
  else
    k <- nova_busca (length (elementos linhas)) termo ;;
    forEach (elementos linhas) (processarLinha k).

(** The [next] and [error] functions given to
    [buscarLinhas(termo).subscribe]. *)
Definition linhas_next (termo : string) (linhas : Val) : M unit :=
  mudar (set_carregando false) ;;
  processarLinhas linhas termo.

Definition linhas_error (erro : Val) : M unit :=
  mudar (set_carregando false) ;;
  mostrarErro erro.

(** [buscarLinhas()], the handler of the search button. *)
Definition buscarLinhas : M unit :=
  st <- ler ;;
  if negb (truthy (Str (trim (termoBusca st)))) then alert DigiteUmaLinha
  else if negb (bool_decide (is_Some (mapa st))) then alert AguardeOMapa
  else
    let termo := trim (termoBusca st) in
    mudar (set_carregando true) ;;
    mudar (set_ultimoErro "") ;;
    mudar (fun st => set_totalBuscas (S (totalBuscas st)) st) ;;
    limparMarcadores ;;
    assinar (SubLinhas termo).

(** *** The event loop *)

Inductive Event :=
| NgOnInit (importOk : bool)
| CriarMapa (containerOk : bool)
| Digitar (texto : string)
| Buscar
| RemoverMarcadores
| Resposta (i : nat) (r : HttpResult).

(** The notifications of a subscription reach its two functions. *)
Definition entregar {A} (n : Notifs A) (next : A -> M unit)
    (error : Val -> M unit) (st : State) : State :=
  let st' := foldl (fun s a => callback (next a) s) st (items n) in
  match fin n with
  | Complete => st'
  | Error e => callback (error e) st'
  end.

(** One turn of the event loop.  [Resposta i r]: the HTTP request of the
    [i]-th subscription in flight ends with [r]; the pipeline of the
    service turns [r] into notifications for the subscriber.
    [CriarMapa] is the timer set by [ngAfterViewInit], which sets none
    outside a browser. *)
Definition step (st : State) (ev : Event) : State :=
  match ev with
  | NgOnInit importOk => callback (ngOnInit importOk) st
  | CriarMapa containerOk =>
      if isBrowser st then callback (criarMapa containerOk) st else st
  | Digitar texto => set_termoBusca texto st
  | Buscar => callback buscarLinhas st
  | RemoverMarcadores => callback removerMarcadores st
  | Resposta i r =>
      match pendentes st !! i with
      | None => st
      | Some s =>
          let st1 := set_pendentes (delete i (pendentes st)) st in
          let env := environment st in
          match s with
          | SubLinhas termo =>
              entregar
                (subscribe (SptransService.buscarLinhas env termo) (fun _ => r)).2
                (linhas_next termo) linhas_error st1
          | SubPosicoes k linha codigo =>
              entregar
                (subscribe (buscarPosicoes env codigo) (fun _ => r)).2
                (posicoes_next k linha) (posicoes_error k) st1
          end
      end
  end.

Definition run (evs : list Event) (st : State) : State := foldl step st evs.

End AppComponent.

Import Js Rx SptransService AppComponent.

(** * Vocabulary of the statements *)

(** A method body [m] preserves the state property [P]. *)
Definition preserva (P : State -> Prop) {A} (m : M A) : Prop :=
  forall st, P st -> P (m st).2.

(** Until the map exists the list is empty; from then on the marker layers
    of the map and [marcadoresOnibus] are the same list. *)
Definition mapa_coerente (st : State) : Prop :=
  match mapa st with
  | Some m => layers m = marcadoresOnibus st
  | None => marcadoresOnibus st = []
  end.

(** The state once [adicionarMarcador] has put [marcador] on the map [m]
    and at the end of the list. *)
Definition com_marcador (marcador : Marker) (m : Mapa) (st : State) : State :=
  set_marcadoresOnibus (marcadoresOnibus st ++ [marcador])
    (set_efeitos (efeitos st ++ [EAddLayer marcador])
       (set_mapa (Some (addLayer marcador m))
          (set_lastId (S (lastId st)) st))).

(** The states the component can be in: those an event sequence leads to
    from the component as constructed. *)
Definition alcancavel (st : State) : Prop :=
  exists env browser evs, st = run evs (inicial env browser).

(** The fields no subscriber of a position request writes. *)
Definition mesma_ui (st st' : State) : Prop :=
  environment st' = environment st /\ isBrowser st' = isBrowser st
  /\ L st' = L st /\ termoBusca st' = termoBusca st
  /\ carregando st' = carregando st /\ mapaCarregado st' = mapaCarregado st
  /\ totalBuscas st' = totalBuscas st /\ ultimoErro st' = ultimoErro st
  /\ pendentes st' = pendentes st.

(** The variables of a search after [j] more vehicles were counted. *)
Definition mais_onibus (j : nat) (b : Busca) : Busca :=
  {| totalOnibus := totalOnibus b + j;
     linhasProcessadas := linhasProcessadas b;
     totalLinhas := totalLinhas b; termo := termo b |}.

(** The map with the markers [novos] added, in order. *)
Definition com_layers (novos : list Marker) (m : Mapa) : Mapa :=
  {| layers := layers m ++ novos; view := view m |}.

(** The block [if (linhasProcessadas === totalLinhas) mostrarResultadoFinal]
    with [b] the variables of the search when it runs: nothing happens
    below the line count; at the line count the summary is called, and it
    alerts "none active" without touching the map when the bus total is
    zero, fits the viewport to the current markers and alerts the totals
    when the bus total is positive and there is a marker, and throws from
    [fitBounds] before any alert when the bus total is positive and there
    is no marker. *)
Definition resultado_de (k : nat) (b : Busca) (st : State)
    (r : Result unit) (st' : State) : Prop :=
  (linhasProcessadas b <> totalLinhas b /\ r = Ok tt /\ st' = st)
  \/ (linhasProcessadas b = totalLinhas b /\ totalOnibus b = 0
      /\ r = Ok tt
      /\ st' = set_efeitos
                 (efeitos st
                    ++ [EResultadoFinal k 0 (linhasProcessadas b);
                        EAlert (NenhumOnibusAtivo (linhasProcessadas b) (termo b))])
                 st)
  \/ (linhasProcessadas b = totalLinhas b /\ 0 < totalOnibus b
      /\ marcadoresOnibus st <> [] /\ r = Ok tt
      /\ st' = set_efeitos
                 (efeitos st
                    ++ [EResultadoFinal k (totalOnibus b) (linhasProcessadas b);
                        EFitBounds (marcadoresOnibus st);
                        EAlert (Encontrados (totalOnibus b) (linhasProcessadas b)
                                  (termo b))])
                 (set_mapa
                    ((fun m => {| layers := layers m;
                                  view := FitBounds (marcadoresOnibus st) |})
                       <$> mapa st)
                    st))
  \/ (linhasProcessadas b = totalLinhas b /\ 0 < totalOnibus b
      /\ marcadoresOnibus st = [] /\ r = Throw type_error
      /\ st' = set_efeitos
                 (efeitos st
                    ++ [EResultadoFinal k (totalOnibus b) (linhasProcessadas b)])
                 st).

(** A position response is well formed for the subscriber when no
    property read can throw: the line, the response and every vehicle are
    something else than [null] or [undefined]. *)
Definition bem_formada (linha posicoes : Val) : Prop :=
  nullish linha = false /\ nullish posicoes = false
  /\ forall vs, get posicoes "vs" = Ok vs ->
                Forall (fun onibus => nullish onibus = false) (elementos vs).

(** The state when the vehicle loop of [posicoes_next] stops, after [j]
    rounds that put the markers [novos] on the map. *)
Definition apos_onibus (k j : nat) (novos : list Marker) (st smid : State)
  : Prop :=
  mesma_ui st smid
  /\ buscas smid
     = alter (fun b => mais_onibus j (mais_uma_linha b)) k (buscas st)
  /\ marcadoresOnibus smid = marcadoresOnibus st ++ novos
  /\ mapa smid = com_layers novos <$> mapa st
  /\ efeitos smid = efeitos st ++ (EAddLayer <$> novos)
  /\ length novos <= j.

(** The vehicles the subscriber loops over. *)
Definition veiculos (posicoes : Val) : list Val :=
  match get posicoes "vs" with
  | Ok vs => elementos vs
  | Throw _ => []
  end.

(** What the service delivers for a response: the body, or its default. *)
Definition linhas_de (r : HttpResult) : Val :=
  match r with HttpOk body => body | HttpFail _ => Arr [] end.

(** The same for a position request. *)
Definition posicoes_de (r : HttpResult) : Val :=
  match r with HttpOk body => body | HttpFail _ => posicoes_vazias end.

(** The subscription [i] is no longer in flight. *)
Definition sem_pendente (i : nat) (st : State) : State :=
  set_pendentes (delete i (pendentes st)) st.

(** The state a callback leaves, from the outcome of its body. *)
Definition relatar (r : Result unit) (st : State) : State :=
  match r with
  | Ok _ => st
  | Throw e => set_efeitos (efeitos st ++ [EUncaught e]) st
  end.

(** The effect is a call of [mostrarResultadoFinal]. *)
Definition e_resultado_final (e : Effect) : bool :=
  match e with EResultadoFinal _ _ _ => true | _ => false end.

(** The effect is a call of [mostrarErro]. *)
Definition e_mostrar_erro (e : Effect) : bool :=
  match e with EMostrarErro _ => true | _ => false end.

(** The lines that get a position request, each with the code extracted
    from it: those whose [cl], [c], [codigo] or [codigoLinha] is truthy. *)
Definition linhas_com_codigo (l : list Val) : list (Val * Val) :=
  omap (fun linha =>
          match codigoLinha linha with
          | Ok codigo => if truthy codigo then Some (linha, codigo) else None
          | Throw _ => None
          end) l.

(** The position subscription of search [k] for a line and its code. *)
Definition pedido (k : nat) (lc : Val * Val) : Subscriber :=
  SubPosicoes k lc.1 lc.2.

(** The state after the position requests of the lines [cs] of search [k]
    were sent. *)
Definition com_pedidos (k : nat) (cs : list (Val * Val)) (st : State) : State :=
  set_pendentes (pendentes st ++ (pedido k <$> cs))
    (set_efeitos
       (efeitos st
          ++ ((fun lc => EHttpGet (url_posicoes (environment st) lc.2)) <$> cs))
       st).

(** The variables of a search as [processarLinhas] declares them. *)
Definition nova (n : nat) (t : string) : Busca :=
  {| totalOnibus := 0; linhasProcessadas := 0; totalLinhas := n; termo := t |}.

(** No call of [mostrarErro] has taken place. *)
Definition sem_mostrar_erro (st : State) : Prop :=
  Forall (fun e => e_mostrar_erro e = false) (efeitos st).

(** The running bus total of search [k] (zero until its variables exist). *)
Definition total_da_busca (k : nat) (st : State) : nat :=
  default 0 (totalOnibus <$> buscas st !! k).

(** The subscription is a position request of search [k]. *)
Definition pedido_de (k : nat) (s : Subscriber) : Prop :=
  match s with
  | SubPosicoes k' _ _ => k' = k
  | SubLinhas _ => False
  end.

(** Search [k] runs alone: either its line request is still out (or was
    answered without lines) and the list is empty; or its variables are the
    last ones created, every request in flight is one of its position
    requests and the list is no longer than its bus total. *)
Definition busca_isolada (k : nat) (st : State) : Prop :=
  (length (buscas st) = k /\ marcadoresOnibus st = []
   /\ (pendentes st = [] \/ exists t, pendentes st = [SubLinhas t]))
  \/ (length (buscas st) = S k
      /\ Forall (pedido_de k) (pendentes st)
      /\ length (marcadoresOnibus st) <= total_da_busca k st).

(** The same, as a test. *)
Definition e_pedido_de (k : nat) (s : Subscriber) : bool :=
  match s with
  | SubPosicoes k' _ _ => (k' =? k)%nat
  | SubLinhas _ => false
  end.

(** The position requests of search [k] that are in flight. *)
Definition em_voo (k : nat) (l : list Subscriber) : nat :=
  length (filter (fun s => e_pedido_de k s = true) l).

(** Search [k] is short of lines: the lines it has processed and the
    requests it still has in flight do not add up to [totalLinhas], and its
    summary has not been called. *)
Definition falta_linha (k : nat) (st : State) : Prop :=
  (exists b, buscas st !! k = Some b
             /\ linhasProcessadas b + em_voo k (pendentes st) < totalLinhas b)
  /\ Forall (fun e => forall t p, e <> EResultadoFinal k t p) (efeitos st).

(** The effect is a call of [mostrarResultadoFinal] for search [k]. *)
Definition e_resumo_de (k : nat) (e : Effect) : bool :=
  match e with
  | EResultadoFinal k' _ _ => (k' =? k)%nat
  | _ => false
  end.

(** How many times the summary of search [k] was called. *)
Definition resumos (k : nat) (es : list Effect) : nat :=
  length (filter (fun e => e_resumo_de k e = true) es).

(** The bookkeeping of every search is in order: a search that does not
    exist yet has no request in flight and no summary; for one that exists,
    the lines processed and the requests in flight are together at most
    [totalLinhas], and its summary was called at most once, and then with
    every line processed. *)
Definition em_ordem (st : State) : Prop :=
  forall k,
    match buscas st !! k with
    | None => em_voo k (pendentes st) = 0 /\ resumos k (efeitos st) = 0
    | Some b =>
        linhasProcessadas b + em_voo k (pendentes st) <= totalLinhas b
        /\ (resumos k (efeitos st) = 0
            \/ (resumos k (efeitos st) = 1
                /\ linhasProcessadas b = totalLinhas b))
    end.



(** The characters [encodeURIComponent] lets through, and the escape sign. *)
Definition seguro_em_url (c : ascii) : bool :=
  unreserved c || Ascii.eqb c "%".

(** The component outside a browser: no Leaflet, no map, nothing in
    flight, no search variables, no marker, and no effect but the two alerts
    of a rejected search. *)
Definition fora_do_navegador (st : State) : Prop :=
  isBrowser st = false /\ L st = false /\ mapa st = None
  /\ mapaCarregado st = false /\ pendentes st = [] /\ buscas st = []
  /\ marcadoresOnibus st = []
  /\ Forall (fun e => e = EAlert DigiteUmaLinha \/ e = EAlert AguardeOMapa)
       (efeitos st).

(** Leaflet is loaded only in a browser, the map exists only once Leaflet
    is loaded, and [mapaCarregado] is set only once the map exists. *)
Definition mapa_em_ordem (st : State) : Prop :=
  (L st = true -> isBrowser st = true)
  /\ (is_Some (mapa st) -> L st = true)
  /\ (mapaCarregado st = true -> is_Some (mapa st)).


(** No marker of the list has a coordinate that is not a number. *)
Definition sem_nan (st : State) : Prop :=
  Forall (fun x => isNaN (lat x) = false /\ isNaN (lng x) = false)
    (marcadoresOnibus st).

(** A request in flight is in order: a line search has a term that is not
    empty; a position request belongs to a search whose variables exist and
    to a line whose code, the one requested, is truthy. *)
Definition pedido_em_ordem (st : State) (s : Subscriber) : Prop :=
  match s with
  | SubLinhas t => t <> ""
  | SubPosicoes k linha codigo =>
      codigoLinha linha = Ok codigo /\ truthy codigo = true
      /\ k < length (buscas st)
  end.

Definition pedidos_em_ordem (st : State) : Prop :=
  Forall (pedido_em_ordem st) (pendentes st).

(** Search [k] has the variables [b], [v] position requests in flight and
    [n] calls of its summary. *)
Definition quadro (k : nat) (b : Busca) (v n : nat) (st : State) : Prop :=
  buscas st !! k = Some b /\ em_voo k (pendentes st) = v
  /\ resumos k (efeitos st) = n.




(** The event is a press of the search button that passes both
    validations in [st]. *)
Definition busca_aceita (st : State) (ev : Event) : bool :=
  match ev with
  | Buscar =>
      negb (String.eqb (trim (termoBusca st)) "")
      && bool_decide (is_Some (mapa st))
  | _ => false
  end.

(** The event is a press of the search button. *)
Definition e_buscar (ev : Event) : bool :=
  match ev with Buscar => true | _ => false end.

(** How many presses of the search button are accepted along [evs]. *)
Fixpoint aceitas (st : State) (evs : list Event) : nat :=
  match evs with
  | [] => 0
  | ev :: resto =>
      (if busca_aceita st ev then 1 else 0) + aceitas (step st ev) resto
  end.

(** ** Sample data *)

(** An upstream that refuses every connection. *)
Definition sem_rede : Upstream :=
  fun _ => HttpFail (Obj [("status", int 0)]).


(** Lines with and without a code, vehicles with and without
    coordinates, in the shape the upstream service gives them. *)
Definition linha_8000 : Val :=
  Obj [("cl", int 1273); ("lt", Str "8000"); ("sl", int 1)].

Definition linha_9000 : Val :=
  Obj [("cl", int 2506); ("lt", Str "9000"); ("sl", int 1)].

Definition linha_sem_codigo : Val :=
  Obj [("lt", Str "8000"); ("sl", int 2)].

Definition onibus_na_se : Val :=
  Obj [("p", int 11433); ("a", Bool true); ("ta", Str "2024-01-01T12:00:00Z");
       ("py", Num (Finite true 2355052 (-5)));
       ("px", Num (Finite true 46633308 (-6)))].

Definition onibus_sem_posicao : Val :=
  Obj [("p", int 11434); ("a", Bool false); ("py", Null); ("px", Null)].

Definition posicoes_um_onibus : Val :=
  Obj [("hr", Str "12:00"); ("vs", Arr [onibus_na_se])].

Definition posicoes_dois_onibus : Val :=
  Obj [("hr", Str "12:00"); ("vs", Arr [onibus_na_se; onibus_sem_posicao])].


(** The component in a browser, Leaflet loaded and the map created. *)
Definition pronto : State :=
  run [NgOnInit true; CriarMapa true] (inicial environment_dev true).

(** A search for "8000" whose line search found [linhas]. *)
Definition busca_8000 (linhas : list Val) : list Event :=
  [Digitar "8000"; Buscar; Resposta 0 (HttpOk (Arr linhas))].

(** After a finished search that left one marker on the map. *)
Definition com_um_marcador : State :=
  run (busca_8000 [linha_8000] ++ [Resposta 0 (HttpOk posicoes_um_onibus)])
    pronto.

(** The marker of [onibus_na_se] on [linha_8000], the first one created. *)
Definition marcador_na_se : Marker :=
  {| stamp := 1;
     lat := Finite true 2355052 (-5);
     lng := Finite true 46633308 (-6);
     popup := {| popup_linha := "N/A"; popup_destino := "1";
                 popup_horario := "2024-01-01T12:00:00Z";
                 popup_acessivel := true |} |}.

(** A search that found two lines, both position requests in flight. *)
Definition duas_em_voo : State :=
  run (busca_8000 [linha_8000; linha_9000]) pronto.

(** An [HttpErrorResponse] of a server error. *)
Definition erro_500 : Val := Obj [("status", int 500)].

(** A search whose line request is in flight. *)
Definition linhas_pedidas : State := run [Digitar "8000"; Buscar] pronto.

(** A search that found one line, its position request in flight. *)
Definition uma_em_voo : State := run (busca_8000 [linha_8000]) pronto.

(** The map as [criarMapa] leaves it. *)
Definition mapa_inicial : Mapa :=
  {| layers := []; view := SetView centroSP.1 centroSP.2 12 |}.


(** An upstream that answers the line search with [linhas] and every
    other request with [posicoes_um_onibus]. *)
Definition com_linhas (linhas : Val) : Upstream :=
  fun url =>
    if String.eqb url (url_linhas environment_dev "8000")
    then HttpOk linhas
    else HttpOk posicoes_um_onibus.

(** The component in a browser before the map exists, a term typed. *)
Definition sem_mapa : State :=
  run [NgOnInit true; Digitar "8000"] (inicial environment_dev true).

(** The component ready, with only blanks typed. *)
Definition em_branco : State := run [Digitar "   "] pronto.

(** * The builtins on sample inputs *)

Example to_string_int : Js.to_string (Js.int 1273) = "1273".
Proof. reflexivity. Qed.

Example to_string_frac :
  Js.to_string (Js.Num (Js.Finite true 2355 (-2))) = "-23.55".
Proof. reflexivity. Qed.

Example to_string_big :
  Js.to_string (Js.Num (Js.Finite false 10 20)) = "1e+21".
Proof. vm_compute. reflexivity. Qed.

Example to_string_small :
  Js.to_string (Js.Num (Js.Finite false 1 (-7))) = "1e-7"
  /\ Js.to_string (Js.Num (Js.Finite false 1 (-6))) = "0.000001"
  /\ Js.to_string (Js.Num (Js.Finite false 12345 18)) = "1.2345e+22".
Proof. vm_compute. auto. Qed.

Example to_string_array :
  Js.to_string (Js.Arr [Js.int 1; Js.Null; Js.Str "a"]) = "1,,a".
Proof. reflexivity. Qed.

Example parseFloat_samples :
  Js.parseFloat (Js.Str "  -23.55abc") = Js.Finite true 2355 (-2)
  /\ Js.parseFloat (Js.Str "1e3") = Js.Finite false 1 3
  /\ Js.parseFloat (Js.Str ".5") = Js.Finite false 5 (-1)
  /\ Js.parseFloat (Js.Str "1.") = Js.Finite false 1 0
  /\ Js.parseFloat (Js.Str "1e") = Js.Finite false 1 0
  /\ Js.parseFloat (Js.Str ".") = Js.NaN
  /\ Js.parseFloat (Js.Str "") = Js.NaN
  /\ Js.parseFloat (Js.Str "abc") = Js.NaN
  /\ Js.parseFloat (Js.Str "-Infinity") = Js.Infinity true
  /\ Js.parseFloat Js.Undefined = Js.NaN
  /\ Js.parseFloat Js.Null = Js.NaN
  /\ Js.parseFloat (Js.Obj []) = Js.NaN
  /\ Js.parseFloat (Js.Num (Js.Finite true 2355 (-2))) = Js.Finite true 2355 (-2).
Proof. vm_compute. repeat split. Qed.

Example trim_samples :
  Js.trim "  8000 " = "8000" /\ Js.trim "   " = "" /\ Js.trim "a b" = "a b".
Proof. vm_compute. auto. Qed.

Example encode_samples :
  Js.encodeURIComponent (Js.Str "Vila Mariana/8000") = "Vila%20Mariana%2F8000"
  /\ Js.encodeURIComponent (Js.int 1273) = "1273".
Proof. vm_compute. auto. Qed.

(** * The API client *)

Section Servico.
Variable env : Environment.
Variable up : Upstream.

(** A pipeline closed by [catchError] with a handler that returns [of(d)]
    always completes. *)
Lemma catchError_of_completa {A} (d : A) (o : Observable A) :
  fin (subscribe (catchError (fun _ => Ok (of_ d)) o) up).2 = Complete.
Proof.
  unfold subscribe, catchError. destruct (o up) as [reqs n].
  destruct (fin n) eqn:E; simpl; [exact E | reflexivity].
Qed.


Lemma buscarLinhas_falha termo erro :
  up (url_linhas env termo) = HttpFail erro ->
  subscribe (SptransService.buscarLinhas env termo) up
  = ([url_linhas env termo], {| items := [Arr []]; fin := Complete |}).
Proof.
  intros H. unfold subscribe, SptransService.buscarLinhas, catchError, http_get.
  rewrite H. reflexivity.
Qed.

Lemma buscarPosicoes_ok codigo body :
  up (url_posicoes env codigo) = HttpOk body ->
  subscribe (buscarPosicoes env codigo) up
  = ([url_posicoes env codigo], {| items := [body]; fin := Complete |}).
Proof.
  intros H. unfold subscribe, buscarPosicoes, catchError, http_get.
  rewrite H. reflexivity.
Qed.

Lemma buscarPosicoes_falha codigo erro :
  up (url_posicoes env codigo) = HttpFail erro ->
  subscribe (buscarPosicoes env codigo) up
  = ([url_posicoes env codigo],
     {| items := [posicoes_vazias]; fin := Complete |}).
Proof.
  intros H. unfold subscribe, buscarPosicoes, catchError, http_get.
  rewrite H. reflexivity.
Qed.

Lemma verificarStatus_falha erro :
  up (url_status env) = HttpFail erro ->
  subscribe (verificarStatus env) up
  = ([url_status env], {| items := [status_erro]; fin := Complete |}).
Proof.
  intros H. unfold subscribe, verificarStatus, catchError, http_get.
  rewrite H. reflexivity.
Qed.

End Servico.

(** C2.  Whatever the input, when the upstream request fails each of the
    three operations delivers its default value and completes: the empty
    array for [buscarLinhas], [{hr: '', vs: []}] for [buscarPosicoes],
    [{autenticado: false, erro: true}] for [verificarStatus]; and under
    every upstream, failing or not, none of them ends in an error. *)
Theorem servico_degrada_falhas (env : Environment) (up : Upstream) :
  (forall termo erro,
      up (url_linhas env termo) = HttpFail erro ->
      (subscribe (SptransService.buscarLinhas env termo) up).2
      = {| items := [Arr []]; fin := Complete |})
  /\ (forall codigo erro,
         up (url_posicoes env codigo) = HttpFail erro ->
         (subscribe (buscarPosicoes env codigo) up).2
         = {| items := [Obj [("hr", Str ""); ("vs", Arr [])]];
              fin := Complete |})
  /\ (forall erro,
         up (url_status env) = HttpFail erro ->
         (subscribe (verificarStatus env) up).2
         = {| items := [Obj [("autenticado", Bool false); ("erro", Bool true)]];
              fin := Complete |})
  /\ (forall termo,
         fin (subscribe (SptransService.buscarLinhas env termo) up).2 = Complete)
  /\ (forall codigo, fin (subscribe (buscarPosicoes env codigo) up).2 = Complete)
  /\ fin (subscribe (verificarStatus env) up).2 = Complete.
Proof.
  repeat split; intros.
  - erewrite buscarLinhas_falha; eauto.
  - erewrite buscarPosicoes_falha; eauto.
  - erewrite verificarStatus_falha; eauto.
  - apply catchError_of_completa.
  - apply catchError_of_completa.
  - apply catchError_of_completa.
Qed.

Lemma servico_degrada_falhas_witness :
  (subscribe (SptransService.buscarLinhas environment_dev "8000") sem_rede).2
  = {| items := [Arr []]; fin := Complete |}
  /\ (subscribe (buscarPosicoes environment_dev (int 1273)) sem_rede).2
     = {| items := [Obj [("hr", Str ""); ("vs", Arr [])]]; fin := Complete |}
  /\ (subscribe (verificarStatus environment_dev) sem_rede).2
     = {| items := [Obj [("autenticado", Bool false); ("erro", Bool true)]];
          fin := Complete |}.
Proof.
  pose proof (servico_degrada_falhas environment_dev sem_rede)
    as (Hl & Hp & Hs & _).
  split; [| split].
  - apply (Hl "8000" (Obj [("status", int 0)])). reflexivity.
  - apply (Hp (int 1273) (Obj [("status", int 0)])). reflexivity.
  - apply (Hs (Obj [("status", int 0)])). reflexivity.
Defined.

(** ** [buscarTodasPosicoes] *)

Lemma nao_nulo_get (v : Val) (k : string) :
  nullish v = false -> exists x, get v k = Ok x.
Proof. destruct v; simpl; intros; try discriminate; eauto. Qed.

Lemma codigoLinha_nao_nulo (linha : Val) :
  nullish linha = false -> exists codigo, codigoLinha linha = Ok codigo.
Proof. destruct linha; simpl; intros; try discriminate; eauto. Qed.



Lemma map_mesmas_requisicoes {A B} (f : A -> Result B) (o : Observable A) up :
  (subscribe (Rx.map f o) up).1 = (subscribe o up).1.
Proof.
  unfold subscribe, Rx.map. destruct (o up) as [reqs n].
  destruct (map_items f (items n)). reflexivity.
Qed.

(** A request object of a line with a code is the position request itself,
    not yet made: it is when the element is subscribed that the position URL
    is requested. *)
Lemma requisicao_adiada env up (linha codigo : Val) o :
  codigoLinha linha = Ok codigo -> truthy codigo = true ->
  requisicaoDePosicoes env linha = Ok o ->
  (subscribe o up).1 = [url_posicoes env codigo].
Proof.
  intros Hc Ht. unfold requisicaoDePosicoes. rewrite Hc, Ht. simpl.
  intros [= <-]. rewrite map_mesmas_requisicoes.
  unfold subscribe, buscarPosicoes, catchError, http_get.
  destruct (up (url_posicoes env codigo)); reflexivity.
Qed.




(** * The view controller *)

(** ** Preservation of a state property by method bodies *)

Section Preservacao.
Variable P : State -> Prop.

Lemma preserva_ret {A} (a : A) : preserva P (ret a).
Proof. intros st H. exact H. Qed.

Lemma preserva_ler : preserva P ler.
Proof. intros st H. exact H. Qed.

Lemma preserva_avaliar {A} (r : Result A) : preserva P (avaliar r).
Proof. intros st H. exact H. Qed.

Lemma preserva_mudar (f : State -> State) :
  (forall st, P st -> P (f st)) -> preserva P (mudar f).
Proof. intros Hf st H. apply Hf, H. Qed.

Lemma preserva_bind {A B} (m : M A) (f : A -> M B) :
  preserva P m -> (forall a, preserva P (f a)) -> preserva P (bind m f).
Proof.
  intros Hm Hf st H. unfold bind. specialize (Hm st H).
  destruct (m st) as [[a|e] st']; simpl in *; [apply Hf|]; assumption.
Qed.

Lemma preserva_forEach {A} (l : list A) (f : A -> M unit) :
  (forall x, preserva P (f x)) -> preserva P (forEach l f).
Proof.
  intros Hf. induction l as [|x l IH]; simpl.
  - apply preserva_ret.
  - apply preserva_bind; [apply Hf | intros _; exact IH].
Qed.

Lemma preserva_se {A} (b : bool) (m1 m2 : M A) :
  preserva P m1 -> preserva P m2 -> preserva P (if b then m1 else m2).
Proof. destruct b; auto. Qed.

(** A property that survives the report of an uncaught exception survives
    callbacks and deliveries. *)
Hypothesis P_uncaught :
  forall st e, P st -> P (set_efeitos (efeitos st ++ [EUncaught e]) st).

Lemma preserva_callback (m : M unit) st :
  preserva P m -> P st -> P (callback m st).
Proof.
  intros Hm H. unfold callback. specialize (Hm st H).
  destruct (m st) as [[[]|e] st']; simpl in *; auto.
Qed.

Lemma preserva_entregar {A} (n : Notifs A) (next : A -> M unit)
    (error : Val -> M unit) st :
  (forall a, preserva P (next a)) -> (forall e, preserva P (error e)) ->
  P st -> P (entregar n next error st).
Proof.
  intros Hn He H. unfold entregar.
  assert (P (foldl (fun s a => callback (next a) s) st (items n))) as H'.
  { revert st H. induction (items n) as [|a l IH]; intros st H; simpl; auto.
    apply IH, preserva_callback; auto. }
  destruct (fin n); [exact H' | apply preserva_callback; auto].
Qed.

End Preservacao.

Ltac executar :=
  unfold bind, ret, ler, mudar, avaliar, efeito, alert; simpl.

(** Two states written with the setters are equal when their fields are. *)
Ltac estado_igual :=
  unfold set_L, set_mapa, set_termoBusca, set_carregando, set_mapaCarregado,
    set_totalBuscas, set_ultimoErro, set_marcadoresOnibus, set_buscas,
    set_pendentes, set_efeitos, set_lastId;
  simpl; f_equal; rewrite <- ?app_assoc; simpl; try reflexivity; auto.

(** ** The markers on the map are the markers in the list *)

Lemma forEach_removeLayer (l : list Marker) (st : State) (m : Mapa) :
  mapa st = Some m ->
  forEach l mapa_removeLayer st
  = (Ok tt,
     set_efeitos (efeitos st ++ (ERemoveLayer <$> l))
       (set_mapa (Some (foldl (fun m x => removeLayer x m) m l)) st)).
Proof.
  revert st m. induction l as [|x l IH]; intros st m Hm.
  - simpl. unfold ret. rewrite app_nil_r, <- Hm. destruct st; reflexivity.
  - simpl. unfold bind at 1. unfold mapa_removeLayer at 1. executar.
    rewrite Hm. simpl.
    erewrite IH by reflexivity. simpl. rewrite <- app_assoc. reflexivity.
Qed.

Lemma remover_todos (ms : list Marker) (m : Mapa) :
  Forall (fun x => stamp x ∈ stamp <$> ms) (layers m) ->
  layers (foldl (fun m x => removeLayer x m) m ms) = [].
Proof.
  revert m. induction ms as [|x ms IH]; intros m H; simpl.
  - destruct (layers m) as [|y l]; [reflexivity|].
    inversion H as [|? ? Hy _]. simpl in Hy. inversion Hy.
  - apply IH. simpl. clear IH.
    induction (layers m) as [|y l IHl]; [constructor|].
    inversion H as [|? ? Hy Hl]; subst. rewrite filter_cons.
    destruct (decide (stamp y <> stamp x)) as [Hne|Heq].
    + constructor; [| apply IHl, Hl].
      simpl in Hy. apply elem_of_cons in Hy as [Hy|Hy]; [contradiction|exact Hy].
    + apply IHl, Hl.
Qed.

Lemma remover_view (ms : list Marker) (m : Mapa) :
  view (foldl (fun m x => removeLayer x m) m ms) = view m.
Proof. revert m. induction ms as [|x ms IH]; intros m; simpl; [|rewrite IH]; reflexivity. Qed.

(** What [limparMarcadores] does once the map exists. *)
Lemma limparMarcadores_mapa (st : State) (m : Mapa) :
  mapa st = Some m ->
  limparMarcadores st
  = (Ok tt,
     set_marcadoresOnibus []
       (set_efeitos (efeitos st ++ (ERemoveLayer <$> marcadoresOnibus st))
          (set_mapa
             (Some (foldl (fun m x => removeLayer x m) m (marcadoresOnibus st)))
             st))).
Proof.
  intros Hm. unfold limparMarcadores. unfold bind at 1, ler at 1. rewrite Hm.
  unfold bind. rewrite (forEach_removeLayer _ st m Hm). reflexivity.
Qed.

Lemma limparMarcadores_sem_mapa (st : State) :
  mapa st = None -> limparMarcadores st = (Ok tt, st).
Proof. intros Hm. unfold limparMarcadores, bind, ler. rewrite Hm. reflexivity. Qed.

Lemma limparMarcadores_coerente : preserva mapa_coerente limparMarcadores.
Proof.
  intros st H. destruct (mapa st) as [m|] eqn:Hm.
  - rewrite (limparMarcadores_mapa st m Hm). unfold mapa_coerente in *. simpl.
    rewrite Hm in H. apply remover_todos. rewrite H.
    apply Forall_forall. intros x Hx. apply list_elem_of_fmap_2, Hx.
  - rewrite (limparMarcadores_sem_mapa st Hm). exact H.
Qed.

(** [adicionarMarcador] either leaves the component as it is (no Leaflet or
    no map, a vehicle that is [null], coordinates that do not parse), or
    puts one new marker on the map and at the end of the list. *)
Lemma adicionarMarcador_casos (onibus linha : Val) (st : State) :
  (exists r, adicionarMarcador onibus linha st = (r, st))
  \/ (exists m marcador,
        mapa st = Some m /\ L st = true
        /\ isNaN (lat marcador) = false /\ isNaN (lng marcador) = false
        /\ adicionarMarcador onibus linha st = (Ok tt, com_marcador marcador m st)).
Proof.
  unfold adicionarMarcador, marker_addTo, com_marcador.
  unfold bind, ler, avaliar, mudar, efeito, ret.
  destruct (L st) eqn:HL; simpl; [|left; eauto].
  destruct (mapa st) as [m|] eqn:Hm; simpl; [|left; eauto].
  destruct (get onibus "py") as [py|]; [|left; eauto].
  destruct (get onibus "px") as [px|]; [|left; eauto].
  destruct (isNaN (parseFloat py)) eqn:Hlat; simpl; [left; eauto|].
  destruct (isNaN (parseFloat px)) eqn:Hlng; simpl; [left; eauto|].
  destruct (get linha "c") as [c|]; [|left; eauto].
  destruct (get linha "sl") as [sl|]; [|left; eauto].
  destruct (get onibus "ta") as [ta|]; [|left; eauto].
  destruct (get onibus "a") as [a|]; [|left; eauto].
  right. eexists m, _. rewrite Hm. simpl.
  split; [reflexivity|]. split; [reflexivity|].
  split; [| split; [| reflexivity]]; simpl; assumption.
Qed.

Lemma adicionarMarcador_coerente onibus linha :
  preserva mapa_coerente (adicionarMarcador onibus linha).
Proof.
  intros st H.
  destruct (adicionarMarcador_casos onibus linha st)
    as [[r ->] | (m & marcador & Hm & _ & _ & _ & ->)]; [exact H|].
  unfold mapa_coerente in *. rewrite Hm in H. simpl. rewrite H. reflexivity.
Qed.

(** The bodies that touch neither the map nor the list keep any property
    that reads only those two. *)
Ltac preservar leaf :=
  repeat first
    [ leaf
    | apply preserva_ret | apply preserva_ler | apply preserva_avaliar
    | apply preserva_forEach; intros ?
    | apply preserva_bind; [| intros ?]
    | apply preserva_se
    | match goal with
      | |- preserva _ (match ?x with _ => _ end) => destruct x
      end
    | apply preserva_mudar; let st := fresh "st" in let H := fresh "H" in
                            intros st H; exact H ].

Lemma mapa_fitBounds_coerente grupo : preserva mapa_coerente (mapa_fitBounds grupo).
Proof.
  intros st H. destruct grupo as [|x g]; [exact H|].
  unfold mapa_coerente in *. simpl. destruct (mapa st); exact H.
Qed.

Lemma mostrarResultadoFinal_coerente k total proc t :
  preserva mapa_coerente (mostrarResultadoFinal k total proc t).
Proof.
  unfold mostrarResultadoFinal, alert, efeito.
  preservar ltac:(apply mapa_fitBounds_coerente).
Qed.

Lemma se_ultima_linha_coerente k : preserva mapa_coerente (se_ultima_linha k).
Proof.
  unfold se_ultima_linha, ler_busca.
  preservar ltac:(apply mostrarResultadoFinal_coerente).
Qed.

Lemma posicoes_next_coerente k linha posicoes :
  preserva mapa_coerente (posicoes_next k linha posicoes).
Proof.
  unfold posicoes_next, marcarOnibus, mudar_busca.
  preservar ltac:(first [ apply se_ultima_linha_coerente
                        | apply adicionarMarcador_coerente ]).
Qed.

Lemma posicoes_error_coerente k erro :
  preserva mapa_coerente (posicoes_error k erro).
Proof.
  unfold posicoes_error, mudar_busca.
  preservar ltac:(apply se_ultima_linha_coerente).
Qed.

Lemma processarLinhas_coerente linhas t :
  preserva mapa_coerente (processarLinhas linhas t).
Proof.
  unfold processarLinhas, processarLinha, nova_busca, assinar, alert, efeito.
  preservar fail.
Qed.

Lemma linhas_next_coerente t linhas :
  preserva mapa_coerente (linhas_next t linhas).
Proof.
  unfold linhas_next. preservar ltac:(apply processarLinhas_coerente).
Qed.

Lemma linhas_error_coerente erro : preserva mapa_coerente (linhas_error erro).
Proof. unfold linhas_error, mostrarErro, alert, efeito. preservar fail. Qed.

Lemma buscarLinhas_coerente : preserva mapa_coerente AppComponent.buscarLinhas.
Proof.
  unfold AppComponent.buscarLinhas, assinar, alert, efeito.
  preservar ltac:(apply limparMarcadores_coerente).
Qed.

Lemma ngOnInit_coerente ok : preserva mapa_coerente (ngOnInit ok).
Proof. unfold ngOnInit. preservar fail. Qed.

Lemma criarMapa_coerente ok : preserva mapa_coerente (criarMapa ok).
Proof.
  intros st H. unfold criarMapa. executar.
  destruct (L st); simpl; [|exact H].
  destruct (mapa st) eqn:Hm; simpl; [exact H|].
  destruct ok; simpl; [|exact H].
  unfold mapa_coerente in *. rewrite Hm in H. simpl. symmetry. exact H.
Qed.

Lemma step_coerente (st : State) (ev : Event) :
  mapa_coerente st -> mapa_coerente (step st ev).
Proof.
  intros H. destruct ev as [ok|ok|texto| | |i r]; simpl.
  - apply preserva_callback; auto using ngOnInit_coerente.
  - destruct (isBrowser st); [|exact H].
    apply preserva_callback; auto using criarMapa_coerente.
  - exact H.
  - apply preserva_callback; auto using buscarLinhas_coerente.
  - apply preserva_callback; auto using limparMarcadores_coerente.
  - destruct (pendentes st !! i) as [[t|k linha codigo]|]; [| |exact H].
    + apply preserva_entregar;
        auto using linhas_next_coerente, linhas_error_coerente.
    + apply preserva_entregar;
        auto using posicoes_next_coerente, posicoes_error_coerente.
Qed.

Lemma run_coerente (evs : list Event) (st : State) :
  mapa_coerente st -> mapa_coerente (run evs st).
Proof.
  revert st. induction evs as [|ev evs IH]; intros st H; simpl; [exact H|].
  apply IH, step_coerente, H.
Qed.

Lemma alcancavel_coerente (st : State) : alcancavel st -> mapa_coerente st.
Proof. intros (env & browser & evs & ->). apply run_coerente. reflexivity. Qed.

(** What the search button does once both validations pass. *)
Lemma buscarLinhas_valida (st : State) (m : Mapa) :
  trim (termoBusca st) <> "" ->
  mapa st = Some m ->
  step st Buscar
  = set_pendentes (pendentes st ++ [SubLinhas (trim (termoBusca st))])
      (set_efeitos
         (efeitos st ++ (ERemoveLayer <$> marcadoresOnibus st)
            ++ [EHttpGet (url_linhas (environment st) (trim (termoBusca st)))])
         (set_marcadoresOnibus []
            (set_mapa
               (Some (foldl (fun m x => removeLayer x m) m (marcadoresOnibus st)))
               (set_totalBuscas (S (totalBuscas st))
                  (set_ultimoErro "" (set_carregando true st)))))).
Proof.
  intros Ht Hm. simpl. unfold callback, AppComponent.buscarLinhas.
  unfold bind at 1, ler at 1. simpl.
  destruct (String.eqb_spec (trim (termoBusca st)) "") as [E|_]; [contradiction|].
  simpl. rewrite Hm. simpl. executar.
  erewrite limparMarcadores_mapa by (simpl; exact Hm).
  simpl. unfold assinar. executar. rewrite <- app_assoc. reflexivity.
Qed.

(** C7.  In every reachable state, when the search button is pressed and
    both validations pass (a non-blank term, a map), each marker of
    [marcadoresOnibus] is removed from the map, after which the map carries
    no marker and the list is empty; the line request is issued after the
    removals, and the viewport is not touched. *)
Theorem nova_busca_limpa_marcadores (st : State) (m : Mapa) :
  alcancavel st ->
  trim (termoBusca st) <> "" ->
  mapa st = Some m ->
  let st' := step st Buscar in
  marcadoresOnibus st' = []
  /\ (exists m', mapa st' = Some m' /\ layers m' = [] /\ view m' = view m)
  /\ efeitos st'
     = efeitos st ++ (ERemoveLayer <$> marcadoresOnibus st)
         ++ [EHttpGet (url_linhas (environment st) (trim (termoBusca st)))]
  /\ pendentes st' = pendentes st ++ [SubLinhas (trim (termoBusca st))].
Proof.
  intros Hr Ht Hm st'. subst st'. rewrite (buscarLinhas_valida st m Ht Hm).
  simpl. split; [reflexivity|]. split; [|split; reflexivity].
  eexists. split; [reflexivity|]. split; [|apply remover_view].
  apply remover_todos.
  pose proof (alcancavel_coerente st Hr) as Hc. unfold mapa_coerente in Hc.
  rewrite Hm in Hc. rewrite Hc.
  apply Forall_forall. intros x Hx. apply list_elem_of_fmap_2, Hx.
Qed.

(** ** What the position subscriber does *)

Lemma mesma_ui_refl st : mesma_ui st st.
Proof. repeat split. Qed.

Lemma mesma_ui_trans st1 st2 st3 :
  mesma_ui st1 st2 -> mesma_ui st2 st3 -> mesma_ui st1 st3.
Proof.
  unfold mesma_ui. intros (?&?&?&?&?&?&?&?&?) (?&?&?&?&?&?&?&?&?).
  repeat split; congruence.
Qed.

Lemma alter_mais_onibus_0 k (bs : list Busca) : alter (mais_onibus 0) k bs = bs.
Proof.
  apply list_alter_id. intros [t p n s]. unfold mais_onibus. simpl.
  f_equal. lia.
Qed.

Lemma alter_mais_onibus_S j k (bs : list Busca) :
  alter (mais_onibus j) k (alter mais_um_onibus k bs)
  = alter (mais_onibus (S j)) k bs.
Proof.
  rewrite list_alter_alter_eq. apply list_alter_ext; [|reflexivity].
  intros [t p n s] _. unfold mais_onibus, mais_um_onibus. simpl.
  f_equal. lia.
Qed.

Lemma bind_ok {A B} (m : M A) (f : A -> M B) (st st' : State) (a : A) :
  m st = (Ok a, st') -> bind m f st = f a st'.
Proof. intros H. unfold bind. rewrite H. reflexivity. Qed.

Lemma bind_throw {A B} (m : M A) (f : A -> M B) (st st' : State) (e : Val) :
  m st = (Throw e, st') -> bind m f st = (Throw e, st').
Proof. intros H. unfold bind. rewrite H. reflexivity. Qed.

(** With a line and a vehicle that are not [null], no property read in
    [adicionarMarcador] throws. *)
Lemma adicionarMarcador_termina (onibus linha : Val) (st : State) :
  nullish onibus = false -> nullish linha = false ->
  (adicionarMarcador onibus linha st).1 = Ok tt.
Proof.
  intros Ho Hl. unfold adicionarMarcador, marker_addTo.
  unfold bind, ler, avaliar, mudar, efeito, ret.
  destruct (negb (L st) || negb (bool_decide (is_Some (mapa st))));
    [reflexivity|].
  destruct (nao_nulo_get onibus "py" Ho) as [py ->].
  destruct (nao_nulo_get onibus "px" Ho) as [px ->].
  destruct (isNaN (parseFloat py) || isNaN (parseFloat px)); [reflexivity|].
  destruct (nao_nulo_get linha "c" Hl) as [c ->].
  destruct (nao_nulo_get linha "sl" Hl) as [sl ->].
  destruct (nao_nulo_get onibus "ta" Ho) as [ta ->].
  destruct (nao_nulo_get onibus "a" Ho) as [a ->].
  reflexivity.
Qed.

(** One round of the vehicle loop: it throws and changes nothing, or counts
    the vehicle without a marker, or counts it with one. *)
Lemma marcarOnibus_casos (k : nat) (linha onibus : Val) (st : State) :
  (exists e, marcarOnibus k linha onibus st = (Throw e, st)
             /\ (nullish onibus = true \/ nullish linha = true))
  \/ marcarOnibus k linha onibus st
     = (Ok tt, set_buscas (alter mais_um_onibus k (buscas st)) st)
  \/ (exists m marcador,
        mapa st = Some m
        /\ marcarOnibus k linha onibus st
           = (Ok tt,
              set_buscas (alter mais_um_onibus k (buscas st))
                (com_marcador marcador m st))).
Proof.
  unfold marcarOnibus.
  pose proof (adicionarMarcador_termina onibus linha st) as Hterm.
  destruct (adicionarMarcador_casos onibus linha st)
    as [[[[]|e] Hr] | (m & marcador & Hm & _ & _ & _ & Hr)].
  - right; left. rewrite (bind_ok _ _ _ _ _ Hr). reflexivity.
  - left. exists e. rewrite (bind_throw _ _ _ _ _ Hr). split; [reflexivity|].
    rewrite Hr in Hterm. simpl in Hterm.
    destruct (nullish onibus); [left; reflexivity|].
    destruct (nullish linha); [right; reflexivity|].
    specialize (Hterm eq_refl eq_refl). discriminate.
  - right; right. exists m, marcador. split; [exact Hm|].
    rewrite (bind_ok _ _ _ _ _ Hr). reflexivity.
Qed.

Lemma com_layers_nil (o : option Mapa) : com_layers [] <$> o = o.
Proof.
  destruct o as [[ls v]|]; simpl; [|reflexivity].
  unfold com_layers. simpl. rewrite app_nil_r. reflexivity.
Qed.

(** The vehicle loop of [posicoes_next]: after [j] completed rounds the bus
    total of the search has grown by [j], and the markers put on the map,
    at most [j] of them, are at the end of the list and of the map layers.
    A round is left undone only when a property read throws. *)
Lemma forEach_onibus (k : nat) (linha : Val) (l : list Val) (st : State) :
  exists (j : nat) (novos : list Marker) (r : Result unit) (st' : State),
    forEach l (marcarOnibus k linha) st = (r, st')
    /\ mesma_ui st st'
    /\ buscas st' = alter (mais_onibus j) k (buscas st)
    /\ marcadoresOnibus st' = marcadoresOnibus st ++ novos
    /\ mapa st' = com_layers novos <$> mapa st
    /\ efeitos st' = efeitos st ++ (EAddLayer <$> novos)
    /\ length novos <= j /\ j <= length l
    /\ (r = Ok tt -> j = length l)
    /\ (nullish linha = false ->
        Forall (fun onibus => nullish onibus = false) l -> r = Ok tt).
Proof.
  revert st. induction l as [|onibus l IH]; intros st.
  - exists 0, [], (Ok tt), st. simpl.
    rewrite alter_mais_onibus_0, !app_nil_r, com_layers_nil.
    split; [reflexivity|]. split; [apply mesma_ui_refl|].
    repeat split; auto.
  - simpl forEach.
    destruct (marcarOnibus_casos k linha onibus st)
      as [(e & Hr & Hnull) | [Hr | (m & marcador & Hm & Hr)]].
    + exists 0, [], (Throw e), st.
      rewrite (bind_throw _ _ _ _ _ Hr).
      rewrite alter_mais_onibus_0, !app_nil_r, com_layers_nil.
      split; [reflexivity|]. split; [apply mesma_ui_refl|].
      repeat split; auto; try lia; try discriminate.
      intros Hl Hall. inversion Hall; subst.
      destruct Hnull; congruence.
    + rewrite (bind_ok _ _ _ _ _ Hr).
      destruct (IH (set_buscas (alter mais_um_onibus k (buscas st)) st))
        as (j & novos & r & st' & Hrun & Hui & Hb & Hms & Hmapa & Hef
            & Hlen & Hj & Hok & Hnt).
      exists (S j), novos, r, st'. simpl in *.
      rewrite alter_mais_onibus_S in Hb.
      split; [exact Hrun|]. split; [exact Hui|].
      repeat split; auto; try lia.
      intros Hl Hall. inversion Hall; subst. auto.
    + rewrite (bind_ok _ _ _ _ _ Hr).
      destruct (IH (set_buscas (alter mais_um_onibus k (buscas st))
                      (com_marcador marcador m st)))
        as (j & novos & r & st' & Hrun & Hui & Hb & Hms & Hmapa & Hef
            & Hlen & Hj & Hok & Hnt).
      exists (S j), (marcador :: novos), r, st'. simpl in *.
      rewrite alter_mais_onibus_S in Hb. rewrite Hm.
      rewrite <- !app_assoc in *. simpl in *.
      split; [exact Hrun|]. split; [exact Hui|].
      repeat split; auto; try lia.
      * rewrite Hmapa. unfold com_layers, addLayer. simpl.
        rewrite <- app_assoc. reflexivity.
      * intros Hl Hall. inversion Hall; subst. auto.
Qed.

Lemma se_ultima_linha_casos (k : nat) (b : Busca) (st : State) :
  buscas st !! k = Some b ->
  exists r st', se_ultima_linha k st = (r, st') /\ resultado_de k b st r st'.
Proof.
  intros Hb. unfold se_ultima_linha, ler_busca, mostrarResultadoFinal.
  unfold mapa_fitBounds, alert.
  unfold bind, ler, ret, efeito, mudar, avaliar. rewrite Hb. simpl.
  destruct (Nat.eqb_spec (linhasProcessadas b) (totalLinhas b)) as [E|E].
  - destruct (totalOnibus b) as [|n] eqn:Ht; simpl.
    + eexists _, _. split; [reflexivity|]. right; left.
      repeat split; auto. rewrite <- app_assoc. reflexivity.
    + destruct (marcadoresOnibus st) as [|x g] eqn:Hms; simpl.
      * eexists _, _. split; [reflexivity|]. right; right; right.
        repeat split; rewrite ?Ht; auto; lia.
      * eexists _, _. split; [reflexivity|]. right; right; left.
        repeat split; rewrite ?Ht, ?Hms; auto; try lia; try discriminate.
        estado_igual.
  - eexists _, _. split; [reflexivity|]. left. auto.
Qed.

(** [posicoes_next]: the line is counted, then the vehicles; either a
    property read throws on the way (the response is not well formed) and
    the closing block is not reached, or every vehicle is counted and the
    closing block runs. *)
Lemma posicoes_next_casos (k : nat) (linha posicoes : Val) (b : Busca)
    (st : State) :
  buscas st !! k = Some b ->
  exists (j : nat) (novos : list Marker) (smid : State) (r : Result unit)
         (st' : State),
    posicoes_next k linha posicoes st = (r, st')
    /\ apos_onibus k j novos st smid
    /\ ((st' = smid /\ (exists e, r = Throw e)
         /\ ~ bem_formada linha posicoes)
        \/ (j = length (veiculos posicoes)
            /\ resultado_de k (mais_onibus j (mais_uma_linha b)) smid r st')).
Proof.
  intros Hb. unfold posicoes_next.
  unfold mudar_busca at 1. unfold bind at 1, mudar at 1.
  set (st1 := set_buscas (alter mais_uma_linha k (buscas st)) st).
  assert (Hb1 : buscas st1 !! k = Some (mais_uma_linha b)).
  { simpl. rewrite list_lookup_alter_eq, Hb. reflexivity. }
  assert (H0 : apos_onibus k 0 [] st st1).
  { unfold apos_onibus. simpl. rewrite !app_nil_r, com_layers_nil.
    split; [exact (mesma_ui_refl st)|]. repeat split; auto.
    apply list_alter_ext; [|reflexivity]. intros [t p n s] _.
    unfold mais_onibus, mais_uma_linha. simpl. f_equal. lia. }
  assert (Hsem : forall r st',
             se_ultima_linha k st1 = (r, st') ->
             resultado_de k (mais_uma_linha b) st1 r st' ->
             resultado_de k (mais_onibus 0 (mais_uma_linha b)) st1 r st').
  { intros r st' _ H. replace (mais_onibus 0 (mais_uma_linha b))
      with (mais_uma_linha b); [exact H|].
    destruct b as [t p n s]. unfold mais_onibus, mais_uma_linha. simpl.
    f_equal. lia. }
  unfold veiculos.
  destruct (get posicoes "vs") as [vs|e] eqn:Hvs.
  - unfold bind at 1, avaliar at 1.
    destruct (truthy vs && isArray vs && (0 <? length (elementos vs))%nat)
      eqn:Hcond.
    + destruct (forEach_onibus k linha (elementos vs) st1)
        as (j & novos & r & smid & Hrun & Hui & Hbs & Hms & Hmapa & Hef
            & Hlen & Hj & Hok & Hnt).
      assert (Hap : apos_onibus k j novos st smid).
      { unfold apos_onibus. simpl in *. split; [exact Hui|].
        rewrite Hbs, list_alter_alter_eq. repeat split; auto. }
      destruct r as [[]|e].
      * rewrite (bind_ok _ _ _ _ _ Hrun).
        assert (Hbm : buscas smid !! k = Some (mais_onibus j (mais_uma_linha b))).
        { rewrite Hbs, list_lookup_alter_eq, Hb1. reflexivity. }
        destruct (se_ultima_linha_casos k _ smid Hbm) as (r & st' & Hse & Hres).
        exists j, novos, smid, r, st'. split; [exact Hse|]. split; [exact Hap|].
        right. split; [apply Hok; reflexivity | exact Hres].
      * rewrite (bind_throw _ _ _ _ _ Hrun).
        exists j, novos, smid, (Throw e), smid.
        split; [reflexivity|]. split; [exact Hap|]. left.
        split; [reflexivity|]. split; [eauto|].
        intros (Hl & Hp & Hall). specialize (Hnt Hl (Hall vs Hvs)). discriminate.
    + destruct (se_ultima_linha_casos k _ st1 Hb1) as (r & st' & Hse & Hres).
      exists 0, [], st1, r, st'. split; [exact Hse|]. split; [exact H0|].
      right. split; [|apply (Hsem r st' Hse Hres)].
      destruct vs as [| | | | |l|]; simpl in Hcond |- *; try reflexivity.
      destruct l; [reflexivity | discriminate].
  - exists 0, [], st1, (Throw e), st1.
    split; [reflexivity|]. split; [exact H0|]. left.
    split; [reflexivity|]. split; [eauto|].
    intros (_ & Hp & _). destruct (nao_nulo_get posicoes "vs" Hp) as [x Hx].
    congruence.
Qed.

(** ** Responses, as the event loop hands them to the subscribers *)

Lemma step_linhas (st : State) (i : nat) (t : string) (r : HttpResult) :
  pendentes st !! i = Some (SubLinhas t) ->
  step st (Resposta i r) = callback (linhas_next t (linhas_de r)) (sem_pendente i st).
Proof. intros H. simpl. rewrite H. destruct r; reflexivity. Qed.

Lemma step_posicoes (st : State) (i k : nat) (linha codigo : Val)
    (r : HttpResult) :
  pendentes st !! i = Some (SubPosicoes k linha codigo) ->
  step st (Resposta i r)
  = callback (posicoes_next k linha (posicoes_de r)) (sem_pendente i st).
Proof. intros H. simpl. rewrite H. destruct r; reflexivity. Qed.

Lemma step_sem_pendente (st : State) (i : nat) (r : HttpResult) :
  pendentes st !! i = None -> step st (Resposta i r) = st.
Proof. intros H. simpl. rewrite H. reflexivity. Qed.

Lemma callback_relatar (m : M unit) (st st' : State) (r : Result unit) :
  m st = (r, st') -> callback m st = relatar r st'.
Proof. intros H. unfold callback. rewrite H. destruct r; reflexivity. Qed.

(** What the closing block, run as the end of a callback, leaves alone, and
    what it adds to the effects. *)
Lemma resultado_de_quadro (k : nat) (b : Busca) (st st' : State)
    (r : Result unit) :
  resultado_de k b st r st' ->
  mesma_ui st (relatar r st')
  /\ buscas (relatar r st') = buscas st
  /\ marcadoresOnibus (relatar r st') = marcadoresOnibus st
  /\ layers <$> mapa (relatar r st') = layers <$> mapa st
  /\ ((linhasProcessadas b <> totalLinhas b /\ relatar r st' = st)
      \/ (linhasProcessadas b = totalLinhas b
          /\ exists resto,
            efeitos (relatar r st')
            = efeitos st
                ++ EResultadoFinal k (totalOnibus b) (linhasProcessadas b) :: resto
            /\ forallb (fun e => negb (e_resultado_final e)
                                 && negb (e_mostrar_erro e)) resto = true)).
Proof.
  intros [(Hne & -> & ->) | [(He & Hz & -> & ->) | [(He & Hp & Hms & -> & ->)
                                                   | (He & Hp & Hms & -> & ->)]]];
    simpl.
  - split; [exact (mesma_ui_refl st)|]. repeat split; auto.
  - split; [exact (mesma_ui_refl st)|]. repeat split; auto. right.
    split; [exact He|]. rewrite Hz. eexists. split; reflexivity.
  - split; [exact (mesma_ui_refl st)|]. repeat split; auto.
    + destruct (mapa st); reflexivity.
    + right. split; [exact He|]. eexists. split; reflexivity.
  - split; [exact (mesma_ui_refl st)|]. repeat split; auto. right.
    split; [exact He|]. eexists. rewrite <- app_assoc. split; reflexivity.
Qed.

(** The two ways a failed position request reaches the component: through
    the service, as the default response handed to [next]; or, had the
    service let it through, as a call of [error].  Both run the same
    closing block on the same state. *)
Lemma posicoes_next_vazias (k : nat) (linha : Val) (b : Busca) (st : State) :
  buscas st !! k = Some b ->
  exists r st',
    posicoes_next k linha posicoes_vazias st = (r, st')
    /\ resultado_de k (mais_uma_linha b)
         (set_buscas (alter mais_uma_linha k (buscas st)) st) r st'.
Proof.
  intros Hb. unfold posicoes_next, mudar_busca.
  unfold bind at 1, mudar at 1. unfold bind at 1, avaliar at 1. simpl.
  apply se_ultima_linha_casos. simpl.
  rewrite list_lookup_alter_eq, Hb. reflexivity.
Qed.

Lemma posicoes_error_casos (k : nat) (erro : Val) (b : Busca) (st : State) :
  buscas st !! k = Some b ->
  exists r st',
    posicoes_error k erro st = (r, st')
    /\ resultado_de k (mais_uma_linha b)
         (set_buscas (alter mais_uma_linha k (buscas st)) st) r st'.
Proof.
  intros Hb. unfold posicoes_error, mudar_busca.
  unfold bind at 1, mudar at 1.
  apply se_ultima_linha_casos. simpl.
  rewrite list_lookup_alter_eq, Hb. reflexivity.
Qed.

(** C5.  When the position request of a line fails, whether the failure
    arrives as the default response of the service or at the [error]
    function of the subscriber, the line is counted as processed, no marker
    is added to the list or to the map, the other requests stay in flight,
    and the summary is called exactly when this line brings the count to
    the number of lines, as it would be for a line that succeeded. *)
Theorem falha_de_posicoes_e_contada (st st' : State) (i k : nat)
    (linha codigo erro : Val) (b : Busca) :
  pendentes st !! i = Some (SubPosicoes k linha codigo) ->
  buscas st !! k = Some b ->
  st' = step st (Resposta i (HttpFail erro))
  \/ st' = callback (posicoes_error k erro) (sem_pendente i st) ->
  buscas st' = alter mais_uma_linha k (buscas st)
  /\ buscas st' !! k
     = Some {| totalOnibus := totalOnibus b;
               linhasProcessadas := S (linhasProcessadas b);
               totalLinhas := totalLinhas b; termo := termo b |}
  /\ marcadoresOnibus st' = marcadoresOnibus st
  /\ layers <$> mapa st' = layers <$> mapa st
  /\ pendentes st' = delete i (pendentes st)
  /\ (S (linhasProcessadas b) <> totalLinhas b -> efeitos st' = efeitos st)
  /\ (S (linhasProcessadas b) = totalLinhas b ->
      exists resto,
        efeitos st'
        = efeitos st
            ++ EResultadoFinal k (totalOnibus b) (S (linhasProcessadas b)) :: resto
        /\ forallb (fun e => negb (e_resultado_final e)) resto = true).
Proof.
  intros Hp Hb Hst'.
  assert (exists r s,
             st' = relatar r s
             /\ resultado_de k (mais_uma_linha b)
                  (set_buscas (alter mais_uma_linha k (buscas st))
                     (sem_pendente i st)) r s) as (r & s & -> & Hres).
  { destruct Hst' as [-> | ->].
    - rewrite (step_posicoes st i k linha codigo _ Hp). simpl posicoes_de.
      destruct (posicoes_next_vazias k linha b (sem_pendente i st) Hb)
        as (r & s & Hrun & Hres).
      exists r, s. split; [apply callback_relatar, Hrun | exact Hres].
    - destruct (posicoes_error_casos k erro b (sem_pendente i st) Hb)
        as (r & s & Hrun & Hres).
      exists r, s. split; [apply callback_relatar, Hrun | exact Hres]. }
  destruct (resultado_de_quadro _ _ _ _ _ Hres)
    as (Hui & Hbs & Hms & Hlay & Hfim).
  simpl in *. destruct Hui as (_&_&_&_&_&_&_&_&Hpen).
  split; [exact Hbs|]. split.
  { rewrite Hbs, list_lookup_alter_eq, Hb. reflexivity. }
  split; [exact Hms|]. split; [exact Hlay|]. split; [exact Hpen|].
  destruct Hfim as [(Hne & Heq) | (He & resto & Hef & Hresto)].
  - split; [intros _; rewrite Heq; reflexivity | intros; contradiction].
  - split; [intros; contradiction|]. intros _. exists resto.
    split; [exact Hef|]. clear - Hresto.
    induction resto as [|e l IH]; simpl in *; [reflexivity|].
    apply andb_true_iff in Hresto as [He Hl].
    apply andb_true_iff in He as [He _]. rewrite He. simpl. auto.
Qed.

(** ** What the line subscriber does *)

Lemma com_pedidos_nil k st : com_pedidos k [] st = st.
Proof.
  unfold com_pedidos. simpl. rewrite !app_nil_r. destruct st; reflexivity.
Qed.

Lemma com_pedidos_cons k lc cs st :
  com_pedidos k cs (com_pedidos k [lc] st) = com_pedidos k (lc :: cs) st.
Proof. unfold com_pedidos. estado_igual. Qed.

Lemma linhas_com_codigo_length (l : list Val) :
  length (linhas_com_codigo l) <= length l.
Proof.
  induction l as [|x l IH]; simpl; [lia|].
  destruct (codigoLinha x) as [c|]; [destruct (truthy c)|]; simpl; lia.
Qed.

(** The loop of [processarLinhas]: the lines before the first [null] one
    are gone through, and those with a code get their request. *)
Lemma forEach_processarLinha (k : nat) (l : list Val) (st : State) :
  exists (n : nat) (r : Result unit),
    n <= length l
    /\ forEach l (processarLinha k) st
       = (r, com_pedidos k (linhas_com_codigo (take n l)) st)
    /\ (Forall (fun linha => nullish linha = false) l ->
        n = length l /\ r = Ok tt).
Proof.
  revert st. induction l as [|linha l IH]; intros st.
  - exists 0, (Ok tt). simpl. rewrite com_pedidos_nil. auto.
  - simpl forEach. unfold processarLinha at 1.
    destruct (codigoLinha linha) as [codigo|e] eqn:Hc.
    + unfold bind at 1. unfold bind at 1, avaliar at 1.
      destruct (truthy codigo) eqn:Ht; simpl negb; cbv iota.
      * unfold assinar. executar.
        destruct (IH (com_pedidos k [(linha, codigo)] st))
          as (n & r & Hn & Hrun & Hall).
        exists (S n), r. split; [simpl; lia|]. split.
        -- simpl take. unfold linhas_com_codigo. simpl omap. rewrite Hc, Ht.
           fold (linhas_com_codigo (take n l)).
           rewrite <- com_pedidos_cons. exact Hrun.
        -- intros HF. inversion HF; subst.
           destruct (Hall ltac:(assumption)) as [-> ->]. auto.
      * unfold ret at 1.
        destruct (IH st) as (n & r & Hn & Hrun & Hall).
        exists (S n), r. split; [simpl; lia|]. split.
        -- simpl take. unfold linhas_com_codigo. simpl omap. rewrite Hc, Ht.
           exact Hrun.
        -- intros HF. inversion HF; subst.
           destruct (Hall ltac:(assumption)) as [-> ->]. auto.
    + exists 0, (Throw e). split; [lia|]. split.
      * simpl. rewrite com_pedidos_nil. reflexivity.
      * intros HF. inversion HF as [|? ? Hx _]; subst.
        destruct (codigoLinha_nao_nulo linha Hx) as [c Hc']. congruence.
Qed.

(** [processarLinhas] on a non-empty array. *)
Lemma processarLinhas_array (l : list Val) (t : string) (st : State) :
  l <> [] ->
  exists (n : nat) (r : Result unit),
    n <= length l
    /\ processarLinhas (Arr l) t st
       = (r, com_pedidos (length (buscas st)) (linhas_com_codigo (take n l))
               (set_buscas (buscas st ++ [nova (length l) t]) st))
    /\ (Forall (fun linha => nullish linha = false) l ->
        n = length l /\ r = Ok tt).
Proof.
  intros Hne. unfold processarLinhas. simpl.
  destruct l as [|x l']; [congruence|]. simpl Nat.eqb. cbv iota.
  unfold nova_busca. unfold bind at 1. unfold bind at 1, ler at 1.
  unfold bind at 1, mudar at 1. unfold ret at 1.
  apply forEach_processarLinha.
Qed.

(** [processarLinhas] on anything else: one alert, nothing more. *)
Lemma processarLinhas_sem_linhas (linhas : Val) (t : string) (st : State) :
  (forall x l, linhas <> Arr (x :: l)) ->
  exists a, processarLinhas linhas t st
            = (Ok tt, set_efeitos (efeitos st ++ [EAlert a]) st)
            /\ (linhas = Arr [] -> a = NenhumaLinha t).
Proof.
  intros H. unfold processarLinhas, alert, efeito, mudar.
  destruct linhas as [| |b|n|s|l|ps]; simpl;
    try (eexists; split; [reflexivity | discriminate]).
  - destruct b; eexists; (split; [reflexivity | discriminate]).
  - destruct (negb (isNaN n) && negb (is_zero n));
      eexists; (split; [reflexivity | discriminate]).
  - destruct (negb (String.eqb s ""));
      eexists; (split; [reflexivity | discriminate]).
  - destruct l as [|x l]; [|exfalso; eapply H; reflexivity].
    eexists; split; [reflexivity | reflexivity].
Qed.



Lemma remover_sem_novos (ms : list Marker) (m : Mapa) (x : Marker) :
  x ∈ layers (foldl (fun m y => removeLayer y m) m ms) -> x ∈ layers m.
Proof.
  revert m. induction ms as [|y ms IH]; intros m H; simpl in *; [exact H|].
  apply IH in H. simpl in H. apply list_elem_of_filter in H as [_ H]. exact H.
Qed.

(** C6 (amended).  In a search whose line search finds no line (an empty
    array, or a failure that the service turns into one), the only change
    to the map is the removal, when the search starts, of the markers of
    [marcadoresOnibus]: no layer is added and the viewport stays; and the
    handling of the empty response changes neither the map nor the list,
    sends no request and only alerts that no line was found. *)
Theorem busca_sem_linhas_so_limpa (st : State) (m : Mapa) (st2 : State)
    (i : nat) (t : string) (r : HttpResult) :
  trim (termoBusca st) <> "" ->
  mapa st = Some m ->
  pendentes st2 !! i = Some (SubLinhas t) ->
  linhas_de r = Arr [] ->
  (exists m1,
      mapa (step st Buscar) = Some m1
      /\ view m1 = view m
      /\ (forall x, x ∈ layers m1 -> x ∈ layers m)
      /\ efeitos (step st Buscar)
         = efeitos st ++ (ERemoveLayer <$> marcadoresOnibus st)
             ++ [EHttpGet (url_linhas (environment st) (trim (termoBusca st)))])
  /\ (let st3 := step st2 (Resposta i r) in
      mapa st3 = mapa st2
      /\ marcadoresOnibus st3 = marcadoresOnibus st2
      /\ buscas st3 = buscas st2
      /\ pendentes st3 = delete i (pendentes st2)
      /\ efeitos st3 = efeitos st2 ++ [EAlert (NenhumaLinha t)]).
Proof.
  intros Ht Hm Hp Hr. split.
  - rewrite (buscarLinhas_valida st m Ht Hm). simpl.
    eexists. split; [reflexivity|]. split; [apply remover_view|].
    split; [apply remover_sem_novos | reflexivity].
  - cbv zeta. rewrite (step_linhas st2 i t r Hp), Hr.
    unfold callback, linhas_next. unfold bind at 1, mudar at 1.
    destruct (processarLinhas_sem_linhas (Arr []) t
                (set_carregando false (sem_pendente i st2)))
      as (a & -> & Ha); [discriminate|].
    rewrite (Ha eq_refl). simpl. repeat split; reflexivity.
Qed.


(** ** The error function of the line subscriber *)

Ltac sem_erro_efeito :=
  apply preserva_mudar;
  let st := fresh "st" in
  let H := fresh "H" in
  intros st H; unfold sem_mostrar_erro in *; simpl;
  apply Forall_app; split; [exact H | repeat constructor].

Lemma adicionarMarcador_sem_erro onibus linha :
  preserva sem_mostrar_erro (adicionarMarcador onibus linha).
Proof.
  unfold adicionarMarcador, marker_addTo, efeito.
  preservar sem_erro_efeito.
Qed.

Lemma posicoes_next_sem_erro k linha posicoes :
  preserva sem_mostrar_erro (posicoes_next k linha posicoes).
Proof.
  unfold posicoes_next, marcarOnibus, se_ultima_linha, ler_busca,
    mostrarResultadoFinal, mapa_fitBounds, mudar_busca, alert, efeito.
  preservar ltac:(first [ apply adicionarMarcador_sem_erro | sem_erro_efeito ]).
Qed.

Lemma posicoes_error_sem_erro k erro :
  preserva sem_mostrar_erro (posicoes_error k erro).
Proof.
  unfold posicoes_error, se_ultima_linha, ler_busca,
    mostrarResultadoFinal, mapa_fitBounds, mudar_busca, alert, efeito.
  preservar sem_erro_efeito.
Qed.

Lemma linhas_next_sem_erro t linhas :
  preserva sem_mostrar_erro (linhas_next t linhas).
Proof.
  unfold linhas_next, processarLinhas, processarLinha, nova_busca, assinar,
    alert, efeito.
  preservar sem_erro_efeito.
Qed.

Lemma limparMarcadores_sem_erro : preserva sem_mostrar_erro limparMarcadores.
Proof.
  unfold limparMarcadores, mapa_removeLayer, efeito.
  preservar sem_erro_efeito.
Qed.

Lemma buscarLinhas_sem_erro : preserva sem_mostrar_erro AppComponent.buscarLinhas.
Proof.
  unfold AppComponent.buscarLinhas, assinar, alert, efeito.
  preservar ltac:(first [ apply limparMarcadores_sem_erro | sem_erro_efeito ]).
Qed.

Lemma ngOnInit_sem_erro ok : preserva sem_mostrar_erro (ngOnInit ok).
Proof. unfold ngOnInit. preservar fail. Qed.

Lemma criarMapa_sem_erro ok : preserva sem_mostrar_erro (criarMapa ok).
Proof. unfold criarMapa. preservar fail. Qed.

Lemma sem_erro_uncaught st e :
  sem_mostrar_erro st ->
  sem_mostrar_erro (set_efeitos (efeitos st ++ [EUncaught e]) st).
Proof.
  intros H. unfold sem_mostrar_erro in *. simpl.
  apply Forall_app. split; [exact H | repeat constructor].
Qed.

Lemma step_sem_erro (st : State) (ev : Event) :
  sem_mostrar_erro st -> sem_mostrar_erro (step st ev).
Proof.
  intros H.
  pose proof (preserva_callback sem_mostrar_erro sem_erro_uncaught) as Hcb.
  destruct ev as [ok|ok|texto| | |i r].
  - apply Hcb; auto using ngOnInit_sem_erro.
  - simpl. destruct (isBrowser st); [|exact H].
    apply Hcb; auto using criarMapa_sem_erro.
  - exact H.
  - apply Hcb; auto using buscarLinhas_sem_erro.
  - apply Hcb; auto using limparMarcadores_sem_erro.
  - destruct (pendentes st !! i) as [[t|k linha codigo]|] eqn:Hp.
    + rewrite (step_linhas st i t r Hp).
      apply Hcb; auto using linhas_next_sem_erro.
    + rewrite (step_posicoes st i k linha codigo r Hp).
      apply Hcb; auto using posicoes_next_sem_erro.
    + rewrite (step_sem_pendente st i r Hp). exact H.
Qed.

(** The error function is not a stub: were it called, it would call
    [mostrarErro]. *)
Lemma linhas_error_mostra_erro (erro : Val) (st : State) :
  exists resto,
    efeitos (callback (linhas_error erro) st)
    = efeitos st ++ EMostrarErro erro :: resto.
Proof.
  unfold callback, linhas_error, mostrarErro. executar.
  destruct (get erro "status") as [status|e]; simpl.
  - eexists. rewrite <- app_assoc. reflexivity.
  - eexists. rewrite <- app_assoc. reflexivity.
Qed.

(** C8.  Whatever the user does and whatever the network answers, the
    error function of the line subscription is never run: no call of
    [mostrarErro] occurs in any state the component reaches, because every
    response, failed or not, comes out of [buscarLinhas] of the service as a
    value for the [next] function. *)
Theorem mostrarErro_nunca_chamado (env : Environment) (browser : bool)
    (evs : list Event) :
  Forall (fun e => forall erro, e <> EMostrarErro erro)
    (efeitos (run evs (inicial env browser))).
Proof.
  assert (sem_mostrar_erro (run evs (inicial env browser))) as H.
  { generalize (inicial env browser) (Forall_nil_2 (fun e => e_mostrar_erro e = false)
                                        : sem_mostrar_erro (inicial env browser)).
    induction evs as [|ev evs IH]; intros st H; simpl; [exact H|].
    apply IH, step_sem_erro, H. }
  unfold sem_mostrar_erro in H. eapply Forall_impl; [exact H|].
  intros e He erro ->. discriminate.
Qed.

Lemma classic_array (v : Val) :
  (exists x l, v = Arr (x :: l)) \/ (forall x l, v <> Arr (x :: l)).
Proof.
  destruct v as [| | | | |[|x l]|]; try (right; intros; discriminate).
  left. eauto.
Qed.

(** ** Markers and the bus total of a search that runs alone *)

Lemma busca_isolada_uncaught k st e :
  busca_isolada k st ->
  busca_isolada k (set_efeitos (efeitos st ++ [EUncaught e]) st).
Proof. intros H. exact H. Qed.

Lemma ngOnInit_isolada k ok : preserva (busca_isolada k) (ngOnInit ok).
Proof. unfold ngOnInit. preservar fail. Qed.

Lemma criarMapa_isolada k ok : preserva (busca_isolada k) (criarMapa ok).
Proof. unfold criarMapa. preservar fail. Qed.

Lemma limparMarcadores_isolada k : preserva (busca_isolada k) limparMarcadores.
Proof.
  intros st H. destruct (mapa st) as [m|] eqn:Hm.
  - rewrite (limparMarcadores_mapa st m Hm). simpl.
    destruct H as [(Hl & _ & Hp) | (Hl & Hp & _)]; [left | right]; simpl.
    + auto.
    + repeat split; auto. unfold total_da_busca. simpl. lia.
  - rewrite (limparMarcadores_sem_mapa st Hm). exact H.
Qed.

Lemma linhas_next_isolada k t linhas st :
  length (buscas st) = k -> marcadoresOnibus st = [] -> pendentes st = [] ->
  busca_isolada k (callback (linhas_next t linhas) st).
Proof.
  intros Hl Hms Hp. unfold callback, linhas_next.
  unfold bind at 1, mudar at 1.
  destruct (classic_array linhas) as [(x & l & ->) | Hn].
  - destruct (processarLinhas_array (x :: l) t (set_carregando false st))
      as (n & r & _ & -> & _); [discriminate|].
    assert (busca_isolada k
              (com_pedidos (length (buscas (set_carregando false st)))
                 (linhas_com_codigo (take n (x :: l)))
                 (set_buscas (buscas (set_carregando false st)
                                ++ [nova (length (x :: l)) t])
                    (set_carregando false st)))) as H.
    { right. simpl. rewrite Hp, Hms, Hl. simpl.
      split; [rewrite length_app; simpl; lia|].
      split; [|lia].
      apply Forall_fmap, Forall_forall. intros lc _. reflexivity. }
    destruct r; [exact H | apply busca_isolada_uncaught, H].
  - destruct (processarLinhas_sem_linhas linhas t (set_carregando false st) Hn)
      as (a & -> & _).
    left. simpl. auto.
Qed.

Lemma posicoes_next_isolada k linha posicoes st :
  length (buscas st) = S k ->
  Forall (pedido_de k) (pendentes st) ->
  length (marcadoresOnibus st) <= total_da_busca k st ->
  busca_isolada k (callback (posicoes_next k linha posicoes) st).
Proof.
  intros Hl Hp Hms.
  destruct (lookup_lt_is_Some_2 (buscas st) k ltac:(lia)) as [b Hb].
  destruct (posicoes_next_casos k linha posicoes b st Hb)
    as (j & novos & smid & r & st' & Hrun & Hap & Hcasos).
  rewrite (callback_relatar _ _ _ _ Hrun).
  destruct Hap as (Hui & Hbs & Hmsm & _ & _ & Hlen).
  destruct Hui as (_&_&_&_&_&_&_&_&Hpen).
  assert (Hmid : busca_isolada k smid).
  { right. rewrite Hbs, length_alter, Hpen, Hmsm, length_app.
    split; [exact Hl|]. split; [exact Hp|].
    unfold total_da_busca in *. rewrite Hbs, list_lookup_alter_eq, Hb in *.
    simpl in *. lia. }
  destruct Hcasos as [(-> & (e & ->) & _) | (_ & Hres)].
  - apply busca_isolada_uncaught, Hmid.
  - destruct (resultado_de_quadro _ _ _ _ _ Hres)
      as (Hui' & Hbs' & Hms' & _ & _).
    destruct Hui' as (_&_&_&_&_&_&_&_&Hpen').
    unfold busca_isolada, total_da_busca in *.
    rewrite Hbs', Hms', Hpen'. exact Hmid.
Qed.

Lemma step_isolada (k : nat) (st : State) (ev : Event) :
  ev <> Buscar -> busca_isolada k st -> busca_isolada k (step st ev).
Proof.
  intros Hev H.
  pose proof (preserva_callback (busca_isolada k) (busca_isolada_uncaught k))
    as Hcb.
  destruct ev as [ok|ok|texto| | |i r].
  - apply Hcb; auto using ngOnInit_isolada.
  - simpl. destruct (isBrowser st); [|exact H].
    apply Hcb; auto using criarMapa_isolada.
  - exact H.
  - contradiction.
  - apply Hcb; auto using limparMarcadores_isolada.
  - destruct (pendentes st !! i) as [[t|k' linha codigo]|] eqn:Hp.
    + rewrite (step_linhas st i t r Hp).
      destruct H as [(Hl & Hms & [Hn | (t' & Ht')]) | (_ & HF & _)].
      * rewrite Hn in Hp. discriminate.
      * rewrite Ht' in Hp. destruct i as [|i]; [|discriminate].
        apply linhas_next_isolada; simpl; auto. rewrite Ht'. reflexivity.
      * apply (Forall_lookup_1 _ _ _ _ HF) in Hp. contradiction.
    + rewrite (step_posicoes st i k' linha codigo r Hp).
      destruct H as [(Hl & Hms & [Hn | (t' & Ht')]) | (Hl & HF & Hms)].
      * rewrite Hn in Hp. discriminate.
      * rewrite Ht' in Hp. destruct i as [|i]; discriminate.
      * pose proof (Forall_lookup_1 _ _ _ _ HF Hp) as Hk. simpl in Hk. subst k'.
        apply posicoes_next_isolada; simpl; auto.
        apply Forall_delete, HF.
    + rewrite (step_sem_pendente st i r Hp). exact H.
Qed.

Lemma run_isolada (k : nat) (evs : list Event) (st : State) :
  Forall (fun ev => ev <> Buscar) evs ->
  busca_isolada k st -> busca_isolada k (run evs st).
Proof.
  intros HF. revert st. induction HF as [|ev evs Hev _ IH]; intros st H; simpl.
  - exact H.
  - apply IH, step_isolada; assumption.
Qed.

Lemma busca_isolada_total (k : nat) (st : State) :
  busca_isolada k st ->
  length (marcadoresOnibus st) <= total_da_busca k st.
Proof.
  intros [(_ & -> & _) | (_ & _ & H)]; [simpl; lia | exact H].
Qed.

(** * Concrete runs *)

Example com_um_marcador_estado :
  marcadoresOnibus com_um_marcador = [marcador_na_se]
  /\ mapa com_um_marcador
     = Some {| layers := [marcador_na_se];
               view := FitBounds [marcador_na_se] |}
  /\ pendentes com_um_marcador = []
  /\ buscas com_um_marcador
     = [{| totalOnibus := 1; linhasProcessadas := 1; totalLinhas := 1;
           termo := "8000" |}]
  /\ efeitos com_um_marcador
     = [EHttpGet "/api/linhas?termo=8000";
        EHttpGet "/api/Posicao/Linha?codigoLinha=1273";
        EAddLayer marcador_na_se;
        EResultadoFinal 0 1 1;
        EFitBounds [marcador_na_se];
        EAlert (Encontrados 1 1 "8000")].
Proof. vm_compute. repeat split. Qed.

(** ** C7 on a state with a marker *)

Lemma nova_busca_limpa_marcadores_witness :
  let st' := step com_um_marcador Buscar in
  marcadoresOnibus st' = []
  /\ (exists m', mapa st' = Some m' /\ layers m' = []
                 /\ view m' = FitBounds [marcador_na_se])
  /\ efeitos st'
     = efeitos com_um_marcador ++ (ERemoveLayer <$> marcadoresOnibus com_um_marcador)
         ++ [EHttpGet (url_linhas (environment com_um_marcador)
                         (trim (termoBusca com_um_marcador)))]
  /\ pendentes st'
     = pendentes com_um_marcador ++ [SubLinhas (trim (termoBusca com_um_marcador))].
Proof.
  apply (nova_busca_limpa_marcadores com_um_marcador
           {| layers := [marcador_na_se]; view := FitBounds [marcador_na_se] |}).
  - exists environment_dev, true,
      ([NgOnInit true; CriarMapa true] ++ busca_8000 [linha_8000]
         ++ [Resposta 0 (HttpOk posicoes_um_onibus)]).
    vm_compute; reflexivity.
  - vm_compute. discriminate.
  - vm_compute. reflexivity.
Defined.

(** ** C5 on a search with two lines, the first of which fails *)

Lemma falha_de_posicoes_e_contada_witness :
  let st' := step duas_em_voo (Resposta 0 (HttpFail erro_500)) in
  buscas st' = alter mais_uma_linha 0 (buscas duas_em_voo)
  /\ buscas st' !! 0
     = Some {| totalOnibus := 0; linhasProcessadas := 1;
               totalLinhas := 2; termo := "8000" |}
  /\ marcadoresOnibus st' = marcadoresOnibus duas_em_voo
  /\ layers <$> mapa st' = layers <$> mapa duas_em_voo
  /\ pendentes st' = delete 0 (pendentes duas_em_voo)
  /\ (1 <> 2 -> efeitos st' = efeitos duas_em_voo)
  /\ (1 = 2 ->
      exists resto,
        efeitos st' = efeitos duas_em_voo ++ EResultadoFinal 0 0 1 :: resto
        /\ forallb (fun e => negb (e_resultado_final e)) resto = true).
Proof.
  apply (falha_de_posicoes_e_contada duas_em_voo
           (step duas_em_voo (Resposta 0 (HttpFail erro_500)))
           0 0 linha_8000 (int 1273) erro_500
           {| totalOnibus := 0; linhasProcessadas := 0;
              totalLinhas := 2; termo := "8000" |}).
  - vm_compute; reflexivity.
  - vm_compute; reflexivity.
  - left. reflexivity.
Defined.

(** With the first of two lines failed and the second answered, the
    summary is reported, once, with both lines counted. *)
Example falha_nao_impede_o_resumo :
  let st' := run [Resposta 0 (HttpFail erro_500);
                  Resposta 0 (HttpOk posicoes_um_onibus)] duas_em_voo in
  buscas st' = [{| totalOnibus := 1; linhasProcessadas := 2;
                   totalLinhas := 2; termo := "8000" |}]
  /\ marcadoresOnibus st' = [marcador_na_se]
  /\ filter (fun e => e_resultado_final e = true) (efeitos st')
     = [EResultadoFinal 0 1 2].
Proof. vm_compute. repeat split. Qed.

(** ** C3: a line without a code gets no request *)



(** ** C4: a fan-in that ends with no bus *)



(** The only line of the search answers one vehicle, without coordinates:
    the vehicle is counted and gets no marker, the summary is called with a
    bus total of one, and [fitBounds] on the empty group throws before the
    alert. *)
Example fim_sem_marcadores :
  let posicoes := Obj [("hr", Str "12:00"); ("vs", Arr [onibus_sem_posicao])] in
  let st' := step uma_em_voo (Resposta 0 (HttpOk posicoes)) in
  buscas st' = [{| totalOnibus := 1; linhasProcessadas := 1;
                   totalLinhas := 1; termo := "8000" |}]
  /\ marcadoresOnibus st' = []
  /\ efeitos st'
     = [EHttpGet "/api/linhas?termo=8000";
        EHttpGet "/api/Posicao/Linha?codigoLinha=1273";
        EResultadoFinal 0 1 1;
        EUncaught type_error]
  /\ mapa st' = Some mapa_inicial.
Proof. vm_compute. repeat split. Qed.

(** ** C6: a search without lines after a search with a marker *)

Lemma busca_sem_linhas_so_limpa_witness :
  let st2 := step com_um_marcador Buscar in
  (exists m1,
      mapa (step com_um_marcador Buscar) = Some m1
      /\ view m1 = FitBounds [marcador_na_se]
      /\ (forall x, x ∈ layers m1 -> x ∈ [marcador_na_se])
      /\ efeitos (step com_um_marcador Buscar)
         = efeitos com_um_marcador
             ++ (ERemoveLayer <$> marcadoresOnibus com_um_marcador)
             ++ [EHttpGet (url_linhas (environment com_um_marcador)
                             (trim (termoBusca com_um_marcador)))])
  /\ (let st3 := step st2 (Resposta 0 (HttpOk (Arr []))) in
      mapa st3 = mapa st2
      /\ marcadoresOnibus st3 = marcadoresOnibus st2
      /\ buscas st3 = buscas st2
      /\ pendentes st3 = delete 0 (pendentes st2)
      /\ efeitos st3 = efeitos st2 ++ [EAlert (NenhumaLinha "8000")]).
Proof.
  apply (busca_sem_linhas_so_limpa com_um_marcador
           {| layers := [marcador_na_se]; view := FitBounds [marcador_na_se] |}
           (step com_um_marcador Buscar) 0 "8000" (HttpOk (Arr []))).
  - vm_compute. discriminate.
  - vm_compute. reflexivity.
  - vm_compute; reflexivity.
  - vm_compute; reflexivity.
Defined.

(** A marker is on the map; the user searches for "9999" and the line
    search answers the empty array: the marker has been removed from the
    map by that search. *)
Lemma busca_sem_linhas_counterexample :
  let st' := run [Digitar "9999"; Buscar; Resposta 0 (HttpOk (Arr []))]
               com_um_marcador in
  layers <$> mapa com_um_marcador = Some [marcador_na_se]
  /\ layers <$> mapa st' = Some []
  /\ mapa st' <> mapa com_um_marcador
  /\ efeitos st'
     = efeitos com_um_marcador
         ++ [ERemoveLayer marcador_na_se;
             EHttpGet "/api/linhas?termo=9999";
             EAlert (NenhumaLinha "9999")].
Proof. vm_compute. repeat split. discriminate. Qed.

(** ** C10: markers against the bus total *)

(** C10 (amended).  For a search started while no request is in flight
    and during which no other search is started, the number of markers in
    [marcadoresOnibus] is, after every event, at most the running bus total
    of that search.  The inequality can be strict: a vehicle whose
    coordinates do not parse is counted without getting a marker, so the
    total the summary reports can exceed the markers on the map. *)
Theorem marcadores_ate_o_total :
  (forall (st : State) (m : Mapa) (evs : list Event),
      pendentes st = [] ->
      trim (termoBusca st) <> "" ->
      mapa st = Some m ->
      Forall (fun ev => ev <> Buscar) evs ->
      let st' := run evs (step st Buscar) in
      length (marcadoresOnibus st') <= total_da_busca (length (buscas st)) st')
  /\ (let st' := step uma_em_voo (Resposta 0 (HttpOk posicoes_dois_onibus)) in
      length (marcadoresOnibus st') = 1
      /\ total_da_busca 0 st' = 2
      /\ last (efeitos st') = Some (EAlert (Encontrados 2 1 "8000"))).
Proof.
  split.
  - intros st m evs Hp Ht Hm Hevs st'. subst st'.
    apply busca_isolada_total, run_isolada; [exact Hevs|].
    rewrite (buscarLinhas_valida st m Ht Hm). left. simpl.
    rewrite Hp. eauto.
  - vm_compute. repeat split.
Qed.

Lemma marcadores_ate_o_total_witness :
  let st := run [Digitar "8000"] pronto in
  let evs := [Resposta 0 (HttpOk (Arr [linha_8000; linha_9000]));
              Resposta 1 (HttpOk posicoes_dois_onibus);
              RemoverMarcadores;
              Resposta 0 (HttpFail erro_500)] in
  let st' := run evs (step st Buscar) in
  length (marcadoresOnibus st') <= total_da_busca (length (buscas st)) st'.
Proof.
  apply (proj1 marcadores_ate_o_total (run [Digitar "8000"] pronto) mapa_inicial).
  - vm_compute; reflexivity.
  - vm_compute. discriminate.
  - vm_compute; reflexivity.
  - repeat constructor; discriminate.
Defined.

(** Two searches overlap: "8000" is searched and its line answered; before
    its positions arrive, "9000" is searched and its line answered; then the
    positions of "8000" arrive.  The second search is being processed, its
    bus total is zero, and the list holds the marker of the first. *)
Lemma marcadores_ate_o_total_counterexample :
  let st' := run [Digitar "9000"; Buscar;
                  Resposta 1 (HttpOk (Arr [linha_9000]));
                  Resposta 0 (HttpOk posicoes_um_onibus)] uma_em_voo in
  pendentes st' = [SubPosicoes 1 linha_9000 (int 2506)]
  /\ buscas st'
     = [{| totalOnibus := 1; linhasProcessadas := 1; totalLinhas := 1;
           termo := "8000" |};
        {| totalOnibus := 0; linhasProcessadas := 0; totalLinhas := 1;
           termo := "9000" |}]
  /\ length (marcadoresOnibus st') = 1
  /\ total_da_busca 1 st' = 0
  /\ ~ length (marcadoresOnibus st') <= total_da_busca 1 st'.
Proof. vm_compute. repeat split. lia. Qed.

(** ** C1: a search whose summary never comes *)

Lemma em_voo_app k l1 l2 : em_voo k (l1 ++ l2) = em_voo k l1 + em_voo k l2.
Proof. unfold em_voo. rewrite filter_app, length_app. reflexivity. Qed.

Lemma em_voo_delete k (l : list Subscriber) i s :
  l !! i = Some s ->
  em_voo k l = em_voo k (delete i l) + (if e_pedido_de k s then 1 else 0).
Proof.
  revert i. induction l as [|x l IH]; intros [|i] H; simpl in *; try discriminate.
  - injection H as ->. unfold em_voo. rewrite filter_cons.
    destruct (decide (e_pedido_de k s = true)) as [E|E].
    + rewrite E. simpl. lia.
    + destruct (e_pedido_de k s); [contradiction|]. simpl. lia.
  - specialize (IH i H). unfold em_voo in *. rewrite !filter_cons.
    destruct (decide (e_pedido_de k x = true)); simpl; lia.
Qed.

Lemma em_voo_outros k k' (cs : list (Val * Val)) :
  k' <> k -> em_voo k (pedido k' <$> cs) = 0.
Proof.
  intros Hne. induction cs as [|c cs IH]; [reflexivity|].
  unfold em_voo in *. simpl. rewrite filter_cons.
  destruct (decide (e_pedido_de k (pedido k' c) = true)) as [E|E]; [|exact IH].
  simpl in E. apply Nat.eqb_eq in E. contradiction.
Qed.

Lemma falta_linha_efeito k e st :
  (forall t p, e <> EResultadoFinal k t p) ->
  falta_linha k st -> falta_linha k (set_efeitos (efeitos st ++ [e]) st).
Proof.
  intros He [Hb Hef]. split; [exact Hb|]. simpl.
  apply Forall_app. split; [exact Hef | repeat constructor; exact He].
Qed.

Lemma falta_linha_efeitos k es st :
  Forall (fun e => forall t p, e <> EResultadoFinal k t p) es ->
  falta_linha k st -> falta_linha k (set_efeitos (efeitos st ++ es) st).
Proof.
  intros He [Hb Hef]. split; [exact Hb|]. simpl.
  apply Forall_app. split; assumption.
Qed.

Lemma falta_linha_uncaught k st e :
  falta_linha k st -> falta_linha k (set_efeitos (efeitos st ++ [EUncaught e]) st).
Proof. apply falta_linha_efeito. discriminate. Qed.

Lemma falta_linha_outra_busca k k' f st :
  k' <> k -> falta_linha k st ->
  falta_linha k (set_buscas (alter f k' (buscas st)) st).
Proof.
  intros Hne [(b & Hb & Hlt) Hef]. split; [|exact Hef].
  exists b. simpl. rewrite list_lookup_alter_ne by exact Hne. auto.
Qed.

Lemma falta_linha_assinar_linhas k t st :
  falta_linha k st ->
  falta_linha k (set_pendentes (pendentes st ++ [SubLinhas t]) st).
Proof.
  intros [(b & Hb & Hlt) Hef]. split; [|exact Hef].
  exists b. simpl. rewrite em_voo_app. simpl.
  split; [exact Hb|]. unfold em_voo at 2. rewrite filter_cons.
  destruct (decide (e_pedido_de k (SubLinhas t) = true)) as [E|E];
    [discriminate|]. simpl. lia.
Qed.

(** The leaves of a method body, for a search other than [k]. *)
Ltac falta_linha_folha :=
  first
    [ apply preserva_mudar;
      let st := fresh "st" in
      let H := fresh "H" in
      intros st H;
      first
        [ exact H
        | apply falta_linha_efeito; [intros; congruence | exact H]
        | apply falta_linha_outra_busca; [assumption | exact H]
        | apply falta_linha_assinar_linhas; exact H ] ].

Lemma ngOnInit_falta k ok : preserva (falta_linha k) (ngOnInit ok).
Proof. unfold ngOnInit. preservar fail. Qed.

Lemma criarMapa_falta k ok : preserva (falta_linha k) (criarMapa ok).
Proof. unfold criarMapa. preservar fail. Qed.

Lemma limparMarcadores_falta k : preserva (falta_linha k) limparMarcadores.
Proof.
  unfold limparMarcadores, mapa_removeLayer, efeito.
  preservar falta_linha_folha.
Qed.

Lemma buscarLinhas_falta k : preserva (falta_linha k) AppComponent.buscarLinhas.
Proof.
  unfold AppComponent.buscarLinhas, assinar, alert, efeito.
  preservar ltac:(first [ apply limparMarcadores_falta | falta_linha_folha ]).
Qed.

Lemma adicionarMarcador_falta k onibus linha :
  preserva (falta_linha k) (adicionarMarcador onibus linha).
Proof.
  unfold adicionarMarcador, marker_addTo, efeito.
  preservar falta_linha_folha.
Qed.

Lemma posicoes_next_outra_falta k k' linha posicoes :
  k' <> k -> preserva (falta_linha k) (posicoes_next k' linha posicoes).
Proof.
  intros Hne.
  unfold posicoes_next, marcarOnibus, se_ultima_linha, ler_busca,
    mostrarResultadoFinal, mapa_fitBounds, mudar_busca, alert, efeito.
  preservar ltac:(first [ apply adicionarMarcador_falta | falta_linha_folha ]).
Qed.

Lemma linhas_next_falta k t linhas st :
  falta_linha k st -> falta_linha k (callback (linhas_next t linhas) st).
Proof.
  intros H. unfold callback, linhas_next.
  unfold bind at 1, mudar at 1.
  assert (falta_linha k (set_carregando false st)) as H1 by exact H.
  destruct (classic_array linhas) as [(x & l & ->) | Hn].
  - destruct (processarLinhas_array (x :: l) t (set_carregando false st))
      as (n & r & _ & -> & _); [discriminate|].
    assert (falta_linha k
              (com_pedidos (length (buscas (set_carregando false st)))
                 (linhas_com_codigo (take n (x :: l)))
                 (set_buscas (buscas (set_carregando false st)
                                ++ [nova (length (x :: l)) t])
                    (set_carregando false st)))) as H2.
    { destruct H as [(b & Hb & Hlt) Hef]. split.
      - exists b. simpl.
        pose proof (lookup_lt_Some _ _ _ Hb) as Hk.
        rewrite lookup_app_l by exact Hk. split; [exact Hb|].
        rewrite em_voo_app, em_voo_outros by lia. lia.
      - simpl. apply Forall_app. split; [exact Hef|].
        apply Forall_fmap, Forall_forall. intros lc _ t' p. discriminate. }
    destruct r; [exact H2 | apply falta_linha_uncaught, H2].
  - destruct (processarLinhas_sem_linhas linhas t (set_carregando false st) Hn)
      as (a & -> & _).
    apply (falta_linha_efeito k (EAlert a) _ ltac:(discriminate) H1).
Qed.

Lemma posicoes_next_propria_falta k linha posicoes st b :
  buscas st !! k = Some b ->
  S (linhasProcessadas b) + em_voo k (pendentes st) < totalLinhas b ->
  Forall (fun e => forall t p, e <> EResultadoFinal k t p) (efeitos st) ->
  falta_linha k (callback (posicoes_next k linha posicoes) st).
Proof.
  intros Hb Hlt Hef.
  destruct (posicoes_next_casos k linha posicoes b st Hb)
    as (j & novos & smid & r & st' & Hrun & Hap & Hcasos).
  rewrite (callback_relatar _ _ _ _ Hrun).
  destruct Hap as (Hui & Hbs & _ & _ & Hefm & _).
  destruct Hui as (_&_&_&_&_&_&_&_&Hpen).
  assert (Hmid : falta_linha k smid).
  { split.
    - exists (mais_onibus j (mais_uma_linha b)).
      rewrite Hbs, list_lookup_alter_eq, Hb, Hpen. simpl. split; [reflexivity|lia].
    - rewrite Hefm. apply Forall_app. split; [exact Hef|].
      apply Forall_fmap, Forall_forall. intros x _ t p. discriminate. }
  destruct Hcasos as [(-> & (e & ->) & _) | (_ & Hres)].
  - apply falta_linha_uncaught, Hmid.
  - destruct (resultado_de_quadro _ _ _ _ _ Hres)
      as (_ & _ & _ & _ & [(_ & ->) | (Heq & _)]); [exact Hmid|].
    simpl in Heq. lia.
Qed.

Lemma step_falta (k : nat) (st : State) (ev : Event) :
  falta_linha k st -> falta_linha k (step st ev).
Proof.
  intros H.
  pose proof (preserva_callback (falta_linha k) (falta_linha_uncaught k)) as Hcb.
  destruct ev as [ok|ok|texto| | |i r].
  - apply Hcb; auto using ngOnInit_falta.
  - simpl. destruct (isBrowser st); [|exact H].
    apply Hcb; auto using criarMapa_falta.
  - exact H.
  - apply Hcb; auto using buscarLinhas_falta.
  - apply Hcb; auto using limparMarcadores_falta.
  - destruct (pendentes st !! i) as [[t|k' linha codigo]|] eqn:Hp.
    + rewrite (step_linhas st i t r Hp). apply linhas_next_falta.
      destruct H as [(b & Hb & Hlt) Hef]. split; [|exact Hef].
      exists b. simpl. split; [exact Hb|].
      rewrite (em_voo_delete k _ _ _ Hp) in Hlt. simpl in Hlt. lia.
    + rewrite (step_posicoes st i k' linha codigo r Hp).
      destruct H as [(b & Hb & Hlt) Hef].
      rewrite (em_voo_delete k _ _ _ Hp) in Hlt. simpl in Hlt.
      destruct (Nat.eqb_spec k' k) as [->|Hne].
      * apply (posicoes_next_propria_falta k linha _ _ b); simpl; auto. lia.
      * apply Hcb; [apply posicoes_next_outra_falta, Hne|].
        split; [|exact Hef]. exists b. simpl. split; [exact Hb|lia].
    + rewrite (step_sem_pendente st i r Hp). exact H.
Qed.

Lemma run_falta (k : nat) (evs : list Event) (st : State) :
  falta_linha k st -> falta_linha k (run evs st).
Proof.
  revert st. induction evs as [|ev evs IH]; intros st H; simpl; [exact H|].
  apply IH, step_falta, H.
Qed.

(** C1, on the failing input.  The line search of "8000" answers two lines,
    the second without any of the four code fields.  One position request is
    sent while [totalLinhas] is two; and whatever happens from then on
    (responses or failures in any order, further searches), the summary of
    that search is never called. *)
Theorem resumo_nunca_chamado_com_linha_sem_codigo (evs : list Event) :
  let st := run (busca_8000 [linha_8000; linha_sem_codigo]) pronto in
  pendentes st = [SubPosicoes 0 linha_8000 (int 1273)]
  /\ buscas st = [{| totalOnibus := 0; linhasProcessadas := 0;
                     totalLinhas := 2; termo := "8000" |}]
  /\ Forall (fun e => forall t p, e <> EResultadoFinal 0 t p)
       (efeitos (run evs st)).
Proof.
  split; [vm_compute; reflexivity|]. split; [vm_compute; reflexivity|].
  apply run_falta. split.
  - eexists. split; [vm_compute; reflexivity|]. vm_compute. lia.
  - vm_compute. repeat constructor; discriminate.
Qed.

(** The same search once its only request is answered: nothing is in
    flight any more, one line is counted out of two, a marker is on the map,
    and neither the viewport fit nor any alert took place. *)
Example busca_sem_resumo :
  let st := run (busca_8000 [linha_8000; linha_sem_codigo]
                   ++ [Resposta 0 (HttpOk posicoes_um_onibus)]) pronto in
  pendentes st = []
  /\ buscas st = [{| totalOnibus := 1; linhasProcessadas := 1;
                     totalLinhas := 2; termo := "8000" |}]
  /\ marcadoresOnibus st = [marcador_na_se]
  /\ efeitos st
     = [EHttpGet "/api/linhas?termo=8000";
        EHttpGet "/api/Posicao/Linha?codigoLinha=1273";
        EAddLayer marcador_na_se].
Proof. vm_compute. repeat split. Qed.


(** ** The summary of a search is called at most once *)

Lemma resumos_app k es1 es2 :
  resumos k (es1 ++ es2) = resumos k es1 + resumos k es2.
Proof. unfold resumos. rewrite filter_app, length_app. reflexivity. Qed.

Lemma resumos_nenhum k es :
  Forall (fun e => e_resumo_de k e = false) es -> resumos k es = 0.
Proof.
  induction 1 as [|e es He _ IH]; [reflexivity|].
  unfold resumos in *. rewrite filter_cons.
  destruct (decide (e_resumo_de k e = true)); [congruence | exact IH].
Qed.

Lemma resumos_um k e : resumos k [e] = if e_resumo_de k e then 1 else 0.
Proof.
  unfold resumos. rewrite filter_cons.
  destruct (decide (e_resumo_de k e = true)) as [E|E].
  - rewrite E. reflexivity.
  - destruct (e_resumo_de k e); [contradiction | reflexivity].
Qed.

Lemma em_ordem_efeitos es st :
  Forall (fun e => e_resultado_final e = false) es ->
  em_ordem st -> em_ordem (set_efeitos (efeitos st ++ es) st).
Proof.
  intros He H k. specialize (H k). simpl.
  assert (resumos k es = 0) as Hz.
  { apply resumos_nenhum. eapply Forall_impl; [exact He|].
    intros [] Hx; simpl in *; congruence. }
  rewrite resumos_app, Hz, Nat.add_0_r. exact H.
Qed.

Lemma em_ordem_efeito e st :
  e_resultado_final e = false ->
  em_ordem st -> em_ordem (set_efeitos (efeitos st ++ [e]) st).
Proof. intros He. apply em_ordem_efeitos. repeat constructor. exact He. Qed.

Lemma em_ordem_uncaught st e :
  em_ordem st -> em_ordem (set_efeitos (efeitos st ++ [EUncaught e]) st).
Proof. apply em_ordem_efeito. reflexivity. Qed.

Lemma em_ordem_assinar_linhas t st :
  em_ordem st -> em_ordem (set_pendentes (pendentes st ++ [SubLinhas t]) st).
Proof.
  intros H k. specialize (H k). simpl.
  rewrite em_voo_app. replace (em_voo k [SubLinhas t]) with 0; [|reflexivity].
  rewrite Nat.add_0_r. exact H.
Qed.

Ltac em_ordem_folha :=
  apply preserva_mudar;
  let st := fresh "st" in
  let H := fresh "H" in
  intros st H;
  first
    [ exact H
    | apply em_ordem_efeito; [reflexivity | exact H]
    | apply em_ordem_assinar_linhas; exact H ].

Lemma ngOnInit_em_ordem ok : preserva em_ordem (ngOnInit ok).
Proof. unfold ngOnInit. preservar fail. Qed.

Lemma criarMapa_em_ordem ok : preserva em_ordem (criarMapa ok).
Proof. unfold criarMapa. preservar fail. Qed.

Lemma limparMarcadores_em_ordem : preserva em_ordem limparMarcadores.
Proof.
  unfold limparMarcadores, mapa_removeLayer, efeito.
  preservar em_ordem_folha.
Qed.

Lemma buscarLinhas_em_ordem : preserva em_ordem AppComponent.buscarLinhas.
Proof.
  unfold AppComponent.buscarLinhas, assinar, alert, efeito.
  preservar ltac:(first [ apply limparMarcadores_em_ordem | em_ordem_folha ]).
Qed.

Lemma em_voo_pedidos k (cs : list (Val * Val)) :
  em_voo k (pedido k <$> cs) = length cs.
Proof.
  induction cs as [|c cs IH]; [reflexivity|].
  change (em_voo k (pedido k c :: (pedido k <$> cs)) = S (length cs)).
  unfold em_voo at 1. rewrite filter_cons.
  destruct (decide (e_pedido_de k (pedido k c) = true)) as [E|E].
  - simpl length. f_equal. exact IH.
  - simpl in E. rewrite Nat.eqb_refl in E. contradiction.
Qed.

Lemma linhas_next_em_ordem t linhas st :
  em_ordem st -> em_ordem (callback (linhas_next t linhas) st).
Proof.
  intros H. unfold callback, linhas_next.
  unfold bind at 1, mudar at 1.
  assert (em_ordem (set_carregando false st)) as H1 by exact H.
  destruct (classic_array linhas) as [(x & l & ->) | Hn].
  - destruct (processarLinhas_array (x :: l) t (set_carregando false st))
      as (n & r & Hnl & -> & _); [discriminate|].
    set (cs := linhas_com_codigo (take n (x :: l))).
    assert (Hcs : length cs <= length (x :: l)).
    { subst cs. etransitivity; [apply linhas_com_codigo_length|].
      rewrite length_take. lia. }
    assert (em_ordem
              (com_pedidos (length (buscas (set_carregando false st))) cs
                 (set_buscas (buscas (set_carregando false st)
                                ++ [nova (length (x :: l)) t])
                    (set_carregando false st)))) as H2.
    { intros k. specialize (H k). simpl in *.
      assert (resumos k
                ((fun lc => EHttpGet (url_posicoes (environment st) lc.2)) <$> cs)
              = 0) as Hz.
      { apply resumos_nenhum, Forall_fmap, Forall_forall. intros lc _. reflexivity. }
      rewrite resumos_app, Hz, Nat.add_0_r, em_voo_app.
      destruct (lt_eq_lt_dec k (length (buscas st))) as [[Hlt | ->] | Hgt].
      - rewrite lookup_app_l by exact Hlt.
        rewrite em_voo_outros by lia. rewrite Nat.add_0_r. exact H.
      - rewrite list_lookup_middle by reflexivity.
        rewrite lookup_ge_None_2 in H by lia. destruct H as [Hv Hr].
        rewrite Hv, Hr, em_voo_pedidos. simpl. split; [lia | left; reflexivity].
      - rewrite lookup_ge_None_2 by (rewrite length_app; simpl; lia).
        rewrite lookup_ge_None_2 in H by lia.
        rewrite em_voo_outros by lia. rewrite Nat.add_0_r. exact H. }
    destruct r; [exact H2 | apply em_ordem_uncaught, H2].
  - destruct (processarLinhas_sem_linhas linhas t (set_carregando false st) Hn)
      as (a & -> & _).
    apply (em_ordem_efeito (EAlert a) _ eq_refl H1).
Qed.

(** The effects a position callback of search [k'] adds contain at most one
    summary, of [k'], and only when the line count is reached. *)
Lemma posicoes_next_em_ordem k' linha posicoes st :
  em_ordem st ->
  (forall b, buscas st !! k' = Some b ->
             S (linhasProcessadas b) + em_voo k' (pendentes st) <= totalLinhas b
             /\ resumos k' (efeitos st) = 0) ->
  is_Some (buscas st !! k') ->
  em_ordem (callback (posicoes_next k' linha posicoes) st).
Proof.
  intros H Hown [b Hb]. destruct (Hown b Hb) as [Hle Hr0].
  destruct (posicoes_next_casos k' linha posicoes b st Hb)
    as (j & novos & smid & r & st' & Hrun & Hap & Hcasos).
  rewrite (callback_relatar _ _ _ _ Hrun).
  destruct Hap as (Hui & Hbs & _ & _ & Hefm & _).
  destruct Hui as (_&_&_&_&_&_&_&_&Hpen).
  assert (Hadd : forall k, resumos k (efeitos smid) = resumos k (efeitos st)).
  { intros k. rewrite Hefm, resumos_app.
    rewrite (resumos_nenhum k (EAddLayer <$> novos)); [lia|].
    apply Forall_fmap, Forall_forall. intros x _. reflexivity. }
  assert (Hmid : em_ordem smid).
  { intros k. specialize (H k). rewrite Hbs, Hpen, Hadd.
    destruct (decide (k = k')) as [->|Hne].
    - rewrite list_lookup_alter_eq, Hb. simpl. split; [lia | left; exact Hr0].
    - rewrite list_lookup_alter_ne by congruence. exact H. }
  destruct Hcasos as [(-> & (e & ->) & _) | (_ & Hres)].
  - apply em_ordem_uncaught, Hmid.
  - destruct (resultado_de_quadro _ _ _ _ _ Hres)
      as (Hui' & Hbs' & _ & _ & [(_ & ->) | (Heq & resto & Hef' & Hresto)]);
      [exact Hmid|].
    destruct Hui' as (_&_&_&_&_&_&_&_&Hpen').
    intros k. specialize (Hmid k). rewrite Hbs', Hpen', Hef'.
    rewrite (resumos_app k (efeitos smid) (_ :: resto)).
    change (EResultadoFinal k' ?a ?c :: resto)
      with ([EResultadoFinal k' a c] ++ resto).
    rewrite resumos_app, resumos_um.
    rewrite (resumos_nenhum k resto).
    2:{ clear - Hresto. induction resto as [|e l IH]; [constructor|].
        simpl in Hresto. apply andb_true_iff in Hresto as [He Hl].
        apply andb_true_iff in He as [He _].
        constructor; [|apply IH, Hl]. destruct e; simpl in *; congruence. }
    simpl e_resumo_de.
    destruct (Nat.eqb_spec k' k) as [->|Hne].
    + rewrite Hbs, list_lookup_alter_eq, Hb in *. simpl in *.
      rewrite Hadd, Hr0. split; [lia | right; split; [reflexivity | exact Heq]].
    + rewrite !Nat.add_0_r. exact Hmid.
Qed.

Lemma em_voo_positivo k (l : list Subscriber) i linha codigo :
  l !! i = Some (SubPosicoes k linha codigo) ->
  em_voo k l = S (em_voo k (delete i l)).
Proof.
  intros H. rewrite (em_voo_delete k l i _ H). simpl.
  rewrite Nat.eqb_refl. lia.
Qed.

Lemma step_em_ordem (st : State) (ev : Event) :
  em_ordem st -> em_ordem (step st ev).
Proof.
  intros H.
  pose proof (preserva_callback em_ordem em_ordem_uncaught) as Hcb.
  destruct ev as [ok|ok|texto| | |i r].
  - apply Hcb; auto using ngOnInit_em_ordem.
  - simpl. destruct (isBrowser st); [|exact H].
    apply Hcb; auto using criarMapa_em_ordem.
  - exact H.
  - apply Hcb; auto using buscarLinhas_em_ordem.
  - apply Hcb; auto using limparMarcadores_em_ordem.
  - destruct (pendentes st !! i) as [[t|k' linha codigo]|] eqn:Hp.
    + rewrite (step_linhas st i t r Hp). apply linhas_next_em_ordem.
      intros k. specialize (H k). simpl.
      rewrite (em_voo_delete k _ _ _ Hp) in H. simpl in H.
      rewrite Nat.add_0_r in H. exact H.
    + rewrite (step_posicoes st i k' linha codigo r Hp).
      pose proof (em_voo_positivo k' _ _ _ _ Hp) as Hpos.
      assert (Hsem : em_ordem (sem_pendente i st)).
      { intros k. specialize (H k). simpl.
        rewrite (em_voo_delete k _ _ _ Hp) in H.
        destruct (buscas st !! k); [|lia].
        destruct H as [Hle Hr]. split; [lia | exact Hr]. }
      pose proof (H k') as Hk. simpl in Hk.
      destruct (buscas st !! k') as [b|] eqn:Hb; [|lia].
      apply posicoes_next_em_ordem; simpl; [exact Hsem | | rewrite Hb; eauto].
      intros b' Hb'. rewrite Hb in Hb'. injection Hb' as <-.
      destruct Hk as [Hle [Hr | [_ Heq]]]; [split; [lia | exact Hr] | lia].
    + rewrite (step_sem_pendente st i r Hp). exact H.
Qed.

(** X22.  In every state the component reaches, the summary of a search has been
    called at most once, and when it has been called no position request of
    that search is in flight: it never comes twice, nor before the requests
    sent have all settled. *)
Lemma resumo_no_maximo_uma_vez (env : Environment) (browser : bool)
    (evs : list Event) (k : nat) :
  let st := run evs (inicial env browser) in
  resumos k (efeitos st) <= 1
  /\ (resumos k (efeitos st) = 1 -> em_voo k (pendentes st) = 0).
Proof.
  assert (em_ordem (run evs (inicial env browser))) as H.
  { assert (em_ordem (inicial env browser)) as H0.
    { intros k0. simpl. split; reflexivity. }
    revert H0. generalize (inicial env browser).
    induction evs as [|ev evs IH]; intros st H; simpl; [exact H|].
    apply IH, step_em_ordem, H. }
  intros st. subst st. specialize (H k).
  destruct (buscas (run evs (inicial env browser)) !! k) as [b|].
  - destruct H as [Hle [-> | [-> Heq]]]; split; try lia.
  - destruct H as [_ ->]. split; [lia | discriminate].
Qed.


(** * Further properties of the API client *)

(** ** The operators on a source that delivers one value *)

Lemma buscarLinhas_sempre env up termo :
  subscribe (SptransService.buscarLinhas env termo) up
  = ([url_linhas env termo],
     {| items := [linhas_de (up (url_linhas env termo))]; fin := Complete |}).
Proof.
  unfold subscribe, SptransService.buscarLinhas, catchError, http_get, linhas_de.
  destruct (up (url_linhas env termo)); reflexivity.
Qed.



Lemma switchMap_um_throw {A B} (f : A -> Result (Observable B))
    (o : Observable A) up reqs x e :
  subscribe o up = (reqs, {| items := [x]; fin := Complete |}) ->
  f x = Throw e ->
  subscribe (switchMap f o) up = (reqs, {| items := []; fin := Error e |}).
Proof.
  unfold subscribe, switchMap. intros -> Hf. simpl. rewrite Hf.
  rewrite app_nil_r. reflexivity.
Qed.



(** A [catchError] whose handler rethrows changes nothing. *)
Lemma catchError_relanca {A} (o : Observable A) up :
  subscribe (catchError (fun erro => Throw erro) o) up = subscribe o up.
Proof.
  unfold subscribe, catchError. destruct (o up) as [reqs [its [|e]]]; reflexivity.
Qed.



(** ** [login] *)

(** X1.  [login] makes one request, to the login path; it hands on the body
    of a successful answer as it is, and answers [false] when the request
    fails: it never ends in an error. *)
Theorem login_falha_e_false (env : Environment) (up : Upstream) :
  (forall erro,
      up (url_login env) = HttpFail erro ->
      subscribe (login env) up
      = ([apiUrl env +:+ "/login"],
         {| items := [Bool false]; fin := Complete |}))
  /\ (forall body,
         up (url_login env) = HttpOk body ->
         subscribe (login env) up
         = ([apiUrl env +:+ "/login"],
            {| items := [body]; fin := Complete |})).
Proof.
  unfold subscribe, login, catchError, http_get.
  split; intros x H; rewrite H; reflexivity.
Qed.

Lemma login_falha_e_false_witness :
  subscribe (login environment_prod) sem_rede
  = (["https://busmap-back.onrender.com/api/login"],
     {| items := [Bool false]; fin := Complete |}).
Proof.
  apply (proj1 (login_falha_e_false environment_prod sem_rede)
           (Obj [("status", int 0)])).
  reflexivity.
Defined.

(** ** [buscarPosicoesInteligente] *)

(** X2.  When the line search finds nothing (an empty array, a falsy body)
    or fails (the service turns the failure into the empty array),
    [buscarPosicoesInteligente] ends in the error "Nenhuma linha encontrada
    para o termo: ..." without delivering a value, and makes no position
    request: a network failure of the line search is reported as a search
    without result. *)
Theorem inteligente_sem_linhas (env : Environment) (up : Upstream)
    (termo : string) :
  (let linhas := linhas_de (up (url_linhas env termo)) in
   truthy linhas = false \/ length_is_zero linhas = true) ->
  subscribe (buscarPosicoesInteligente env termo) up
  = ([url_linhas env termo],
     {| items := [];
        fin := Error (new_Error ("Nenhuma linha encontrada para o termo: "
                                   +:+ termo)) |}).
Proof.
  intros H. unfold buscarPosicoesInteligente. rewrite catchError_relanca.
  eapply switchMap_um_throw; [apply buscarLinhas_sempre|].
  simpl in H. destruct H as [-> | H]; [reflexivity|].
  rewrite H, orb_true_r. reflexivity.
Qed.

Lemma inteligente_sem_linhas_witness :
  subscribe (buscarPosicoesInteligente environment_dev "8000") sem_rede
  = (["/api/linhas?termo=8000"],
     {| items := [];
        fin := Error (new_Error "Nenhuma linha encontrada para o termo: 8000") |}).
Proof.
  apply (inteligente_sem_linhas environment_dev sem_rede "8000").
  right. reflexivity.
Defined.



(** X4.  When the first line of the answer carries no code in [cl], [c],
    [codigo] or [codigoLinha], [buscarPosicoesInteligente] ends in the error
    "Código da linha não encontrado no objeto retornado" and makes no
    position request, even when a later line carries a code; when the first
    entry is [null] it ends in the [TypeError] of the property read. *)
Theorem inteligente_primeira_sem_codigo (env : Environment) (up : Upstream)
    (termo : string) (linha : Val) (resto : list Val) :
  up (url_linhas env termo) = HttpOk (Arr (linha :: resto)) ->
  (forall codigo, codigoLinha linha = Ok codigo -> truthy codigo = false) ->
  subscribe (buscarPosicoesInteligente env termo) up
  = ([url_linhas env termo],
     {| items := [];
        fin := Error
                 (if nullish linha then type_error
                  else new_Error
                         "Código da linha não encontrado no objeto retornado") |}).
Proof.
  intros Hup Hc. unfold buscarPosicoesInteligente. rewrite catchError_relanca.
  eapply switchMap_um_throw; [apply buscarLinhas_sempre|].
  rewrite Hup. simpl.
  destruct (codigoLinha linha) as [codigo|e] eqn:E.
  - rewrite (Hc codigo eq_refl). simpl.
    destruct linha; simpl in *; try discriminate; reflexivity.
  - destruct linha; simpl in *; try discriminate; injection E as <-; reflexivity.
Qed.

Lemma inteligente_primeira_sem_codigo_witness :
  subscribe (buscarPosicoesInteligente environment_dev "8000")
    (com_linhas (Arr [linha_sem_codigo; linha_8000]))
  = (["/api/linhas?termo=8000"],
     {| items := [];
        fin := Error (new_Error
                        "Código da linha não encontrado no objeto retornado") |}).
Proof.
  apply (inteligente_primeira_sem_codigo environment_dev
           (com_linhas (Arr [linha_sem_codigo; linha_8000])) "8000"
           linha_sem_codigo [linha_8000]).
  - reflexivity.
  - intros codigo H. vm_compute in H. injection H as <-. reflexivity.
Defined.


(** ** [buscarTodasPosicoes] under every upstream *)



(** ** The request object of one line *)






(** ** [debugEstruturaDaLinha] *)



(** ** The parameter in the request URLs *)

Lemma chars_unchars (l : list ascii) : chars (unchars l) = l.
Proof. induction l as [|c l IH]; simpl; [|rewrite IH]; reflexivity. Qed.

Lemma chars_append (s1 s2 : string) : chars (s1 +:+ s2) = chars s1 ++ chars s2.
Proof. induction s1 as [|c s1 IH]; simpl; [|rewrite IH]; reflexivity. Qed.

Lemma escape_seguro (c : ascii) :
  forallb seguro_em_url (if unreserved c then [c] else percent c) = true.
Proof.
  destruct c as [[] [] [] [] [] [] [] []]; vm_compute; reflexivity.
Qed.

Lemma encodeURIComponent_seguro (v : Val) :
  forallb seguro_em_url (chars (encodeURIComponent v)) = true.
Proof.
  unfold encodeURIComponent. rewrite chars_unchars.
  induction (to_chars v) as [|c l IH]; [reflexivity|].
  change (forallb seguro_em_url
            ((if unreserved c then [c] else percent c)
               ++ (l ≫= fun c => if unreserved c then [c] else percent c))
          = true).
  rewrite forallb_app, escape_seguro, IH. reflexivity.
Qed.

(** X8.  The parameter that [buscarLinhas] and [buscarPosicoes] put in the
    request URL consists of unreserved characters and percent escapes only,
    whatever the term or the code is: the URL is the base path, the fixed
    query name and that text, so nothing in the term (no [&], [=], [?], [#],
    [/], [+] or space) can end the parameter or start another one. *)
Theorem parametro_escapado (env : Environment) (termo : string) (codigo : Val) :
  (exists q,
      chars (url_linhas env termo)
      = chars (apiUrl env) ++ chars "/linhas?termo=" ++ q
      /\ forallb seguro_em_url q = true)
  /\ (exists q,
         chars (url_posicoes env codigo)
         = chars (apiUrl env) ++ chars "/Posicao/Linha?codigoLinha=" ++ q
         /\ forallb seguro_em_url q = true)
  /\ forallb (fun c => negb (seguro_em_url c)) (chars "&=?#/+ ") = true.
Proof.
  split; [|split].
  - exists (chars (encodeURIComponent (Str termo))).
    split; [|apply encodeURIComponent_seguro].
    unfold url_linhas, baseURL. rewrite !chars_append, <- ?app_assoc.
    reflexivity.
  - exists (chars (encodeURIComponent codigo)).
    split; [|apply encodeURIComponent_seguro].
    unfold url_posicoes, baseURL. rewrite !chars_append, <- ?app_assoc.
    reflexivity.
  - reflexivity.
Qed.


(** ** The three operations with a default *)

(** X9.  [buscarLinhas], [buscarPosicoes] and [verificarStatus] each send
    exactly one GET request, to their own URL, whether it succeeds or fails
    (nothing is retried); and when it succeeds they deliver the body of the
    response as it is, once, and complete. *)
Theorem servico_um_pedido_um_valor (env : Environment) (up : Upstream) :
  (forall termo body,
      up (url_linhas env termo) = HttpOk body ->
      subscribe (SptransService.buscarLinhas env termo) up
      = ([url_linhas env termo], {| items := [body]; fin := Complete |}))
  /\ (forall codigo body,
         up (url_posicoes env codigo) = HttpOk body ->
         subscribe (buscarPosicoes env codigo) up
         = ([url_posicoes env codigo], {| items := [body]; fin := Complete |}))
  /\ (forall body,
         up (url_status env) = HttpOk body ->
         subscribe (verificarStatus env) up
         = ([url_status env], {| items := [body]; fin := Complete |}))
  /\ (forall termo,
         (subscribe (SptransService.buscarLinhas env termo) up).1
         = [url_linhas env termo])
  /\ (forall codigo,
         (subscribe (buscarPosicoes env codigo) up).1 = [url_posicoes env codigo])
  /\ (subscribe (verificarStatus env) up).1 = [url_status env].
Proof.
  unfold subscribe, SptransService.buscarLinhas, buscarPosicoes,
    verificarStatus, catchError, http_get.
  repeat split; intros;
    first [ match goal with
            | H : up _ = HttpOk _ |- _ => rewrite H; reflexivity
            end
          | match goal with
            | |- context [up ?u] => destruct (up u); reflexivity
            end ].
Qed.

Lemma servico_um_pedido_um_valor_witness :
  subscribe (SptransService.buscarLinhas environment_dev "8000")
    (fun _ => HttpOk (Arr [linha_8000]))
  = (["/api/linhas?termo=8000"],
     {| items := [Arr [linha_8000]]; fin := Complete |}).
Proof.
  apply (proj1 (servico_um_pedido_um_valor environment_dev
                  (fun _ => HttpOk (Arr [linha_8000])))
           "8000" (Arr [linha_8000])).
  reflexivity.
Defined.

(** * Further properties of the view controller *)

(** ** Searches that are rejected *)

Lemma buscarLinhas_em_branco (st : State) :
  trim (termoBusca st) = "" ->
  step st Buscar = set_efeitos (efeitos st ++ [EAlert DigiteUmaLinha]) st.
Proof.
  intros H. simpl. unfold callback, AppComponent.buscarLinhas.
  unfold bind, ler, alert, efeito, mudar. simpl. rewrite H. reflexivity.
Qed.

Lemma buscarLinhas_sem_mapa (st : State) :
  trim (termoBusca st) <> "" ->
  mapa st = None ->
  step st Buscar = set_efeitos (efeitos st ++ [EAlert AguardeOMapa]) st.
Proof.
  intros Ht Hm. simpl. unfold callback, AppComponent.buscarLinhas.
  unfold bind, ler, alert, efeito, mudar. simpl.
  destruct (String.eqb_spec (trim (termoBusca st)) "") as [E|_]; [contradiction|].
  simpl. rewrite Hm. reflexivity.
Qed.

(** X10.  A search is rejected with an alert, and changes nothing else in
    the component (no request, no counter, no flag, no marker removed), when
    the term typed is empty or only white space, and, with a term, when the
    map does not exist yet; the check of the term comes first. *)
Theorem busca_rejeitada (st : State) :
  (trim (termoBusca st) = "" ->
   step st Buscar = set_efeitos (efeitos st ++ [EAlert DigiteUmaLinha]) st)
  /\ (trim (termoBusca st) <> "" -> mapa st = None ->
      step st Buscar = set_efeitos (efeitos st ++ [EAlert AguardeOMapa]) st).
Proof.
  split; [apply buscarLinhas_em_branco | apply buscarLinhas_sem_mapa].
Qed.

Lemma busca_rejeitada_witness :
  step em_branco Buscar
  = set_efeitos (efeitos em_branco ++ [EAlert DigiteUmaLinha]) em_branco
  /\ step sem_mapa Buscar
     = set_efeitos (efeitos sem_mapa ++ [EAlert AguardeOMapa]) sem_mapa.
Proof.
  split.
  - apply (proj1 (busca_rejeitada em_branco)). vm_compute; reflexivity.
  - apply (proj2 (busca_rejeitada sem_mapa)).
    + vm_compute. discriminate.
    + vm_compute; reflexivity.
Defined.

(** ** Outside a browser *)

Lemma step_fora (st : State) (ev : Event) :
  fora_do_navegador st -> fora_do_navegador (step st ev).
Proof.
  intros (Hb & HL & Hm & Hc & Hp & Hbs & Hms & Hef).
  destruct ev as [ok|ok|texto| | |i r].
  - simpl. unfold callback, ngOnInit, bind, ler, ret. simpl. rewrite Hb. simpl.
    repeat split; assumption.
  - simpl. rewrite Hb. repeat split; assumption.
  - simpl. repeat split; assumption.
  - destruct (String.eqb_spec (trim (termoBusca st)) "") as [E|E].
    + rewrite (buscarLinhas_em_branco st E). simpl.
      repeat split; try assumption.
      apply Forall_app. split; [assumption | constructor; [auto | constructor]].
    + rewrite (buscarLinhas_sem_mapa st E Hm). simpl.
      repeat split; try assumption.
      apply Forall_app. split; [assumption | constructor; [auto | constructor]].
  - simpl. unfold callback, removerMarcadores.
    rewrite (limparMarcadores_sem_mapa st Hm). repeat split; assumption.
  - rewrite step_sem_pendente; [repeat split; assumption|].
    rewrite Hp. reflexivity.
Qed.

(** X11.  Outside a browser (server-side rendering) nothing ever happens:
    whatever events reach the component, Leaflet is never loaded, the map is
    never created, no request is ever sent, no marker exists, and every
    search ends in one of the two alerts of a rejected search. *)
Theorem nada_fora_do_navegador (env : Environment) (evs : list Event) :
  let st := run evs (inicial env false) in
  L st = false /\ mapa st = None /\ mapaCarregado st = false
  /\ pendentes st = [] /\ buscas st = [] /\ marcadoresOnibus st = []
  /\ Forall (fun e => e = EAlert DigiteUmaLinha \/ e = EAlert AguardeOMapa)
       (efeitos st).
Proof.
  assert (fora_do_navegador (run evs (inicial env false))) as H.
  { assert (fora_do_navegador (inicial env false)) as H0.
    { repeat split. simpl. constructor. }
    revert H0. generalize (inicial env false).
    induction evs as [|ev evs IH]; intros st H; simpl; [exact H|].
    apply IH, step_fora, H. }
  destruct H as (_ & H). exact H.
Qed.

(** ** Leaflet, the map and its flag *)

Lemma mapa_em_ordem_fmap (g : Mapa -> Mapa) (st : State) :
  mapa_em_ordem st -> mapa_em_ordem (set_mapa (g <$> mapa st) st).
Proof.
  intros (H1 & H2 & H3). repeat split; simpl; auto.
  - intros [m Hm]. apply H2. destruct (mapa st); [eauto | discriminate].
  - intros Hc. destruct (H3 Hc) as [m ->]. simpl. eauto.
Qed.

Ltac mapa_em_ordem_folha :=
  apply preserva_mudar;
  let st := fresh "st" in
  let H := fresh "H" in
  intros st H;
  first [ exact H | apply mapa_em_ordem_fmap; exact H ].

Lemma ngOnInit_mapa_em_ordem ok : preserva mapa_em_ordem (ngOnInit ok).
Proof.
  intros st (H1 & H2 & H3). unfold ngOnInit, bind, ler, ret, mudar. simpl.
  destruct (isBrowser st) eqn:Hb; simpl.
  - destruct ok; simpl; repeat split; auto.
  - repeat split; auto. intros HL. discriminate (H1 HL).
Qed.

(** [criarMapa] runs from the timer of [ngAfterViewInit], in a browser. *)
Lemma criarMapa_mapa_em_ordem ok : preserva mapa_em_ordem (criarMapa ok).
Proof.
  intros st (H1 & H2 & H3). unfold criarMapa, bind, ler, ret, mudar. simpl.
  destruct (L st) eqn:HL; simpl.
  - destruct (mapa st) as [m|] eqn:Hm; simpl.
    + split; [|split]; simpl; auto.
    + destruct ok; (split; [|split]); simpl; eauto;
        intros Hc; try destruct (H3 Hc) as [m Hx]; try discriminate.
  - split; [|split]; simpl; auto;
      intros Hx;
      first [ congruence | discriminate (H2 Hx)
            | destruct (H3 Hx) as [m Hy]; discriminate (H2 (ex_intro _ m Hy)) ].
Qed.

Lemma limparMarcadores_mapa_em_ordem : preserva mapa_em_ordem limparMarcadores.
Proof.
  unfold limparMarcadores, mapa_removeLayer, efeito.
  preservar mapa_em_ordem_folha.
Qed.

Lemma buscarLinhas_mapa_em_ordem :
  preserva mapa_em_ordem AppComponent.buscarLinhas.
Proof.
  unfold AppComponent.buscarLinhas, assinar, alert, efeito.
  preservar ltac:(first [ apply limparMarcadores_mapa_em_ordem
                        | mapa_em_ordem_folha ]).
Qed.

Lemma linhas_next_mapa_em_ordem t linhas :
  preserva mapa_em_ordem (linhas_next t linhas).
Proof.
  unfold linhas_next, processarLinhas, processarLinha, nova_busca, assinar,
    alert, efeito.
  preservar mapa_em_ordem_folha.
Qed.

Lemma adicionarMarcador_mapa_em_ordem onibus linha :
  preserva mapa_em_ordem (adicionarMarcador onibus linha).
Proof.
  unfold adicionarMarcador, marker_addTo, efeito.
  preservar mapa_em_ordem_folha.
Qed.

Lemma posicoes_next_mapa_em_ordem k linha posicoes :
  preserva mapa_em_ordem (posicoes_next k linha posicoes).
Proof.
  unfold posicoes_next, marcarOnibus, se_ultima_linha, ler_busca,
    mostrarResultadoFinal, mapa_fitBounds, mudar_busca, alert, efeito.
  preservar ltac:(first [ apply adicionarMarcador_mapa_em_ordem
                        | mapa_em_ordem_folha ]).
Qed.

Lemma step_mapa_em_ordem (st : State) (ev : Event) :
  mapa_em_ordem st -> mapa_em_ordem (step st ev).
Proof.
  intros H.
  assert (forall st e, mapa_em_ordem st ->
                       mapa_em_ordem (set_efeitos (efeitos st ++ [EUncaught e]) st))
    as Hu by (intros ? ? Hx; exact Hx).
  pose proof (preserva_callback mapa_em_ordem Hu) as Hcb.
  destruct ev as [ok|ok|texto| | |i r].
  - apply Hcb; auto using ngOnInit_mapa_em_ordem.
  - simpl. destruct (isBrowser st); [|exact H].
    apply Hcb; auto using criarMapa_mapa_em_ordem.
  - exact H.
  - apply Hcb; auto using buscarLinhas_mapa_em_ordem.
  - apply Hcb; auto using limparMarcadores_mapa_em_ordem.
  - destruct (pendentes st !! i) as [[t|k linha codigo]|] eqn:Hp.
    + rewrite (step_linhas st i t r Hp).
      apply Hcb; auto using linhas_next_mapa_em_ordem.
    + rewrite (step_posicoes st i k linha codigo r Hp).
      apply Hcb; auto using posicoes_next_mapa_em_ordem.
    + rewrite (step_sem_pendente st i r Hp). exact H.
Qed.

Lemma run_mapa_em_ordem (evs : list Event) (st : State) :
  mapa_em_ordem st -> mapa_em_ordem (run evs st).
Proof.
  revert st. induction evs as [|ev evs IH]; intros st H; simpl; [exact H|].
  apply IH, step_mapa_em_ordem, H.
Qed.

(** X12.  In every state the component reaches, Leaflet is loaded only in a
    browser, the map exists only if Leaflet is loaded, and [mapaCarregado] is
    set only if the map exists; and once the map exists it exists in every
    later state.  A search can therefore be accepted only in a browser with
    Leaflet loaded. *)
Theorem mapa_so_com_leaflet (st : State) (evs : list Event) :
  alcancavel st ->
  (L st = true -> isBrowser st = true)
  /\ (is_Some (mapa st) -> L st = true)
  /\ (mapaCarregado st = true -> is_Some (mapa st))
  /\ (is_Some (mapa st) -> is_Some (mapa (run evs st))).
Proof.
  intros (env & browser & evs0 & ->).
  assert (mapa_em_ordem (run evs0 (inicial env browser))) as (H1 & H2 & H3).
  { apply run_mapa_em_ordem. repeat split; simpl; try discriminate.
    intros [m Hm]. discriminate. }
  split; [exact H1|]. split; [exact H2|]. split; [exact H3|].
  generalize (run evs0 (inicial env browser)). clear.
  induction evs as [|ev evs IH]; intros st H; simpl; [exact H|].
  apply IH. clear IH.
  assert (forall st e, is_Some (mapa st) ->
                       is_Some (mapa (set_efeitos (efeitos st ++ [EUncaught e]) st)))
    as Hu by (intros ? ? Hx; exact Hx).
  pose proof (preserva_callback (fun st => is_Some (mapa st)) Hu) as Hcb.
  assert (forall (g : Mapa -> Mapa) st,
             is_Some (mapa st) -> is_Some (mapa (set_mapa (g <$> mapa st) st)))
    as Hg.
  { intros g s [m Hm]. simpl. rewrite Hm. simpl. eauto. }
  assert (preserva (fun st => is_Some (mapa st)) limparMarcadores) as Hlimpar.
  { unfold limparMarcadores, mapa_removeLayer, efeito.
    preservar ltac:(apply preserva_mudar; intros ? ?;
                    first [assumption | apply Hg; assumption]). }
  destruct ev as [ok|ok|texto| | |i r].
  - apply Hcb; [|exact H]. unfold ngOnInit. preservar fail.
  - simpl. destruct (isBrowser st); [|exact H].
    apply Hcb; [|exact H].
    intros s Hs. unfold criarMapa, bind, ler, ret, mudar. simpl.
    destruct (L s); simpl; [|exact Hs].
    destruct Hs as [m Hm]. rewrite Hm. simpl. eauto.
  - exact H.
  - apply Hcb; [|exact H].
    unfold AppComponent.buscarLinhas, assinar, alert, efeito.
    preservar ltac:(apply Hlimpar).
  - apply Hcb; [exact Hlimpar | exact H].
  - destruct (pendentes st !! i) as [[t|k linha codigo]|] eqn:Hp.
    + rewrite (step_linhas st i t r Hp). apply Hcb; [|exact H].
      unfold linhas_next, processarLinhas, processarLinha, nova_busca, assinar,
        alert, efeito.
      preservar fail.
    + rewrite (step_posicoes st i k linha codigo r Hp). apply Hcb; [|exact H].
      unfold posicoes_next, marcarOnibus, adicionarMarcador, marker_addTo,
        se_ultima_linha, ler_busca, mostrarResultadoFinal, mapa_fitBounds,
        mudar_busca, alert, efeito.
      preservar ltac:(apply preserva_mudar; intros ? ?;
                      first [assumption | apply Hg; assumption]).
    + rewrite (step_sem_pendente st i r Hp). exact H.
Qed.

Lemma mapa_so_com_leaflet_witness :
  (L pronto = true -> isBrowser pronto = true)
  /\ (is_Some (mapa pronto) -> L pronto = true)
  /\ (mapaCarregado pronto = true -> is_Some (mapa pronto))
  /\ (is_Some (mapa pronto) ->
      is_Some (mapa (run (busca_8000 [linha_8000]) pronto))).
Proof.
  apply (mapa_so_com_leaflet pronto (busca_8000 [linha_8000])).
  exists environment_dev, true, [NgOnInit true; CriarMapa true].
  reflexivity.
Defined.

(** ** The spinner *)







(** ** Removing the markers by hand *)

(** X14.  The button that removes the markers, in a reachable state with
    the map: every marker of the list is taken off the map, in the order of
    the list; the map is left with no marker and with the viewport it had,
    and the list is empty.  The requests in flight and the counters of the
    searches are not touched, so a search still running goes on adding
    markers and counting.  Without a map, nothing happens at all. *)
Theorem removerMarcadores_esvazia (st : State) :
  alcancavel st ->
  (forall m, mapa st = Some m ->
     step st RemoverMarcadores
     = set_marcadoresOnibus []
         (set_efeitos (efeitos st ++ (ERemoveLayer <$> marcadoresOnibus st))
            (set_mapa (Some {| layers := []; view := view m |}) st)))
  /\ (mapa st = None -> step st RemoverMarcadores = st).
Proof.
  intros Hr. split.
  - intros m Hm. simpl. unfold callback, removerMarcadores.
    rewrite (limparMarcadores_mapa st m Hm).
    assert (foldl (fun m x => removeLayer x m) m (marcadoresOnibus st)
            = {| layers := []; view := view m |}) as ->; [|reflexivity].
    pose proof (remover_view (marcadoresOnibus st) m) as Hv.
    assert (layers (foldl (fun m x => removeLayer x m) m (marcadoresOnibus st))
            = []) as Hl.
    { apply remover_todos.
      pose proof (alcancavel_coerente st Hr) as Hc. unfold mapa_coerente in Hc.
      rewrite Hm in Hc. rewrite Hc.
      apply Forall_forall. intros x Hx. apply list_elem_of_fmap_2, Hx. }
    destruct (foldl _ m (marcadoresOnibus st)) as [ls v]. simpl in *.
    congruence.
  - intros Hm. simpl. unfold callback, removerMarcadores.
    rewrite (limparMarcadores_sem_mapa st Hm). reflexivity.
Qed.

Lemma removerMarcadores_esvazia_witness :
  step com_um_marcador RemoverMarcadores
  = set_marcadoresOnibus []
      (set_efeitos (efeitos com_um_marcador
                      ++ (ERemoveLayer <$> marcadoresOnibus com_um_marcador))
         (set_mapa (Some {| layers := []; view := FitBounds [marcador_na_se] |})
            com_um_marcador)).
Proof.
  apply (proj1 (removerMarcadores_esvazia com_um_marcador
                  ltac:(exists environment_dev, true,
                          ([NgOnInit true; CriarMapa true]
                             ++ busca_8000 [linha_8000]
                             ++ [Resposta 0 (HttpOk posicoes_um_onibus)]);
                        vm_compute; reflexivity))
           {| layers := [marcador_na_se]; view := FitBounds [marcador_na_se] |}).
  vm_compute; reflexivity.
Defined.

(** ** The markers on the map *)

Lemma adicionarMarcador_sem_nan onibus linha :
  preserva sem_nan (adicionarMarcador onibus linha).
Proof.
  intros st H.
  destruct (adicionarMarcador_casos onibus linha st)
    as [(r & ->) | (m & marcador & _ & _ & Hlat & Hlng & ->)]; [exact H|].
  unfold sem_nan. simpl. apply Forall_app. split; [exact H|].
  constructor; [split; assumption | constructor].
Qed.

Ltac sem_nan_folha :=
  first
    [ apply adicionarMarcador_sem_nan
    | apply preserva_mudar;
      let st := fresh "st" in
      let H := fresh "H" in
      intros st H; first [ exact H | constructor ] ].

Lemma limparMarcadores_sem_nan : preserva sem_nan limparMarcadores.
Proof.
  unfold limparMarcadores, mapa_removeLayer, efeito. preservar sem_nan_folha.
Qed.

Lemma step_sem_nan (st : State) (ev : Event) : sem_nan st -> sem_nan (step st ev).
Proof.
  intros H.
  pose proof (preserva_callback sem_nan (fun s e Hs => Hs)) as Hcb.
  destruct ev as [ok|ok|texto| | |i r].
  - apply Hcb; [|exact H]. unfold ngOnInit. preservar fail.
  - simpl. destruct (isBrowser st); [|exact H].
    apply Hcb; [|exact H]. unfold criarMapa. preservar fail.
  - exact H.
  - apply Hcb; [|exact H].
    unfold AppComponent.buscarLinhas, assinar, alert, efeito.
    preservar ltac:(first [apply limparMarcadores_sem_nan | sem_nan_folha]).
  - apply Hcb; [apply limparMarcadores_sem_nan | exact H].
  - destruct (pendentes st !! i) as [[t|k linha codigo]|] eqn:Hp.
    + rewrite (step_linhas st i t r Hp). apply Hcb; [|exact H].
      unfold linhas_next, processarLinhas, processarLinha, nova_busca, assinar,
        alert, efeito.
      preservar fail.
    + rewrite (step_posicoes st i k linha codigo r Hp). apply Hcb; [|exact H].
      unfold posicoes_next, marcarOnibus, se_ultima_linha, ler_busca,
        mostrarResultadoFinal, mapa_fitBounds, mudar_busca, alert, efeito.
      preservar sem_nan_folha.
    + rewrite (step_sem_pendente st i r Hp). exact H.
Qed.

(** X15.  In every state the component reaches, the markers on the map are
    exactly those of [marcadoresOnibus], in the same order (none before the
    map exists), and none of them has a latitude or longitude that is not a
    number: a vehicle whose [py] or [px] does not parse gets no marker. *)
Theorem marcadores_do_mapa (st : State) :
  alcancavel st ->
  (forall m, mapa st = Some m -> layers m = marcadoresOnibus st)
  /\ (mapa st = None -> marcadoresOnibus st = [])
  /\ Forall (fun x => isNaN (lat x) = false /\ isNaN (lng x) = false)
       (marcadoresOnibus st).
Proof.
  intros Hr. pose proof (alcancavel_coerente st Hr) as Hc.
  unfold mapa_coerente in Hc.
  split; [|split].
  - intros m Hm. rewrite Hm in Hc. exact Hc.
  - intros Hm. rewrite Hm in Hc. exact Hc.
  - clear Hc. destruct Hr as (env & browser & evs & ->).
    assert (sem_nan (inicial env browser)) as H0 by constructor.
    revert H0. generalize (inicial env browser).
    induction evs as [|ev evs IH]; intros st H; simpl; [exact H|].
    apply IH, step_sem_nan, H.
Qed.

Lemma marcadores_do_mapa_witness :
  (forall m, mapa com_um_marcador = Some m ->
             layers m = marcadoresOnibus com_um_marcador)
  /\ (mapa com_um_marcador = None -> marcadoresOnibus com_um_marcador = [])
  /\ Forall (fun x => isNaN (lat x) = false /\ isNaN (lng x) = false)
       (marcadoresOnibus com_um_marcador).
Proof.
  apply (marcadores_do_mapa com_um_marcador).
  exists environment_dev, true,
    ([NgOnInit true; CriarMapa true] ++ busca_8000 [linha_8000]
       ++ [Resposta 0 (HttpOk posicoes_um_onibus)]).
  vm_compute; reflexivity.
Defined.

(** ** Answers to the line search *)

(** X16.  An answer to the line search whose body is not an array ends the
    search with one alert and nothing else: "empty data" with the term when
    the body is falsy ([null], [false], [0], the empty string), "unexpected
    format" when it is any other value (an object, a non-empty string, a
    number).  The spinner is off, no search variables are created and no
    position request is sent. *)
Theorem resposta_que_nao_e_lista (st : State) (i : nat) (t : string)
    (body : Val) :
  pendentes st !! i = Some (SubLinhas t) ->
  isArray body = false ->
  step st (Resposta i (HttpOk body))
  = set_efeitos
      (efeitos st
         ++ [EAlert (if truthy body then FormatoInesperado else DadosVazios t)])
      (set_carregando false (sem_pendente i st)).
Proof.
  intros Hp Harr. rewrite (step_linhas st i t _ Hp). simpl linhas_de.
  unfold callback, linhas_next, processarLinhas, bind, mudar, alert, efeito,
    mudar.
  destruct (truthy body); simpl; [rewrite Harr|]; reflexivity.
Qed.

Lemma resposta_que_nao_e_lista_witness :
  step linhas_pedidas
    (Resposta 0 (HttpOk (Obj [("erro", Str "Nao autorizado")])))
  = set_efeitos (efeitos linhas_pedidas ++ [EAlert FormatoInesperado])
      (set_carregando false (sem_pendente 0 linhas_pedidas)).
Proof.
  apply (resposta_que_nao_e_lista linhas_pedidas 0 "8000"
           (Obj [("erro", Str "Nao autorizado")])).
  - vm_compute; reflexivity.
  - reflexivity.
Defined.

(** ** Searches that never get their summary *)

Lemma run_em_ordem (evs : list Event) (st : State) :
  em_ordem st -> em_ordem (run evs st).
Proof.
  revert st. induction evs as [|ev evs IH]; intros st H; simpl; [exact H|].
  apply IH, step_em_ordem, H.
Qed.

Lemma alcancavel_em_ordem (st : State) : alcancavel st -> em_ordem st.
Proof.
  intros (env & browser & evs & ->). apply run_em_ordem.
  intros k. simpl. split; reflexivity.
Qed.

Lemma sem_resumos (k : nat) (es : list Effect) :
  resumos k es = 0 ->
  Forall (fun e => forall n p, e <> EResultadoFinal k n p) es.
Proof.
  induction es as [|e es IH]; intros H; [constructor|].
  change (e :: es) with ([e] ++ es) in H.
  rewrite resumos_app, resumos_um in H.
  constructor.
  - intros n p ->. simpl in H. rewrite Nat.eqb_refl in H. discriminate.
  - apply IH. lia.
Qed.

Lemma linhas_com_codigo_take (n : nat) (l : list Val) :
  length (linhas_com_codigo (take n l)) <= length (linhas_com_codigo l).
Proof.
  rewrite <- (take_drop n l) at 2. unfold linhas_com_codigo.
  rewrite omap_app, length_app. lia.
Qed.

Lemma delete_fora {A} (l : list A) (i : nat) : l !! i = None -> delete i l = l.
Proof.
  revert i. induction l as [|x l IH]; intros [|i] H; simpl in *;
    try reflexivity; try discriminate.
  f_equal. apply IH, H.
Qed.

Lemma em_voo_delete_le (k : nat) (l : list Subscriber) (i : nat) :
  em_voo k (delete i l) <= em_voo k l.
Proof.
  destruct (l !! i) as [s|] eqn:H.
  - rewrite (em_voo_delete k l i s H). lia.
  - rewrite (delete_fora l i H). lia.
Qed.

(** X17.  A search is lost as soon as the answer to its line search holds a
    line that gets no position request: a line with none of the four code
    fields truthy, a [null] entry, or any line after a [null] entry (where
    the loop stops with a [TypeError]).  [totalLinhas] counts those lines
    too, so from that answer on, whatever happens (answers or failures in any
    order, the remove button, further searches), the lines processed and the
    requests in flight of that search stay below [totalLinhas] and its
    summary is never called. *)
Theorem resumo_nunca_vem (st : State) (i : nat) (t : string) (l : list Val)
    (evs : list Event) :
  alcancavel st ->
  pendentes st !! i = Some (SubLinhas t) ->
  length (linhas_com_codigo l) < length l ->
  let k := length (buscas st) in
  let st' := run evs (step st (Resposta i (HttpOk (Arr l)))) in
  (exists b, buscas st' !! k = Some b
             /\ linhasProcessadas b + em_voo k (pendentes st') < totalLinhas b)
  /\ Forall (fun e => forall n p, e <> EResultadoFinal k n p) (efeitos st').
Proof.
  intros Hr Hp Hlt k st'. subst st'. apply run_falta.
  pose proof (alcancavel_em_ordem st Hr k) as Hk. subst k.
  rewrite lookup_ge_None_2 in Hk by lia. destruct Hk as [Hv Hres].
  rewrite (step_linhas st i t _ Hp). simpl linhas_de.
  unfold callback, linhas_next. unfold bind at 1, mudar at 1.
  destruct (processarLinhas_array l t (set_carregando false (sem_pendente i st)))
    as (n & r & _ & -> & _).
  { intros ->. simpl in Hlt. lia. }
  set (cs := linhas_com_codigo (take n l)).
  assert (length cs < length l) as Hcs.
  { pose proof (linhas_com_codigo_take n l). subst cs. lia. }
  assert (falta_linha (length (buscas st))
            (com_pedidos (length (buscas st)) cs
               (set_buscas (buscas st ++ [nova (length l) t])
                  (set_carregando false (sem_pendente i st))))) as H.
  { split.
    - exists (nova (length l) t). simpl.
      rewrite list_lookup_middle by reflexivity. split; [reflexivity|].
      rewrite em_voo_app, em_voo_pedidos. simpl.
      pose proof (em_voo_delete_le (length (buscas st)) (pendentes st) i). lia.
    - simpl. apply Forall_app. split; [apply sem_resumos, Hres|].
      apply Forall_fmap, Forall_forall. intros lc _ n' p. discriminate. }
  destruct r; [exact H | apply falta_linha_uncaught, H].
Qed.

Lemma resumo_nunca_vem_witness :
  let st' := run [Resposta 0 (HttpOk posicoes_um_onibus); Digitar "9000"; Buscar]
               (step linhas_pedidas
                  (Resposta 0 (HttpOk (Arr [linha_8000; Null; linha_9000])))) in
  (exists b, buscas st' !! 0 = Some b
             /\ linhasProcessadas b + em_voo 0 (pendentes st') < totalLinhas b)
  /\ Forall (fun e => forall n p, e <> EResultadoFinal 0 n p) (efeitos st').
Proof.
  apply (resumo_nunca_vem linhas_pedidas 0 "8000" [linha_8000; Null; linha_9000]
           [Resposta 0 (HttpOk posicoes_um_onibus); Digitar "9000"; Buscar]).
  - exists environment_dev, true,
      [NgOnInit true; CriarMapa true; Digitar "8000"; Buscar].
    vm_compute; reflexivity.
  - vm_compute; reflexivity.
  - vm_compute; lia.
Defined.

(** ** The requests in flight *)

Lemma codigoLinha_de_linha (linha codigo : Val) :
  codigoLinha linha = Ok codigo -> nullish linha = false.
Proof. destruct linha; simpl; intros H; try reflexivity; discriminate. Qed.

Lemma linhas_com_codigo_em_ordem (l : list Val) :
  Forall (fun lc => codigoLinha lc.1 = Ok lc.2 /\ truthy lc.2 = true)
    (linhas_com_codigo l).
Proof.
  induction l as [|x l IH]; [constructor|].
  unfold linhas_com_codigo in *. simpl.
  destruct (codigoLinha x) as [c|e] eqn:Hc; simpl; [|exact IH].
  destruct (truthy c) eqn:Ht; simpl; [|exact IH].
  constructor; [split; assumption | exact IH].
Qed.

Lemma pedido_em_ordem_mono (st st' : State) (s : Subscriber) :
  length (buscas st) <= length (buscas st') ->
  pedido_em_ordem st s -> pedido_em_ordem st' s.
Proof.
  intros Hle. destruct s as [t|k linha codigo]; simpl; [auto|].
  intros (H1 & H2 & H3). repeat split; auto. lia.
Qed.

Lemma pedidos_em_ordem_mesmos (st st' : State) :
  pendentes st' = pendentes st ->
  length (buscas st') = length (buscas st) ->
  pedidos_em_ordem st -> pedidos_em_ordem st'.
Proof.
  intros Hp Hb H. unfold pedidos_em_ordem. rewrite Hp.
  eapply Forall_impl; [exact H|]. intros s.
  apply pedido_em_ordem_mono. lia.
Qed.

(** The bodies that send no request and create no search variables. *)
Lemma sem_tocar_nos_pedidos (p : list Subscriber) (n : nat) :
  (forall ok, preserva (fun st => pendentes st = p /\ length (buscas st) = n)
                (ngOnInit ok))
  /\ (forall ok, preserva (fun st => pendentes st = p /\ length (buscas st) = n)
                   (criarMapa ok))
  /\ preserva (fun st => pendentes st = p /\ length (buscas st) = n)
       limparMarcadores
  /\ (forall k linha posicoes,
         preserva (fun st => pendentes st = p /\ length (buscas st) = n)
           (posicoes_next k linha posicoes)).
Proof.
  split; [|split; [|split]]; intros;
    unfold ngOnInit, criarMapa, limparMarcadores, mapa_removeLayer,
      posicoes_next, marcarOnibus, adicionarMarcador, marker_addTo,
      se_ultima_linha, ler_busca, mostrarResultadoFinal, mapa_fitBounds,
      mudar_busca, alert, efeito;
    preservar ltac:(apply preserva_mudar;
                    let st := fresh "st" in
                    let H1 := fresh "H" in
                    let H2 := fresh "H" in
                    intros st [H1 H2];
                    first [ exact (conj H1 H2)
                          | split; [exact H1 | simpl; rewrite length_alter; exact H2] ]).
Qed.

Lemma step_pedidos_em_ordem (st : State) (ev : Event) :
  pedidos_em_ordem st -> pedidos_em_ordem (step st ev).
Proof.
  intros H.
  destruct (sem_tocar_nos_pedidos (pendentes st) (length (buscas st)))
    as (Hinit & Hcriar & Hlimpar & _).
  assert (forall (m : M unit) (s0 : State),
             pedidos_em_ordem s0 ->
             preserva (fun s => pendentes s = pendentes s0
                                /\ length (buscas s) = length (buscas s0)) m ->
             pedidos_em_ordem (callback m s0)) as Hmesmo.
  { intros m s0 H0 Hm.
    pose proof (preserva_callback
                  (fun s => pendentes s = pendentes s0
                            /\ length (buscas s) = length (buscas s0))
                  (fun s e Hs => Hs) m s0 Hm (conj eq_refl eq_refl))
      as [Hp Hb].
    exact (pedidos_em_ordem_mesmos s0 _ Hp Hb H0). }
  assert (forall i, pedidos_em_ordem (sem_pendente i st)) as Hsem.
  { intros i. unfold pedidos_em_ordem. simpl. apply Forall_delete.
    eapply Forall_impl; [exact H|]. intros s. apply pedido_em_ordem_mono.
    reflexivity. }
  destruct ev as [ok|ok|texto| | |i r].
  - apply Hmesmo; [exact H | apply Hinit].
  - simpl. destruct (isBrowser st); [|exact H].
    apply Hmesmo; [exact H | apply Hcriar].
  - exact H.
  - destruct (String.eqb_spec (trim (termoBusca st)) "") as [E|E].
    { rewrite (buscarLinhas_em_branco st E). exact H. }
    destruct (mapa st) as [m|] eqn:Hm.
    + rewrite (buscarLinhas_valida st m E Hm).
      unfold pedidos_em_ordem. simpl. apply Forall_app. split.
      * eapply Forall_impl; [exact H|]. intros s. apply pedido_em_ordem_mono.
        reflexivity.
      * constructor; [exact E | constructor].
    + rewrite (buscarLinhas_sem_mapa st E Hm). exact H.
  - apply Hmesmo; [exact H | apply Hlimpar].
  - destruct (pendentes st !! i) as [[t|k linha codigo]|] eqn:Hp.
    + rewrite (step_linhas st i t r Hp).
      unfold callback, linhas_next. unfold bind at 1, mudar at 1.
      destruct (classic_array (linhas_de r)) as [(x & l & ->) | Hn].
      * destruct (processarLinhas_array (x :: l) t
                    (set_carregando false (sem_pendente i st)))
          as (n & res & _ & -> & _); [discriminate|].
        assert (pedidos_em_ordem
                  (com_pedidos (length (buscas st))
                     (linhas_com_codigo (take n (x :: l)))
                     (set_buscas (buscas st ++ [nova (length (x :: l)) t])
                        (set_carregando false (sem_pendente i st))))) as H2.
        { unfold pedidos_em_ordem. simpl pendentes. apply Forall_app. split.
          - eapply Forall_impl; [exact (Hsem i)|]. intros s.
            apply pedido_em_ordem_mono. simpl. rewrite length_app. lia.
          - apply Forall_fmap.
            eapply Forall_impl; [apply linhas_com_codigo_em_ordem|].
            intros [linha codigo] [H1 H2]. simpl in *.
            repeat split; auto. rewrite length_app. simpl. lia. }
        destruct res; exact H2.
      * destruct (processarLinhas_sem_linhas (linhas_de r) t
                    (set_carregando false (sem_pendente i st)) Hn)
          as (a & -> & _).
        exact (Hsem i).
    + rewrite (step_posicoes st i k linha codigo r Hp).
      destruct (sem_tocar_nos_pedidos (pendentes (sem_pendente i st))
                  (length (buscas (sem_pendente i st))))
        as (_ & _ & _ & Hnext).
      apply Hmesmo; [exact (Hsem i) | apply Hnext].
    + rewrite (step_sem_pendente st i r Hp). exact H.
Qed.

Lemma alcancavel_pedidos_em_ordem (st : State) :
  alcancavel st -> pedidos_em_ordem st.
Proof.
  intros (env & browser & evs & ->).
  assert (pedidos_em_ordem (inicial env browser)) as H0 by constructor.
  revert H0. generalize (inicial env browser).
  induction evs as [|ev evs IH]; intros st H; simpl; [exact H|].
  apply IH, step_pedidos_em_ordem, H.
Qed.

(** X18.  In every state the component reaches, each request in flight is
    in order.  A line search carries a term that is not empty.  A position
    request was sent for a line that is not [null] and has a truthy code
    among [cl], [c], [codigo], [codigoLinha] (the first truthy one, which is
    the code requested), and the variables of its search exist. *)
Theorem pedidos_em_voo_em_ordem (st : State) (s : Subscriber) :
  alcancavel st ->
  s ∈ pendentes st ->
  match s with
  | SubLinhas t => t <> ""
  | SubPosicoes k linha codigo =>
      nullish linha = false
      /\ codigoLinha linha = Ok codigo /\ truthy codigo = true
      /\ is_Some (buscas st !! k)
  end.
Proof.
  intros Hr Hin.
  pose proof (alcancavel_pedidos_em_ordem st Hr) as H.
  unfold pedidos_em_ordem in H. rewrite Forall_forall in H.
  specialize (H s Hin). destruct s as [t|k linha codigo]; simpl in H; [exact H|].
  destruct H as (H1 & H2 & H3). split; [|split; [|split]]; auto.
  - eapply codigoLinha_de_linha, H1.
  - apply lookup_lt_is_Some. exact H3.
Qed.

Lemma pedidos_em_voo_em_ordem_witness :
  nullish linha_8000 = false
  /\ codigoLinha linha_8000 = Ok (int 1273) /\ truthy (int 1273) = true
  /\ is_Some (buscas uma_em_voo !! 0).
Proof.
  apply (pedidos_em_voo_em_ordem uma_em_voo (SubPosicoes 0 linha_8000 (int 1273))).
  - exists environment_dev, true,
      ([NgOnInit true; CriarMapa true] ++ busca_8000 [linha_8000]).
    vm_compute; reflexivity.
  - vm_compute. left.
Defined.

(** ** What the other searches leave alone *)

Lemma quadro_efeito k b v n e st :
  e_resumo_de k e = false ->
  quadro k b v n st -> quadro k b v n (set_efeitos (efeitos st ++ [e]) st).
Proof.
  intros He (Hb & Hv & Hn). repeat split; auto. simpl.
  rewrite resumos_app, resumos_um, He. lia.
Qed.

Lemma quadro_uncaught k b v n st e :
  quadro k b v n st ->
  quadro k b v n (set_efeitos (efeitos st ++ [EUncaught e]) st).
Proof. apply quadro_efeito. reflexivity. Qed.

Lemma quadro_outra_busca k k' b v n f st :
  k' <> k -> quadro k b v n st ->
  quadro k b v n (set_buscas (alter f k' (buscas st)) st).
Proof.
  intros Hne (Hb & Hv & Hn). repeat split; auto. simpl.
  rewrite list_lookup_alter_ne by exact Hne. exact Hb.
Qed.

Lemma quadro_assinar_linhas k b v n t st :
  quadro k b v n st ->
  quadro k b v n (set_pendentes (pendentes st ++ [SubLinhas t]) st).
Proof.
  intros (Hb & Hv & Hn). repeat split; auto. simpl.
  rewrite em_voo_app. unfold em_voo at 2. rewrite filter_cons.
  destruct (decide (e_pedido_de k (SubLinhas t) = true)) as [E|E];
    [discriminate|]. simpl. lia.
Qed.

Ltac quadro_folha :=
  first
    [ apply preserva_mudar;
      let st := fresh "st" in
      let H := fresh "H" in
      intros st H;
      first
        [ exact H
        | apply quadro_efeito;
          [ first [ reflexivity | apply Nat.eqb_neq; assumption ] | exact H ]
        | apply quadro_outra_busca; [assumption | exact H]
        | apply quadro_assinar_linhas; exact H ] ].

Lemma limparMarcadores_quadro k b v n :
  preserva (quadro k b v n) limparMarcadores.
Proof.
  unfold limparMarcadores, mapa_removeLayer, efeito. preservar quadro_folha.
Qed.

Lemma buscarLinhas_quadro k b v n :
  preserva (quadro k b v n) AppComponent.buscarLinhas.
Proof.
  unfold AppComponent.buscarLinhas, assinar, alert, efeito.
  preservar ltac:(first [ apply limparMarcadores_quadro | quadro_folha ]).
Qed.

Lemma posicoes_next_quadro k k' b v n linha posicoes :
  k' <> k -> preserva (quadro k b v n) (posicoes_next k' linha posicoes).
Proof.
  intros Hne.
  unfold posicoes_next, marcarOnibus, adicionarMarcador, marker_addTo,
    se_ultima_linha, ler_busca, mostrarResultadoFinal, mapa_fitBounds,
    mudar_busca, alert, efeito.
  preservar quadro_folha.
Qed.

Lemma linhas_next_quadro k b v n t linhas st :
  quadro k b v n st -> quadro k b v n (callback (linhas_next t linhas) st).
Proof.
  intros H. unfold callback, linhas_next.
  unfold bind at 1, mudar at 1.
  assert (quadro k b v n (set_carregando false st)) as H1 by exact H.
  destruct (classic_array linhas) as [(x & l & ->) | Hn].
  - destruct (processarLinhas_array (x :: l) t (set_carregando false st))
      as (m & r & _ & -> & _); [discriminate|].
    assert (quadro k b v n
              (com_pedidos (length (buscas (set_carregando false st)))
                 (linhas_com_codigo (take m (x :: l)))
                 (set_buscas (buscas (set_carregando false st)
                                ++ [nova (length (x :: l)) t])
                    (set_carregando false st)))) as H2.
    { destruct H as (Hb & Hv & Hr). simpl.
      pose proof (lookup_lt_Some _ _ _ Hb) as Hk.
      repeat split; simpl.
      - rewrite lookup_app_l by exact Hk. exact Hb.
      - rewrite em_voo_app, em_voo_outros by lia. lia.
      - rewrite resumos_app.
        rewrite (resumos_nenhum k (_ <$> _)); [lia|].
        apply Forall_fmap, Forall_forall. intros lc _. reflexivity. }
    destruct r; [exact H2 | apply quadro_uncaught, H2].
  - destruct (processarLinhas_sem_linhas linhas t (set_carregando false st) Hn)
      as (a & -> & _).
    apply (quadro_efeito k b v n (EAlert a) _ eq_refl H1).
Qed.

(** An event that is not the answer to a position request of search [k]
    leaves the variables of [k], its requests in flight and its summary
    count as they are. *)
Lemma step_quadro (k : nat) (b : Busca) (v n : nat) (st : State) (ev : Event) :
  (forall i r linha codigo,
      ev = Resposta i r ->
      pendentes st !! i <> Some (SubPosicoes k linha codigo)) ->
  quadro k b v n st -> quadro k b v n (step st ev).
Proof.
  intros Hev H.
  pose proof (preserva_callback (quadro k b v n) (quadro_uncaught k b v n)) as Hcb.
  destruct ev as [ok|ok|texto| | |i r].
  - apply Hcb; [|exact H]. unfold ngOnInit. preservar fail.
  - simpl. destruct (isBrowser st); [|exact H].
    apply Hcb; [|exact H]. unfold criarMapa. preservar fail.
  - exact H.
  - apply Hcb; [apply buscarLinhas_quadro | exact H].
  - apply Hcb; [apply limparMarcadores_quadro | exact H].
  - destruct (pendentes st !! i) as [[t|k' linha codigo]|] eqn:Hp.
    + rewrite (step_linhas st i t r Hp). apply linhas_next_quadro.
      destruct H as (Hb & Hv & Hr). repeat split; auto. simpl.
      rewrite (em_voo_delete k _ _ _ Hp) in Hv. simpl in Hv. lia.
    + rewrite (step_posicoes st i k' linha codigo r Hp).
      assert (k' <> k) as Hne.
      { intros ->. exact (Hev i r linha codigo eq_refl Hp). }
      apply Hcb; [apply posicoes_next_quadro, Hne|].
      destruct H as (Hb & Hv & Hr). repeat split; auto. simpl.
      rewrite (em_voo_delete k _ _ _ Hp) in Hv. simpl in Hv.
      destruct (Nat.eqb_spec k' k) as [E|_]; [contradiction|]. lia.
    + rewrite (step_sem_pendente st i r Hp). exact H.
Qed.

Lemma run_quadro_parado (k : nat) (b : Busca) (n : nat) (evs : list Event)
    (st : State) :
  quadro k b 0 n st -> quadro k b 0 n (run evs st).
Proof.
  revert st. induction evs as [|ev evs IH]; intros st H; simpl; [exact H|].
  apply IH, step_quadro; [|exact H].
  intros i r linha codigo _ Hp.
  destruct H as (_ & Hv & _).
  rewrite (em_voo_positivo k _ _ _ _ Hp) in Hv. discriminate.
Qed.

(** ** Searches that are over *)

(** X19.  Once a search has no position request in flight it is over:
    whatever happens later, its counters keep their values, no request is
    sent for it, and its summary is not called, neither for the first time
    nor again. *)
Theorem busca_terminada (st : State) (k : nat) (b : Busca) (evs : list Event) :
  buscas st !! k = Some b ->
  em_voo k (pendentes st) = 0 ->
  let st' := run evs st in
  buscas st' !! k = Some b
  /\ em_voo k (pendentes st') = 0
  /\ resumos k (efeitos st') = resumos k (efeitos st).
Proof.
  intros Hb Hv. apply run_quadro_parado. repeat split; assumption.
Qed.

Lemma busca_terminada_witness :
  let st' := run [Digitar "9000"; Buscar;
                  Resposta 0 (HttpOk (Arr [linha_9000]));
                  Resposta 0 (HttpOk posicoes_um_onibus)] com_um_marcador in
  buscas st' !! 0
  = Some {| totalOnibus := 1; linhasProcessadas := 1; totalLinhas := 1;
            termo := "8000" |}
  /\ em_voo 0 (pendentes st') = 0
  /\ resumos 0 (efeitos st') = resumos 0 (efeitos com_um_marcador).
Proof.
  apply (busca_terminada com_um_marcador 0).
  - vm_compute; reflexivity.
  - vm_compute; reflexivity.
Defined.

(** X20.  A position answer whose body is [null] (an HTTP 200 with the JSON
    [null]) counts its line and then throws at [posicoes.vs], before the
    block that calls the summary: the only traces are the counter and the
    uncaught [TypeError].  When it was the last request of its search in
    flight, the summary of that search is never called. *)
Theorem posicoes_nulas (st : State) (i k : nat) (linha codigo body : Val)
    (b : Busca) (evs : list Event) :
  pendentes st !! i = Some (SubPosicoes k linha codigo) ->
  buscas st !! k = Some b ->
  nullish body = true ->
  let st' := step st (Resposta i (HttpOk body)) in
  st' = set_efeitos (efeitos st ++ [EUncaught type_error])
          (set_buscas (alter mais_uma_linha k (buscas st)) (sem_pendente i st))
  /\ (em_voo k (pendentes st) = 1 ->
      resumos k (efeitos (run evs st')) = resumos k (efeitos st)).
Proof.
  intros Hp Hb Hnull st'.
  assert (st' = set_efeitos (efeitos st ++ [EUncaught type_error])
                  (set_buscas (alter mais_uma_linha k (buscas st))
                     (sem_pendente i st))) as Heq.
  { subst st'. rewrite (step_posicoes st i k linha codigo _ Hp). simpl posicoes_de.
    unfold callback, posicoes_next, bind, mudar_busca, mudar, avaliar.
    destruct body; try discriminate; reflexivity. }
  split; [exact Heq|]. intros Hv.
  apply (run_quadro_parado k (mais_uma_linha b) (resumos k (efeitos st)) evs st').
  rewrite Heq. repeat split; simpl.
  - rewrite list_lookup_alter_eq, Hb. reflexivity.
  - rewrite (em_voo_positivo k _ _ _ _ Hp) in Hv. lia.
  - rewrite resumos_app, resumos_um. simpl. lia.
Qed.

Lemma posicoes_nulas_witness :
  let st' := step uma_em_voo (Resposta 0 (HttpOk Null)) in
  st' = set_efeitos (efeitos uma_em_voo ++ [EUncaught type_error])
          (set_buscas (alter mais_uma_linha 0 (buscas uma_em_voo))
             (sem_pendente 0 uma_em_voo))
  /\ (em_voo 0 (pendentes uma_em_voo) = 1 ->
      resumos 0 (efeitos (run [Digitar "8000"; Buscar] st'))
      = resumos 0 (efeitos uma_em_voo)).
Proof.
  apply (posicoes_nulas uma_em_voo 0 0 linha_8000 (int 1273) Null
           (nova 1 "8000") [Digitar "8000"; Buscar]).
  - vm_compute; reflexivity.
  - vm_compute; reflexivity.
  - reflexivity.
Defined.

(** ** Searches that reach their summary *)








(** ** The search counter *)

Lemma sem_tocar_no_contador (n : nat) :
  (forall ok, preserva (fun st => totalBuscas st = n) (ngOnInit ok))
  /\ (forall ok, preserva (fun st => totalBuscas st = n) (criarMapa ok))
  /\ preserva (fun st => totalBuscas st = n) limparMarcadores
  /\ (forall t linhas, preserva (fun st => totalBuscas st = n)
                         (linhas_next t linhas))
  /\ (forall k linha posicoes,
         preserva (fun st => totalBuscas st = n)
           (posicoes_next k linha posicoes)).
Proof.
  split; [|split; [|split; [|split]]]; intros;
    unfold ngOnInit, criarMapa, limparMarcadores, mapa_removeLayer,
      linhas_next, processarLinhas, processarLinha, nova_busca, assinar,
      posicoes_next, marcarOnibus, adicionarMarcador, marker_addTo,
      se_ultima_linha, ler_busca, mostrarResultadoFinal, mapa_fitBounds,
      mudar_busca, alert, efeito;
    preservar fail.
Qed.

Lemma step_totalBuscas (st : State) (ev : Event) :
  totalBuscas (step st ev)
  = (if busca_aceita st ev then 1 else 0) + totalBuscas st.
Proof.
  destruct (sem_tocar_no_contador (totalBuscas st))
    as (Hinit & Hcriar & Hlimpar & Hlinhas & Hposicoes).
  pose proof (preserva_callback (fun s => totalBuscas s = totalBuscas st)
                (fun s e Hs => Hs)) as Hcb.
  destruct ev as [ok|ok|texto| | |i r]; simpl busca_aceita.
  - apply Hcb; [apply Hinit | reflexivity].
  - simpl. destruct (isBrowser st); [|reflexivity].
    apply Hcb; [apply Hcriar | reflexivity].
  - reflexivity.
  - destruct (String.eqb_spec (trim (termoBusca st)) "") as [E|E].
    { rewrite (buscarLinhas_em_branco st E). reflexivity. }
    destruct (mapa st) as [m|] eqn:Hm.
    + rewrite (buscarLinhas_valida st m E Hm).
      rewrite bool_decide_eq_true_2 by eauto. reflexivity.
    + rewrite (buscarLinhas_sem_mapa st E Hm).
      rewrite bool_decide_eq_false_2; [reflexivity|].
      intros [m Hx]. discriminate.
  - apply Hcb; [apply Hlimpar | reflexivity].
  - destruct (pendentes st !! i) as [[t|k linha codigo]|] eqn:Hp.
    + rewrite (step_linhas st i t r Hp). apply Hcb; [apply Hlinhas | reflexivity].
    + rewrite (step_posicoes st i k linha codigo r Hp).
      apply Hcb; [apply Hposicoes | reflexivity].
    + rewrite (step_sem_pendente st i r Hp). reflexivity.
Qed.

(** X23.  [totalBuscas] counts the searches accepted: a press of the search
    button that passes both validations adds one to it, and nothing else
    changes it (a rejected search, an answer or a failure of any request,
    the remove button, typing).  Along any sequence of events it grows by
    the number of accepted presses, so it never decreases and never exceeds
    the number of presses. *)
Theorem totalBuscas_conta_as_aceitas (st : State) (evs : list Event) :
  totalBuscas (run evs st) = totalBuscas st + aceitas st evs
  /\ aceitas st evs <= length (filter (fun ev => e_buscar ev = true) evs).
Proof.
  revert st. induction evs as [|ev evs IH]; intros st; simpl.
  - split; [lia | apply Nat.le_0_l].
  - destruct (IH (step st ev)) as [H1 H2].
    change (foldl step (step st ev) evs) with (run evs (step st ev)).
    rewrite H1, step_totalBuscas. split; [lia|].
    rewrite filter_cons.
    destruct (decide (e_buscar ev = true)) as [E|E]; simpl.
    + destruct (busca_aceita st ev); simpl; lia.
    + destruct ev; simpl in *; try lia; contradiction.
Qed.
